(** * Sprint impact service front end: API clients, action execution,
      feedback logging, metric cards and sprint figures.

    The development follows the JavaScript sources: the two [ApiClient]
    classes ([api.js] and the older copy of it), [ImpactAnalyzer.jsx]
    ([executeAction], [logFeedback], [handleAction] and the metric cards),
    [ImpactDashboard.jsx] (the metric cards and the risk banner),
    [Dashboard.jsx] (the days cell of a sprint card) and [Analytics.jsx]
    (the history table and the burndown chart). *)

From Stdlib Require Import ZArith QArith Qminmax Qround Lia Lqa Ascii DecimalString
  SpecFloat.
From stdpp Require Import base strings list sorting gmap pretty.

Local Open Scope string_scope.

(** ** HTTP requests as the clients build them *)

Module Http.

Inductive Method := GET | POST | PUT | PATCH | DELETE.

#[global] Instance Method_eq_dec : EqDecision Method.
Proof. solve_decision. Defined.

(** What [executeAction] stores for a backlog item:
    [{ ...base, sprint_id }]. A [sprint_id] of [None] is JavaScript's
    [null]. *)
Record ItemPayload := {
  title : string;
  description : string;
  story_points : Z;
  priority : string;
  type : string;
  space_id : string;
  status : string;
  sprint_id : option string;
}.

(** The argument of [JSON.stringify] in a request, by shape. *)
Inductive Body :=
| NewItem (p : ItemPayload)
| SprintPatch (sprint : option string)
| Feedback (accepted : bool) (taken_action : string)
| Raw (data : string).

(** The [options] argument of [request]; a call that passes no [method]
    leaves it to [fetch], which then sends a GET. *)
Record Options := {
  method : option Method;
  body : option Body;
}.

Record Call := {
  endpoint : string;
  options : Options;
}.

Definition no_options : Options := {| method := None; body := None |}.

Definition http_method (c : Call) : Method :=
  default GET (method (options c)).

Definition API_BASE_URL : string := "http://localhost:8000/api".

Definition url (c : Call) : string := API_BASE_URL +:+ endpoint c.

End Http.

Import Http.

(** ** [api.js]: the client the components import *)

Module ApiClient.

Definition createBacklogItem (data : Body) : Call :=
  {| endpoint := "/backlog/";
     options := {| method := Some POST; body := Some data |} |}.

Definition getBacklogItemsBySprint (sprintId : string) : Call :=
  {| endpoint := "/backlog/sprint/" +:+ sprintId; options := no_options |}.

Definition updateBacklogItem (id : string) (data : Body) : Call :=
  {| endpoint := "/backlog/" +:+ id;
     options := {| method := Some PUT; body := Some data |} |}.

Definition getSprintContext (sprintId : string) : Call :=
  {| endpoint := "/impact/sprints/" +:+ sprintId +:+ "/context";
     options := no_options |}.

Definition analyzeImpact (data : Body) : Call :=
  {| endpoint := "/impact/analyze";
     options := {| method := Some POST; body := Some data |} |}.

Definition recordImpactFeedback (logId : string) (data : Body) : Call :=
  {| endpoint := "/impact/logs/" +:+ logId +:+ "/feedback";
     options := {| method := Some PATCH; body := Some data |} |}.

(** [getAnalysisHistory(spaceId, limit = 50)]: a missing second argument
    takes the default. *)
Definition getAnalysisHistory (spaceId : string) (limit : option N) : Call :=
  let limit := default 50%N limit in
  {| endpoint := "/impact/history/" +:+ spaceId +:+ "?limit=" +:+ pretty limit;
     options := no_options |}.

Definition getSprintBurndown (sprintId : string) : Call :=
  {| endpoint := "/analytics/sprints/" +:+ sprintId +:+ "/burndown";
     options := no_options |}.

Definition getSprintBurnup (sprintId : string) : Call :=
  {| endpoint := "/analytics/sprints/" +:+ sprintId +:+ "/burnup";
     options := no_options |}.

Definition getVelocityChart (spaceId : string) : Call :=
  {| endpoint := "/analytics/spaces/" +:+ spaceId +:+ "/velocity";
     options := no_options |}.

Definition predictStoryPoints (data : Body) : Call :=
  {| endpoint := "/ai/predict";
     options := {| method := Some POST; body := Some data |} |}.

End ApiClient.

(** ** The older copy of the client *)

Module LegacyApiClient.

Definition createBacklogItem (data : Body) : Call :=
  {| endpoint := "/backlog/";
     options := {| method := Some POST; body := Some data |} |}.

Definition getBacklogItemsBySprint (sprintId : string) : Call :=
  {| endpoint := "/backlog/sprint/" +:+ sprintId; options := no_options |}.

Definition updateBacklogItem (id : string) (data : Body) : Call :=
  {| endpoint := "/backlog/" +:+ id;
     options := {| method := Some PUT; body := Some data |} |}.

Definition analyzeImpact (data : Body) : Call :=
  {| endpoint := "/impact/analyze";
     options := {| method := Some POST; body := Some data |} |}.

Definition getSprintContext (sprintId : string) : Call :=
  {| endpoint := "/impact/sprint/" +:+ sprintId +:+ "/context";
     options := no_options |}.

Definition batchAnalyzeImpact (items : Body) : Call :=
  {| endpoint := "/impact/batch-analyze";
     options := {| method := Some POST; body := Some items |} |}.

Definition predictStoryPoints (data : Body) : Call :=
  {| endpoint := "/ai/predict-story-points";
     options := {| method := Some POST; body := Some data |} |}.

Definition getSprintBurndown (sprintId : string) : Call :=
  {| endpoint := "/sprints/" +:+ sprintId +:+ "/burndown";
     options := no_options |}.

Definition getSprintBurnup (sprintId : string) : Call :=
  {| endpoint := "/sprints/" +:+ sprintId +:+ "/burnup";
     options := no_options |}.

Definition getVelocityChart (spaceId : string) : Call :=
  {| endpoint := "/spaces/" +:+ spaceId +:+ "/velocity";
     options := no_options |}.

End LegacyApiClient.

(** The operations both clients define and the claim names. *)
Inductive SharedOp :=
| OpSprintContext (sprintId : string)
| OpBurndown (sprintId : string)
| OpBurnup (sprintId : string)
| OpVelocity (spaceId : string)
| OpPredict (data : Body).

Definition current_call (op : SharedOp) : Call :=
  match op with
  | OpSprintContext s => ApiClient.getSprintContext s
  | OpBurndown s => ApiClient.getSprintBurndown s
  | OpBurnup s => ApiClient.getSprintBurnup s
  | OpVelocity s => ApiClient.getVelocityChart s
  | OpPredict d => ApiClient.predictStoryPoints d
  end.

Definition legacy_call (op : SharedOp) : Call :=
  match op with
  | OpSprintContext s => LegacyApiClient.getSprintContext s
  | OpBurndown s => LegacyApiClient.getSprintBurndown s
  | OpBurnup s => LegacyApiClient.getSprintBurnup s
  | OpVelocity s => LegacyApiClient.getVelocityChart s
  | OpPredict d => LegacyApiClient.predictStoryPoints d
  end.

(** The claimed equivalence: same method and same endpoint path. *)
Definition same_request (a b : Call) : Prop :=
  http_method a = http_method b ∧ endpoint a = endpoint b.

(** ** The client at run time

    [request] hands the call to [fetch] and turns the answer into a value
    or a thrown [Error]. The server behind [fetch] is a parameter: what
    the components do is stated for every server. An [async] function is
    a computation over the state of the page (the server, the requests
    sent so far, the React state); awaited calls run in sequence. *)

Module Form.

(** [formData] of the analyzer form. *)
Record FormData := {
  title : string;
  description : string;
  story_points : Z;
  priority : string;
  type : string;
}.

End Form.

Module Client.

(** The fields of a parsed JSON body the components read; the rest of
    the body is kept as text. *)
Record HistoryRow := {
  log_id : string;
  date : Z;
  item : string;
  row_taken_action : option string;
}.

Record Json := {
  detail : option string;
  history : option (list HistoryRow);
  text : string;
}.

(** A response of [fetch]. [json] is [inr e] when [response.json()]
    rejects with message [e]. *)
Record Response := {
  ok : bool;
  http_status : nat;
  statusText : string;
  json : Json + string;
}.

Inductive FetchResult :=
| Rejected (message : string)
| Responded (r : Response).

(** The object [executeAction] returns; [requiresManual] is only set by
    SPLIT and reads as false elsewhere. *)
Record ActionResult := {
  result_ok : bool;
  requiresManual : bool;
  message : string;
  data : option Json;
}.

(** [recommendation.target_ticket], as far as [executeAction] reads it:
    [target.id] and [target.title]. *)
Record Ticket := {
  id : option string;
  ticket_title : string;
}.

Record Recommendation := {
  recommendation_type : option string;
  target_ticket : option Ticket;
}.

(** The props of [RecommendationCard]. [sprintId] is
    [selectedSprint?.id] and [logId] is [analysis.log_id]; both may be
    missing. *)
Record Props := {
  recommendation : option Recommendation;
  formData : Form.FormData;
  sprintId : option string;
  spaceId : string;
  logId : option string;
}.

(** React state of the card ([executing], [done], [doneMsg]) and of the
    analyzer around it ([actionResult], [sprintContext]), with the
    [alert] boxes shown so far. *)
Record UI := {
  executing : bool;
  done : bool;
  doneMsg : string;
  alerts : list string;
  actionResult : option ActionResult;
  sprintContext : option Json;
}.

(** How an awaited call ends: with a value or with a thrown [Error],
    known by its [message]. *)
Inductive Res (A : Type) :=
| Ok (a : A)
| Throw (message : string).

Arguments Ok {A} a.
Arguments Throw {A} message.

(** JavaScript truthiness of a string that may be missing. *)
Definition truthy (s : option string) : bool :=
  match s with
  | Some v => bool_decide (v ≠ "")
  | None => false
  end.

(** The double quote of the messages. *)
Definition dq : string := String "034"%char "".

Section WithServer.

Context {W : Type}.
Variable fetch : Call → W → FetchResult * W.

Record State := {
  server : W;
  sent : list Call;
  ui : UI;
}.

(** An [async] function: it runs on the state of the page and ends as
    [Res] says. *)
Definition M (A : Type) : Type := State → Res A * State.

Definition ret {A} (a : A) : M A := λ s, (Ok a, s).

Definition throw {A} (e : string) : M A := λ s, (Throw e, s).

Definition bind {A B} (m : M A) (k : A → M B) : M B := λ s,
  match m s with
  | (Ok a, s') => k a s'
  | (Throw e, s') => (Throw e, s')
  end.

(** [try { body } catch (e) { handler(e) }] *)
Definition try_catch {A} (body : M A) (handler : string → M A) : M A := λ s,
  match body s with
  | (Ok a, s') => (Ok a, s')
  | (Throw e, s') => handler e s'
  end.

(** [try { body } finally { final }] *)
Definition try_finally {A} (body : M A) (final : M unit) : M A := λ s,
  match body s with
  | (r, s') =>
      match final s' with
      | (Ok _, s'') => (r, s'')
      | (Throw e, s'') => (Throw e, s'')
      end
  end.

Notation "'await' x ← m ; k" := (bind m (λ x, k))
  (at level 20, x name, m at level 100, k at level 200, only parsing).
Notation "m ;; k" := (bind m (λ _, k))
  (at level 100, k at level 200, right associativity, only parsing).

(** The state setters of React, and [alert]. *)
Definition set_ui (f : UI → UI) : M unit := λ s,
  (Ok (), {| server := server s; sent := sent s; ui := f (ui s) |}).

Definition setExecuting (b : bool) : M unit :=
  set_ui (λ u, {| executing := b; done := done u; doneMsg := doneMsg u;
                  alerts := alerts u; actionResult := actionResult u;
                  sprintContext := sprintContext u |}).

Definition setDone (b : bool) : M unit :=
  set_ui (λ u, {| executing := executing u; done := b; doneMsg := doneMsg u;
                  alerts := alerts u; actionResult := actionResult u;
                  sprintContext := sprintContext u |}).

Definition setDoneMsg (m : string) : M unit :=
  set_ui (λ u, {| executing := executing u; done := done u; doneMsg := m;
                  alerts := alerts u; actionResult := actionResult u;
                  sprintContext := sprintContext u |}).

Definition alert (m : string) : M unit :=
  set_ui (λ u, {| executing := executing u; done := done u; doneMsg := doneMsg u;
                  alerts := alerts u ++ [m]; actionResult := actionResult u;
                  sprintContext := sprintContext u |}).

Definition setActionResult (r : option ActionResult) : M unit :=
  set_ui (λ u, {| executing := executing u; done := done u; doneMsg := doneMsg u;
                  alerts := alerts u; actionResult := r;
                  sprintContext := sprintContext u |}).

Definition setSprintContext (c : option Json) : M unit :=
  set_ui (λ u, {| executing := executing u; done := done u; doneMsg := doneMsg u;
                  alerts := alerts u; actionResult := actionResult u;
                  sprintContext := c |}).

(** [ApiClient.request] of [api.js]. *)
Definition request (c : Call) : M (option Json) := λ s,
  let '(r, w) := fetch c (server s) in
  let s' := {| server := w; sent := sent s ++ [c]; ui := ui s |} in
  match r with
  | Rejected e => (Throw e, s')
  | Responded response =>
      if negb (ok response) then
        let error_detail :=
          match json response with
          | inl j => detail j
          | inr _ => Some (statusText response)
          end in
        (Throw (if truthy error_detail then default "" error_detail
                else "An error occurred"), s')
      else if decide (http_status response = 204%nat) then (Ok None, s')
      else
        match json response with
        | inl j => (Ok (Some j), s')
        | inr e => (Throw e, s')
        end
  end.

(** [base] of [executeAction] with the [sprint_id] the case adds. *)
Definition new_item (spaceId : string) (formData : Form.FormData)
    (sprint : option string) : ItemPayload :=
  {| Http.title := Form.title formData;
     Http.description := Form.description formData;
     Http.story_points := Form.story_points formData;
     Http.priority := Form.priority formData;
     Http.type := Form.type formData;
     space_id := spaceId;
     status := "To Do";
     sprint_id := sprint |}.

(** [executeAction]: the [switch] over the action, case by case. *)
Definition executeAction (action : string) (recommendation : option Recommendation)
    (sprintId : option string) (spaceId : string) (formData : Form.FormData)
    : M ActionResult :=
  let title := Form.title formData in
  if decide (action = "ADD" ∨ action = "ACCEPT") then
    await res ← request (ApiClient.createBacklogItem
                           (NewItem (new_item spaceId formData sprintId)));
    ret {| result_ok := true; requiresManual := false;
           message := dq +:+ title +:+ dq +:+ " added to sprint.";
           data := res |}
  else if decide (action = "SWAP") then
    let target := recommendation ≫= target_ticket in
    match target with
    | Some t =>
        if truthy (id t) then
          (request (ApiClient.updateBacklogItem (default "" (id t))
                      (SprintPatch None)) ;;
           await res ← request (ApiClient.createBacklogItem
                                  (NewItem (new_item spaceId formData sprintId)));
           ret {| result_ok := true; requiresManual := false;
                  message := "Swapped: " +:+ dq +:+ ticket_title t +:+ dq
                             +:+ " → backlog. " +:+ dq +:+ title +:+ dq
                             +:+ " → sprint.";
                  data := res |})
        else throw "No swap target in recommendation."
    | None => throw "No swap target in recommendation."
    end
  else if decide (action = "DEFER") then
    await res ← request (ApiClient.createBacklogItem
                           (NewItem (new_item spaceId formData None)));
    ret {| result_ok := true; requiresManual := false;
           message := dq +:+ title +:+ dq
                      +:+ " saved to backlog for next sprint.";
           data := res |}
  else if decide (action = "SPLIT") then
    await res ← request (ApiClient.createBacklogItem
                           (NewItem (new_item spaceId formData None)));
    ret {| result_ok := true; requiresManual := true;
           message := dq +:+ title +:+ dq
                      +:+ " saved to backlog. Split it into sub-tickets before planning.";
           data := res |}
  else throw ("Unknown action: " +:+ action).

(** [logFeedback]: nothing is sent without a log id, and whatever the
    patch throws is caught and dropped. *)
Definition logFeedback (logId : option string) (accepted : bool)
    (takenAction : string) : M unit :=
  if negb (truthy logId) then ret ()
  else
    try_catch
      (request (ApiClient.recordImpactFeedback (default "" logId)
                  (Feedback accepted takenAction)) ;;
       ret ())
      (λ _, ret ()).

(** [loadSprintContext] of the analyzer. *)
Definition loadSprintContext (sprintId : string) : M unit :=
  try_catch
    (await ctx ← request (ApiClient.getSprintContext sprintId);
     setSprintContext ctx)
    (λ _, setSprintContext None).

(** The [onActionDone] the analyzer passes to the card; [selected] is
    the id of [selectedSprint] when there is one. The analyzer does not
    wait for the reload; here it runs at once, which keeps the order of
    the requests. *)
Definition onActionDone (selected : option string) (result : ActionResult) : M unit :=
  setActionResult (Some result) ;;
  match selected with
  | Some sid => loadSprintContext sid
  | None => ret ()
  end.

(** [type] of the card: the recommended action, DEFER when the
    recommendation names none. *)
Definition card_type (recommendation : option Recommendation) : string :=
  default "DEFER" (recommendation ≫= recommendation_type).

Definition ACTION_KEYS : list string := ["ADD"; "SWAP"; "DEFER"; "SPLIT"; "ACCEPT"].

(** The buttons under OR CHOOSE MANUALLY. *)
Definition alternatives (type : string) : list string :=
  filter (λ k, k ≠ type ∧ k ≠ "ACCEPT") ACTION_KEYS.

(** [actionType === type ? 'FOLLOWED_RECOMMENDATION'
                            : 'IGNORED_RECOMMENDATION'] *)
Definition classify (actionType type : string) : string :=
  if decide (actionType = type) then "FOLLOWED_RECOMMENDATION"
  else "IGNORED_RECOMMENDATION".

(** [handleAction] of [RecommendationCard]. *)
Definition handleAction (p : Props) (actionType : string) : M unit :=
  let type := card_type (recommendation p) in
  setExecuting true ;;
  try_finally
    (try_catch
       (await result ← executeAction actionType (recommendation p) (sprintId p)
                          (spaceId p) (formData p);
        logFeedback (logId p) true (classify actionType type) ;;
        setDone true ;;
        setDoneMsg (message result) ;;
        onActionDone (sprintId p) result)
       (λ err, alert ("Action failed: " +:+ err)))
    (setExecuting false).

End WithServer.

End Client.

(** ** The server side

    The FastAPI service is not part of the front end sources. What the
    components rely on is modelled from the specification: the backlog
    store behind the CRUD routes and the AnalysisLogStore
    ([record], [patch], [history]). A request may also fail before it
    reaches a store; [faults] scripts that, one entry per request. *)

Module Backend.

(** Modelled from the spec: a stored BacklogItem (section 3): its
    identifier and the fields a create sends, the sprint reference among
    them. *)
Record BacklogItem := {
  item_id : string;
  fields : ItemPayload;
}.

(** Modelled from the spec: an AnalysisLog (section 3), with the fields
    the history shows and the feedback sets. *)
Record AnalysisLog := {
  log_id : string;
  log_space : string;
  item : string;
  recommendation_type : string;
  timestamp : Z;
  taken_action : option string;
  accepted : option bool;
}.

Inductive Fault :=
| Unreachable (message : string)
| Refused (status : nat) (detail : string).

Record Server := {
  items : list BacklogItem;
  logs : list AnalysisLog;
  faults : list (option Fault);
}.

Definition with_items (s : Server) (l : list BacklogItem) : Server :=
  {| items := l; logs := logs s; faults := faults s |}.

Definition with_logs (s : Server) (l : list AnalysisLog) : Server :=
  {| items := items s; logs := l; faults := faults s |}.

Definition answer (rows : option (list Client.HistoryRow)) (text : string)
    : Client.Response :=
  {| Client.ok := true; Client.http_status := 200; Client.statusText := "OK";
     Client.json := inl {| Client.detail := None; Client.history := rows;
                           Client.text := text |} |}.

Definition refuse (status : nat) (detail : string) : Client.Response :=
  {| Client.ok := false; Client.http_status := status;
     Client.statusText := "Error";
     Client.json := inl {| Client.detail := Some detail; Client.history := None;
                           Client.text := "" |} |}.

(** Modelled from the spec: the identifier of a new BacklogItem (section
    3, "BacklogItem: identifier, ..."), which the service chooses; here
    the payload goes under an identifier that counts the stored items. *)
Definition fresh_item (s : Server) (p : ItemPayload) : BacklogItem :=
  {| item_id := "item-" +:+ pretty (length (items s)); fields := p |}.

(** Modelled from the spec: the CRUD layer's create (section 6,
    "BacklogItem create/update (sprint reassignment) triggered by executed
    actions"); the new item is appended under a fresh identifier. *)
Definition create_item (p : ItemPayload) (s : Server) : Client.Response * Server :=
  let new := fresh_item s p in
  (answer None (item_id new), with_items s (items s ++ [new])).

Definition reassign (sprint : option string) (i : BacklogItem) : BacklogItem :=
  {| item_id := item_id i;
     fields := {| title := title (fields i);
                  description := description (fields i);
                  story_points := story_points (fields i);
                  priority := priority (fields i);
                  type := type (fields i);
                  space_id := space_id (fields i);
                  status := status (fields i);
                  sprint_id := sprint |} |}.

(** Modelled from the spec: sprint reassignment of the item [id]
    (section 3, "Sprint reference is the sole linkage used by the
    engine"): the sprint reference of that item changes, nothing else. *)
Definition move_item (id : string) (sprint : option string)
    (l : list BacklogItem) : list BacklogItem :=
  (λ i, if decide (item_id i = id) then reassign sprint i else i) <$> l.

(** Modelled from the spec: the CRUD layer's update (section 3,
    "reassignment (SWAP/DEFER/SPLIT) is a field mutation, not a new
    entity"); an unknown id is NotFound and changes nothing. *)
Definition update_item (id : string) (sprint : option string) (s : Server)
    : Client.Response * Server :=
  if decide (id ∈ item_id <$> items s)
  then (answer None id, with_items s (move_item id sprint (items s)))
  else (refuse 404 "Backlog item not found", s).

Definition set_feedback (acc : bool) (taken : string) (l : AnalysisLog) : AnalysisLog :=
  {| log_id := log_id l; log_space := log_space l; item := item l;
     recommendation_type := recommendation_type l; timestamp := timestamp l;
     taken_action := Some taken; accepted := Some acc |}.

(** Modelled from the spec: AnalysisLogStore.patch (section 4.4,
    "patch(log_id, {accepted, taken_action}) -> success | fails(NotFound)",
    "the store only persists what it is told; it does not recompute this
    classification"). *)
Definition patch (id : string) (acc : bool) (taken : string)
    (l : list AnalysisLog) : option (list AnalysisLog) :=
  if decide (id ∈ log_id <$> l)
  then Some ((λ g, if decide (log_id g = id) then set_feedback acc taken g else g) <$> l)
  else None.

Definition set_pending (g : AnalysisLog) : AnalysisLog :=
  {| log_id := log_id g; log_space := log_space g; item := item g;
     recommendation_type := recommendation_type g; timestamp := timestamp g;
     taken_action := None; accepted := None |}.

(** Modelled from the spec: AnalysisLogStore.record (section 3,
    "Created at analysis time with taken_action = null"; section 4.4,
    "record(log) -> log_id"); the log is appended. *)
Definition record (g : AnalysisLog) (l : list AnalysisLog) : list AnalysisLog :=
  l ++ [set_pending g].

(** Newest first: the log on the left is at least as recent. *)
Definition newer (a b : AnalysisLog) : Prop := (timestamp b ≤ timestamp a)%Z.

#[global] Instance newer_dec a b : Decision (newer a b).
Proof. unfold newer. apply _. Defined.

(** Modelled from the spec: AnalysisLogStore.history (section 4.4,
    "history(spaceId, limit) -> ordered sequence of AnalysisLog, newest
    first, bounded by limit"): the logs of the space, sorted by
    timestamp, cut at [limit]. *)
Definition history (spaceId : string) (limit : N) (l : list AnalysisLog)
    : list AnalysisLog :=
  take (N.to_nat limit)
       (merge_sort newer (filter (λ g, log_space g = spaceId) l)).

(** Modelled from the spec: one entry of the history response (section
    6, "{history: [{log_id, date, item, ..., taken_action}]}"). *)
Definition row (g : AnalysisLog) : Client.HistoryRow :=
  {| Client.log_id := log_id g; Client.date := timestamp g;
     Client.item := item g; Client.row_taken_action := taken_action g |}.

(** *** Routing

    The paths are the ones [api.js] builds; the server reads the ids
    back out of them. *)

Fixpoint strip_prefix (pre s : string) : option string :=
  match pre, s with
  | EmptyString, _ => Some s
  | String a pre', String b s' =>
      if decide (a = b) then strip_prefix pre' s' else None
  | String _ _, EmptyString => None
  end.

Fixpoint strip_suffix (suf s : string) : option string :=
  if decide (s = suf) then Some EmptyString
  else
    match s with
    | EmptyString => None
    | String a s' => String a <$> strip_suffix suf s'
    end.

(** [split_on sep s]: the text before the first [sep] and the text after
    it. *)
Fixpoint split_on (sep s : string) : option (string * string) :=
  match strip_prefix sep s with
  | Some rest => Some (EmptyString, rest)
  | None =>
      match s with
      | EmptyString => None
      | String a s' => prod_map (String a) id <$> split_on sep s'
      end
  end.

Definition parse_N (s : string) : option N :=
  N.of_uint <$> NilEmpty.uint_of_string s.

Definition not_found : Client.Response := refuse 404 "Not Found".

(** Modelled from the spec: the operations the service exposes (section
    6), under the paths and methods [api.js] uses for them. A request
    that matches none of the modelled writes is a read (200, no change)
    or NotFound. *)
Definition route (c : Call) (s : Server) : Client.Response * Server :=
  match http_method c, body (options c) with
  | POST, Some (NewItem p) =>
      if decide (endpoint c = "/backlog/") then create_item p s
      else (not_found, s)
  | PUT, Some (SprintPatch sprint) =>
      match strip_prefix "/backlog/" (endpoint c) with
      | Some id => update_item id sprint s
      | None => (not_found, s)
      end
  | PATCH, Some (Feedback acc taken) =>
      match strip_prefix "/impact/logs/" (endpoint c) ≫= strip_suffix "/feedback" with
      | Some id =>
          match patch id acc taken (logs s) with
          | Some l => (answer None id, with_logs s l)
          | None => (refuse 404 "Log not found", s)
          end
      | None => (not_found, s)
      end
  | GET, _ =>
      match strip_prefix "/impact/history/" (endpoint c) ≫= split_on "?limit=" with
      | Some (spaceId, n) =>
          match parse_N n with
          | Some limit => (answer (Some (row <$> history spaceId limit (logs s))) "", s)
          | None => (refuse 422 "Invalid limit", s)
          end
      | None => (answer None "", s)
      end
  | _, _ => (not_found, s)
  end.

Definition with_faults (s : Server) (f : list (option Fault)) : Server :=
  {| items := items s; logs := logs s; faults := f |}.

(** Modelled from the spec: [fetch] against the service, with the
    failures of section 7 (StorageUnavailable and the like): the next
    entry of [faults] decides whether the request gets through, and a
    request that does not get through changes no store. *)
Definition serve (c : Call) (s : Server) : Client.FetchResult * Server :=
  match faults s with
  | Some (Unreachable e) :: rest => (Client.Rejected e, with_faults s rest)
  | Some (Refused status d) :: rest =>
      (Client.Responded (refuse status d), with_faults s rest)
  | None :: rest =>
      let '(r, s') := route c (with_faults s rest) in (Client.Responded r, s')
  | [] =>
      let '(r, s') := route c s in (Client.Responded r, s')
  end.

(** An id that can stand in front of a query string: no [?] in it. *)
Fixpoint plain (s : string) : Prop :=
  match s with
  | EmptyString => True
  | String a s' => a ≠ "?"%char ∧ plain s'
  end.

(** The next request reaches the service. *)
Definition gets_through (s : Server) : Prop :=
  match faults s with
  | Some _ :: _ => False
  | _ => True
  end.

End Backend.

(** ** [Analytics.jsx]: the history table and the burndown chart *)

Module Analytics.

(** State of [HistoryTable]. *)
Record HistoryState := {
  logs : list Client.HistoryRow;
  loading : bool;
  error : option string;
}.

Section WithServer.

Context {W : Type}.
Variable fetch : Call → W → Client.FetchResult * W.

(** [load] of [HistoryTable]: [api.getAnalysisHistory(spaceId)] with no
    limit given, then [setLogs(res.history || [])]; an error (also the
    one of reading [history] off a [null] body) goes to [setError]. The
    rows are kept in the order they arrive. *)
Definition load (spaceId : option string) (h : HistoryState) (st : Client.State)
    : HistoryState * Client.State :=
  if negb (Client.truthy spaceId)
  then ({| logs := logs h; loading := false; error := error h |}, st)
  else
    match Client.request fetch
            (ApiClient.getAnalysisHistory (default "" spaceId) None) st with
    | (Client.Ok (Some res), st') =>
        ({| logs := default [] (Client.history res); loading := false;
            error := None |}, st')
    | (Client.Ok None, st') =>
        ({| logs := logs h; loading := false;
            error := Some "Cannot read properties of null (reading 'history')" |},
         st')
    | (Client.Throw e, st') =>
        ({| logs := logs h; loading := false; error := Some e |}, st')
    end.

End WithServer.

(** One entry of [ideal_burndown]; [date] counts calendar days. The
    numbers of the chart are JavaScript doubles, taken here as exact
    rationals. *)
Record IdealPoint := {
  date : Z;
  ideal : Q;
}.

Record BurndownData := {
  ideal_burndown : list IdealPoint;
  total_points : Q;
  done_points : Q;
  remaining_points : Q;
}.

(** [sc([d0, d1], [r0, r1])]: the linear scale of the charts; a domain
    of width zero counts as width one. *)
Definition sc (d0 d1 r0 r1 : Q) (v : Q) : Q :=
  (let width := if Qeq_bool (d1 - d0) 0 then 1 else d1 - d0 in
   r0 + ((v - d0) / width) * (r1 - r0))%Q.

Definition cw : Q := (520 - 44 - 20)%Q.
Definition ch : Q := (220 - 12 - 40)%Q.

(** [maxSP = Math.max(data.total_points || 1, 1)]. *)
Definition maxSP (data : BurndownData) : Q :=
  Qmax (if Qeq_bool (total_points data) 0 then 1 else total_points data)%Q 1%Q.

Definition xSc (data : BurndownData) : Q → Q :=
  sc 0%Q (inject_Z (Z.of_nat (length (ideal_burndown data)) - 1)) 0%Q cw.

Definition ySc (data : BurndownData) : Q → Q :=
  sc 0%Q (maxSP data) ch 0%Q.

(** [idealPts] of [BurndownChart]: one plotted point per entry of the
    series, in order. *)
Definition idealPts (data : BurndownData) : list (Q * Q) :=
  imap (λ i d, (xSc data (inject_Z (Z.of_nat i)), ySc data (ideal d)))
       (ideal_burndown data).

(** Modelled from the spec: ChartDataGenerator.burndown (section 4.5,
    "Ideal series is a linear interpolation from total_points at sprint
    start to 0 at sprint end, one point per calendar day inclusive of
    both endpoints"). The generator runs on the server and is not among
    the front end sources. [start] and [finish] are the sprint's first
    and last calendar day. *)
Definition ideal_on (total : N) (start finish day : Z) : Q :=
  (inject_Z (Z.of_N total)
   * (inject_Z (finish - day) / inject_Z (finish - start)))%Q.

(** Modelled from the spec: the ideal series itself (section 4.5, "one
    point per calendar day inclusive of both endpoints"), for a sprint
    that runs from day [start] to day [finish]. *)
Definition ideal_series (total : N) (start finish : Z) : list IdealPoint :=
  (λ day, {| date := day; ideal := ideal_on total start finish day |})
    <$> seqZ start (finish - start + 1).

(** Modelled from the spec: the response of [burndown(sprintId)]
    (section 4.5, "{ideal_burndown: [{date, ideal}], total_points,
    done_points, remaining_points}"), from the story points of the
    sprint's items and whether each is done. *)
Definition burndown (start finish : Z) (items : list (N * bool)) : BurndownData :=
  let total := foldr N.add 0%N (fst <$> items) in
  let finished := foldr N.add 0%N (fst <$> filter (λ i, snd i = true) items) in
  {| ideal_burndown := ideal_series total start finish;
     total_points := inject_Z (Z.of_N total);
     done_points := inject_Z (Z.of_N finished);
     remaining_points := inject_Z (Z.of_N total - Z.of_N finished) |}.

End Analytics.

(** ** [Dashboard.jsx]: the Days cell of a sprint card *)

Module Dashboard.

(** The dates of a sprint as [new Date(...)] reads them, in milliseconds
    since the epoch; [None] is a missing date. *)
Record Sprint := {
  start_date : option Z;
  end_date : option Z;
}.

Inductive DaysCell :=
| Days (n : Z)
| NA.

(** [sprint.start_date && sprint.end_date
       ? Math.max(0, Math.ceil((new Date(sprint.end_date) - new Date()) / 86400000))
       : 'N/A'] *)
Definition days_cell (sprint : Sprint) (now : Z) : DaysCell :=
  match start_date sprint, end_date sprint with
  | Some _, Some e =>
      Days (Z.max 0 (Qceiling (inject_Z (e - now) / inject_Z 86400000)%Q))
  | _, _ => NA
  end.

End Dashboard.

(** ** The metric cards *)

Module Metrics.

(** One entry of [display]. *)
Record Metric := {
  value : string;
  status : string;
  label : string;
  sub_text : string;
}.


End Metrics.

(** *** [ImpactDashboard.jsx] *)

Module ImpactDashboard.

Import Metrics.

Definition CARD_KEYS : list string :=
  ["effort"; "schedule"; "productivity"; "quality"].

(** The props of a [RiskCard]. *)
Record Card := {
  metricKey : string;
  label : string;
  value : string;
  status : string;
  sub_text : string;
}.

(** The body of [CARD_KEYS.map(key => ...)]. *)
Definition card (display : gmap string Metric) (key : string) : Card :=
  match display !! key with
  | None =>
      {| metricKey := key;
         label := "Data unavailable";
         value := "—";
         status := "warning";
         sub_text := "This metric was not returned by the ML model." |}
  | Some d =>
      {| metricKey := key;
         label := Metrics.label d;
         value := Metrics.value d;
         status := Metrics.status d;
         sub_text := Metrics.sub_text d |}
  end.

Definition metrics (display : gmap string Metric) : list Card :=
  card display <$> CARD_KEYS.


Definition count_status (s : string) (l : list Card) : nat :=
  length (filter (λ m, status m = s) l).

(** [level] of [OverallRiskBanner]. *)
Definition level (l : list Card) : string :=
  let critCount := count_status "critical" l in
  let warnCount := count_status "warning" l in
  if decide (2 ≤ critCount)%nat then "CRITICAL RISK"
  else if decide (critCount = 1 ∨ 2 ≤ warnCount)%nat then "ELEVATED RISK"
  else "LOW RISK".

(** What the component renders: a note when there is no [display] at
    all, else the banner and the four cards. *)
Inductive View :=
| NoData (note : string)
| Board (banner : string) (cards : list Card).

Definition render (display : option (gmap string Metric)) : View :=
  match display with
  | None => NoData "No impact data available yet."
  | Some d => Board (level (metrics d)) (metrics d)
  end.

End ImpactDashboard.

(** *** The result cards of [ImpactAnalyzer.jsx] *)

Module ImpactAnalyzer.

Import Metrics.

(** One entry of the array the analyzer maps over. *)
Module Heading.

Record t := {
  key : string;
  icon : string;
  label : string;
}.

End Heading.

Definition HEADINGS : list Heading.t :=
  [{| Heading.key := "effort"; Heading.icon := "⏱️";
      Heading.label := "Effort Estimate" |};
   {| Heading.key := "schedule"; Heading.icon := "📅";
      Heading.label := "Schedule Risk" |};
   {| Heading.key := "productivity"; Heading.icon := "📉";
      Heading.label := "Productivity Impact" |};
   {| Heading.key := "quality"; Heading.icon := "🐛";
      Heading.label := "Quality Risk" |}].

Definition getStatusBadge (status : string) : string :=
  if decide (status = "safe") then "🟢 Safe"
  else if decide (status = "warning") then "🟡 Warning"
  else if decide (status = "critical") then "🔴 Critical"
  else "⚪ Unknown".

(** What a rendered card shows: the heading line, then the metric's
    value, badge, label and text. *)
Record Card := {
  heading : string;
  value : string;
  badge : string;
  label : string;
  sub_text : string;
}.

(** The body of the map: [if (!m) return null]. *)
Definition card (display : gmap string Metric) (h : Heading.t) : option Card :=
  match display !! Heading.key h with
  | None => None
  | Some m =>
      Some {| heading := Heading.icon h +:+ " " +:+ Heading.label h;
              value := Metrics.value m;
              badge := getStatusBadge (Metrics.status m);
              label := Metrics.label m;
              sub_text := Metrics.sub_text m |}
  end.

Definition cards (display : gmap string Metric) : list (option Card) :=
  card display <$> HEADINGS.

End ImpactAnalyzer.

(** ** A sample page

    One space with one item in sprint [s1], one pending analysis log,
    and a recommendation to swap that item out. *)

Module Sample.

Definition form : Form.FormData :=
  {| Form.title := "Payment gateway"; Form.description := "Card payments";
     Form.story_points := 5; Form.priority := "High"; Form.type := "Story" |}.

Definition target : Client.Ticket :=
  {| Client.id := Some "item-0"; Client.ticket_title := "Export report" |}.

Definition props : Client.Props :=
  {| Client.recommendation :=
       Some {| Client.recommendation_type := Some "SWAP";
               Client.target_ticket := Some target |};
     Client.formData := form;
     Client.sprintId := Some "s1";
     Client.spaceId := "space-1";
     Client.logId := Some "log-1" |}.

Definition old_item : Backend.BacklogItem :=
  {| Backend.item_id := "item-0";
     Backend.fields :=
       {| title := "Export report"; description := "CSV export";
          story_points := 8; priority := "Low"; type := "Task";
          space_id := "space-1"; status := "To Do"; sprint_id := Some "s1" |} |}.

Definition log (id : string) (at_ : Z) : Backend.AnalysisLog :=
  {| Backend.log_id := id; Backend.log_space := "space-1";
     Backend.item := "Payment gateway"; Backend.recommendation_type := "SWAP";
     Backend.timestamp := at_; Backend.taken_action := None;
     Backend.accepted := None |}.

Definition service (faults : list (option Backend.Fault)) : Backend.Server :=
  {| Backend.items := [old_item]; Backend.logs := [log "log-1" 1000];
     Backend.faults := faults |}.

(** The same space with two analyses logged at the same instant. *)
Definition twins : Backend.Server :=
  {| Backend.items := [old_item];
     Backend.logs := [log "log-1" 1000; log "log-2" 1000];
     Backend.faults := [] |}.

(** A store with the logs of two spaces, not in the order of their
    instants. *)
Definition archive : Backend.Server :=
  {| Backend.items := [];
     Backend.logs :=
       [log "log-1" 1000; log "log-2" 3000;
        {| Backend.log_id := "log-3"; Backend.log_space := "space-2";
           Backend.item := "Audit trail"; Backend.recommendation_type := "ADD";
           Backend.timestamp := 5000; Backend.taken_action := None;
           Backend.accepted := None |};
        log "log-4" 2000];
     Backend.faults := [] |}.

Definition no_history : Analytics.HistoryState :=
  {| Analytics.logs := []; Analytics.loading := true; Analytics.error := None |}.

Definition fresh_ui : Client.UI :=
  {| Client.executing := false; Client.done := false; Client.doneMsg := "";
     Client.alerts := []; Client.actionResult := None;
     Client.sprintContext := None |}.

Definition page (faults : list (option Backend.Fault)) : @Client.State Backend.Server :=
  {| Client.server := service faults; Client.sent := []; Client.ui := fresh_ui |}.

End Sample.

(** ** What the claims observe *)

Module Observe.

(** The feedback a request carries, if it is a feedback patch: the path,
    [accepted] and [taken_action]. *)
Definition feedback_of (c : Call) : option (string * bool * string) :=
  match body (options c) with
  | Some (Feedback acc taken) => Some (endpoint c, acc, taken)
  | _ => None
  end.

Definition feedbacks (l : list Call) : list (string * bool * string) :=
  omap feedback_of l.

(** The state [handleAction] runs the action in: [setExecuting(true)]
    has been called. *)
Definition started {W} (st : @Client.State W) : Client.State :=
  (Client.setExecuting true st).2.



(** C6 as the specification words it: each row is strictly newer than
    the rows after it. *)
Definition strictly_descending (rows : list Client.HistoryRow) : Prop :=
  StronglySorted (λ a b, (Client.date b < Client.date a)%Z) rows.

(** Newest first, rows of the same instant allowed. *)
Definition descending (rows : list Client.HistoryRow) : Prop :=
  StronglySorted (λ a b, (Client.date b ≤ Client.date a)%Z) rows.

End Observe.

(** ** What the specification asks of the server

    The history route and the chart generator are not among the front
    end sources. [Stated] words what the specification asks of them as
    predicates on their results, whatever computes these. *)

Module Stated.

(** An answer to [history(spaceId, limit)] on the stored logs [l]:
    [rows] are logs of the space, as many as the space has up to
    [limit], no log that is left out is newer than one that is
    returned, and the instants of the rows go down as [ordered] says. *)
Definition history_answer (ordered : Z → Z → Prop) (spaceId : string)
    (limit : N) (l rows : list Backend.AnalysisLog) : Prop :=
  let of_space := filter (λ g, Backend.log_space g = spaceId) l in
  rows ⊆+ of_space
  ∧ length rows = Nat.min (N.to_nat limit) (length of_space)
  ∧ (∀ g r, g ∈ of_space → g ∉ rows → r ∈ rows →
            (Backend.timestamp g ≤ Backend.timestamp r)%Z)
  ∧ StronglySorted (λ a b, ordered (Backend.timestamp a) (Backend.timestamp b))
                   rows.

(** The ideal series of a sprint that runs from day [start] to day
    [finish] with [total] points: one point per calendar day, both ends
    included; the first value is the total, the last is 0; every day
    drops by the same amount (the line between the two); no value is
    above the one before. *)
Definition interpolates (total : Q) (start finish : Z)
    (series : list Analytics.IdealPoint) : Prop :=
  Analytics.date <$> series = seqZ start (finish - start + 1)
  ∧ (∃ first, head series = Some first ∧ (Analytics.ideal first == total)%Q)
  ∧ (∃ final, last series = Some final ∧ (Analytics.ideal final == 0)%Q)
  ∧ (∀ i p q, series !! i = Some p → series !! S i = Some q →
              (Analytics.ideal p - Analytics.ideal q
               == total / inject_Z (finish - start))%Q)
  ∧ StronglySorted (λ p q, (Analytics.ideal q <= Analytics.ideal p)%Q) series.

End Stated.

(** ** Components with a state of their own

    The other components keep their own React state. [Page] is the
    state of a page for any such state [U]: the server, the requests
    sent, and the component's view. [request] is the one of [api.js]. *)

Module Page.

Definition idle : Client.UI :=
  {| Client.executing := false; Client.done := false; Client.doneMsg := "";
     Client.alerts := []; Client.actionResult := None;
     Client.sprintContext := None |}.

Section WithServer.

Context {W U : Type}.
Variable fetch : Call → W → Client.FetchResult * W.

Record State := {
  server : W;
  sent : list Call;
  view : U;
}.

Definition M (A : Type) : Type := State → Client.Res A * State.

Definition ret {A} (a : A) : M A := λ s, (Client.Ok a, s).

Definition throw {A} (e : string) : M A := λ s, (Client.Throw e, s).

Definition bind {A B} (m : M A) (k : A → M B) : M B := λ s,
  match m s with
  | (Client.Ok a, s') => k a s'
  | (Client.Throw e, s') => (Client.Throw e, s')
  end.

Definition try_catch {A} (body : M A) (handler : string → M A) : M A := λ s,
  match body s with
  | (Client.Ok a, s') => (Client.Ok a, s')
  | (Client.Throw e, s') => handler e s'
  end.

Definition try_finally {A} (body : M A) (final : M unit) : M A := λ s,
  match body s with
  | (r, s') =>
      match final s' with
      | (Client.Ok _, s'') => (r, s'')
      | (Client.Throw e, s'') => (Client.Throw e, s'')
      end
  end.

(** Reading and setting the component's state. *)
Definition get : M U := λ s, (Client.Ok (view s), s).

Definition modify (f : U → U) : M unit := λ s,
  (Client.Ok (), {| server := server s; sent := sent s; view := f (view s) |}).

(** [api.request]: [Client.request], run beside the view. *)
Definition request (c : Call) : M (option Client.Json) := λ s,
  let '(r, cs) :=
    Client.request fetch c
      {| Client.server := server s; Client.sent := sent s; Client.ui := idle |} in
  (r, {| server := Client.server cs; sent := Client.sent cs; view := view s |}).

(** A callback of the parent component ([onUpdate], [onSave],
    [onFinish]): it may send requests and may throw, and has no hold on
    this component's state. It is given by what it does to the server
    and the requests it sends. *)
Definition Remote (A : Type) : Type := W → Client.Res A * W * list Call.

Definition remote {A} (r : Remote A) : M A := λ s,
  let '(x, w, l) := r (server s) in
  (x, {| server := w; sent := sent s ++ l; view := view s |}).

(** [Promise.all([a, b, c])] over three requests: the three are started
    in order, whatever becomes of the others, and the whole rejects as
    soon as one of them does. Which rejection is reported when several
    fail depends on timing; the first in order is taken. *)
Definition all3 {A} (a b c : M A) : M (A * A * A) := λ s,
  let '(ra, s1) := a s in
  let '(rb, s2) := b s1 in
  let '(rc, s3) := c s2 in
  match ra, rb, rc with
  | Client.Ok x, Client.Ok y, Client.Ok z => (Client.Ok (x, y, z), s3)
  | Client.Throw e, _, _ => (Client.Throw e, s3)
  | _, Client.Throw e, _ => (Client.Throw e, s3)
  | _, _, Client.Throw e => (Client.Throw e, s3)
  end.

End WithServer.

Module Notations.

Notation "'await' x ← m ; k" := (bind m (λ x, k))
  (at level 20, x name, m at level 100, k at level 200, only parsing).
Notation "m ;; k" := (bind m (λ _, k))
  (at level 100, k at level 200, right associativity, only parsing).

End Notations.

End Page.

(** ** [ImpactAnalyzer.jsx]: the analyzer around the card *)

Module AnalyzerPage.

Import Page.Notations.

Record Sprint := {
  id : string;
  name : string;
  status : string;
  space_id : option string;
}.

(** The state of [ImpactAnalyzer], with the [alert] boxes shown. *)
Record View := {
  selectedSprint : option Sprint;
  formData : Form.FormData;
  analysis : option Client.Json;
  loading : bool;
  sprintContext : option Client.Json;
  actionResult : option Client.ActionResult;
  alerts : list string;
}.

(** The object [handleAnalyze] hands to [api.analyzeImpact]. *)
Record AnalyzeRequest := {
  sprint_id : string;
  title : string;
  description : string;
  story_points : Z;
  priority : string;
  type : string;
}.

Definition setSelectedSprint (s : option Sprint) (v : View) : View :=
  {| selectedSprint := s; formData := formData v; analysis := analysis v;
     loading := loading v; sprintContext := sprintContext v;
     actionResult := actionResult v; alerts := alerts v |}.

Definition setAnalysis (a : option Client.Json) (v : View) : View :=
  {| selectedSprint := selectedSprint v; formData := formData v; analysis := a;
     loading := loading v; sprintContext := sprintContext v;
     actionResult := actionResult v; alerts := alerts v |}.

Definition setLoading (b : bool) (v : View) : View :=
  {| selectedSprint := selectedSprint v; formData := formData v;
     analysis := analysis v; loading := b; sprintContext := sprintContext v;
     actionResult := actionResult v; alerts := alerts v |}.

Definition setSprintContext (c : option Client.Json) (v : View) : View :=
  {| selectedSprint := selectedSprint v; formData := formData v;
     analysis := analysis v; loading := loading v; sprintContext := c;
     actionResult := actionResult v; alerts := alerts v |}.

Definition setActionResult (r : option Client.ActionResult) (v : View) : View :=
  {| selectedSprint := selectedSprint v; formData := formData v;
     analysis := analysis v; loading := loading v;
     sprintContext := sprintContext v; actionResult := r; alerts := alerts v |}.

Definition alert (m : string) (v : View) : View :=
  {| selectedSprint := selectedSprint v; formData := formData v;
     analysis := analysis v; loading := loading v;
     sprintContext := sprintContext v; actionResult := actionResult v;
     alerts := alerts v ++ [m] |}.

(** [sprints?.find(s => s.status === 'Active') || sprints?.[0]] *)
Definition pick_sprint (sprints : list Sprint) : option Sprint :=
  match list_find (λ s, status s = "Active") sprints with
  | Some (_, s) => Some s
  | None => head sprints
  end.

(** [spaceId || selectedSprint?.space_id || ''] *)
Definition resolvedSpaceId (spaceId : option string) (v : View) : string :=
  if Client.truthy spaceId then default "" spaceId
  else
    let of_sprint := selectedSprint v ≫= space_id in
    if Client.truthy of_sprint then default "" of_sprint else "".

(** The props the analyzer hands to [RecommendationCard]; the
    recommendation and the log id are read off the analysis. *)
Definition card_props (spaceId : option string) (v : View)
    (recommendation : option Client.Recommendation) (logId : option string)
    : Client.Props :=
  {| Client.recommendation := recommendation;
     Client.formData := formData v;
     Client.sprintId := id <$> selectedSprint v;
     Client.spaceId := resolvedSpaceId spaceId v;
     Client.logId := logId |}.

Section WithServer.

Context {W : Type}.
Variable fetch : Call → W → Client.FetchResult * W.

(** [String.prototype.trim] and [JSON.stringify] of the runtime. *)
Variable trim : string → string.
Variable stringify : AnalyzeRequest → string.

Definition loadSprintContext (sprintId : string) : Page.M unit :=
  Page.try_catch
    (await ctx ← Page.request fetch (ApiClient.getSprintContext sprintId);
     Page.modify (setSprintContext ctx))
    (λ _, Page.modify (setSprintContext None)).

(** The effect that selects a sprint when the list arrives: the active
    one if any, and only when none is selected yet. *)
Definition autoSelect (sprints : list Sprint) : Page.M unit :=
  await v ← Page.get;
  match pick_sprint sprints, selectedSprint v with
  | Some active, None =>
      Page.modify (setSelectedSprint (Some active)) ;;
      loadSprintContext (id active)
  | _, _ => Page.ret ()
  end.

Definition handleSprintChange (sprints : list Sprint) (sprintId : string)
    : Page.M unit :=
  let sprint := snd <$> list_find (λ s, id s = sprintId) sprints in
  Page.modify (setSelectedSprint sprint) ;;
  Page.modify (setAnalysis None) ;;
  Page.modify (setActionResult None) ;;
  match sprint with
  | Some s => loadSprintContext (id s)
  | None => Page.ret ()
  end.

Definition handleAnalyze : Page.M unit :=
  await v ← Page.get;
  match selectedSprint v with
  | Some sprint =>
      if decide (trim (Form.title (formData v)) = "")
      then Page.modify (alert "Please select a sprint and enter a title")
      else
        Page.modify (setLoading true) ;;
        Page.modify (setAnalysis None) ;;
        Page.modify (setActionResult None) ;;
        Page.try_finally
          (Page.try_catch
             (await result ← Page.request fetch
                (ApiClient.analyzeImpact
                   (Raw (stringify
                           {| sprint_id := id sprint;
                              title := Form.title (formData v);
                              description := Form.description (formData v);
                              story_points := Form.story_points (formData v);
                              priority := Form.priority (formData v);
                              type := Form.type (formData v) |})));
              Page.modify (setAnalysis result))
             (λ err, Page.modify (alert ("Failed to analyze impact: " +:+ err))))
          (Page.modify (setLoading false))
  | None => Page.modify (alert "Please select a sprint and enter a title")
  end.

End WithServer.

End AnalyzerPage.

(** ** [ImpactDashboard.jsx]: the dot of the risk banner *)

Module RiskBanner.

(** The colour of the pulsing dot. *)
Definition dot (l : list ImpactDashboard.Card) : string :=
  let critCount := ImpactDashboard.count_status "critical" l in
  if decide (2 ≤ critCount)%nat then "bg-red-500"
  else if decide (critCount = 1)%nat then "bg-amber-500"
  else "bg-emerald-500".

End RiskBanner.

(** ** The [request] of the older client *)

Module LegacyRequest.

Section WithServer.

Context {W : Type}.
Variable fetch : Call → W → Client.FetchResult * W.

(** As [Client.request], but the body of a failed response is read with
    a bare [await response.json()]: when it does not parse, the parse
    error is what is thrown. *)
Definition request (c : Call) : Client.M (option Client.Json) := λ s,
  let '(r, w) := fetch c (Client.server s) in
  let s' := {| Client.server := w; Client.sent := Client.sent s ++ [c];
               Client.ui := Client.ui s |} in
  match r with
  | Client.Rejected e => (Client.Throw e, s')
  | Client.Responded response =>
      if negb (Client.ok response) then
        match Client.json response with
        | inl j =>
            (Client.Throw (if Client.truthy (Client.detail j)
                           then default "" (Client.detail j)
                           else "An error occurred"), s')
        | inr e => (Client.Throw e, s')
        end
      else if decide (Client.http_status response = 204%nat)
      then (Client.Ok None, s')
      else
        match Client.json response with
        | inl j => (Client.Ok (Some j), s')
        | inr e => (Client.Throw e, s')
        end
  end.

End WithServer.

End LegacyRequest.

(** ** [Analytics.jsx]: the geometry of the charts *)

Module Charts.

Import Analytics.

(** [clamp = (v, lo, hi) => Math.max(lo, Math.min(hi, v))] *)
Definition clamp (v lo hi : Q) : Q := Qmax lo (Qmin hi v).

(** [Math.round]: the nearest integer, a half going up. *)
Definition round (x : Q) : Z := Qfloor (x + (1 # 2))%Q.

(** [arr[i]] for a number [i]: the element when [i] is an index of the
    array, [undefined] otherwise. *)
Definition at_index {A} (l : list A) (i : Q) : option A :=
  if Qeq_bool (inject_Z (Qfloor i)) i && Qle_bool 0 i
  then l !! Z.to_nat (Qfloor i)
  else None.

(** [idx] of [onMouseMove] in the burndown and the burnup chart, for a
    pointer [x] pixels right of the left edge of the chart and a series
    of [n] points. *)
Definition hover_idx (n : nat) (x : Q) : Q :=
  (clamp (inject_Z (round (((x - 44) / cw) * (inject_Z (Z.of_nat n) - 1))))
         0 (inject_Z (Z.of_nat n) - 1))%Q.

(** [pastIdxs]: the reduce that collects the indices of the days up to
    [today]. *)
Definition pastIdxs (today : Z) (ideal : list IdealPoint) : list nat :=
  foldl (λ (a : list nat) (id : nat * IdealPoint),
           if decide (date id.2 ≤ today)%Z then (a ++ [id.1])%list else a)
        [] (imap pair ideal).

(** [approxRem] of the point of the actual line at [idx]. *)
Definition approxRem (data : BurndownData) (pastCount idx : nat) : Q :=
  (let progress :=
     if decide (1 < pastCount)%nat
     then inject_Z (Z.of_nat idx) / (inject_Z (Z.of_nat pastCount) - 1)
     else 1 in
   Qmax 0 (total_points data - done_points data * progress))%Q.

Definition actualPts (today : Z) (data : BurndownData) : list (Q * Q) :=
  let past := pastIdxs today (ideal_burndown data) in
  (λ idx, (xSc data (inject_Z (Z.of_nat idx)),
           ySc data (approxRem data (length past) idx))) <$> past.

(** *** The velocity chart *)

Record Bar := {
  sprint_name : string;
  completed_points : Q;
}.

Definition vcw : Q := (520 - 44 - 24)%Q.
Definition vch : Q := (220 - 12 - 48)%Q.

(** [Math.max(...bars.map(b => b.completed_points), avg, 1)] *)
Definition maxV (bars : list Bar) (avg : Q) : Q :=
  foldr Qmax (Qmax avg 1) (completed_points <$> bars).

Definition vySc (bars : list Bar) (avg : Q) : Q → Q :=
  sc 0%Q (maxV bars avg) vch 0%Q.

Definition barW (n : nat) : Q :=
  (clamp (vcw / inject_Z (Z.of_nat n) - 8) 18 64)%Q.

Definition step (n : nat) : Q := (vcw / inject_Z (Z.of_nat n))%Q.

(** [bx], [by] and [bh] of the bar at index [i]. *)
Definition bx (n i : nat) : Q :=
  (inject_Z (Z.of_nat i) * step n + step n / 2 - barW n / 2)%Q.

Definition by_ (bars : list Bar) (avg : Q) (b : Bar) : Q :=
  vySc bars avg (completed_points b).

Definition bh (bars : list Bar) (avg : Q) (b : Bar) : Q :=
  Qmax (vch - vySc bars avg (completed_points b))%Q 2%Q.

End Charts.

(** ** JavaScript numbers

    The numbers of JavaScript are IEEE 754 doubles; [Double] takes the
    operations from the standard library's specification of binary64
    (53 bits of precision, round to nearest, ties to even). *)

Module Double.

Definition prec : Z := 53.
Definition emax : Z := 1024.

(** An integer as a Number; exact below 2^53. *)
Definition of_int (k : Z) : spec_float := binary_normalize prec emax k 0 false.

Definition div : spec_float → spec_float → spec_float := SFdiv prec emax.
Definition mul : spec_float → spec_float → spec_float := SFmul prec emax.

(** The exact value of a finite Number. *)
Definition value (x : spec_float) : Q :=
  match x with
  | S754_finite s m e =>
      let v := (inject_Z (Z.pos m)
                * (if (0 <=? e)%Z then inject_Z (2 ^ e)
                   else / inject_Z (2 ^ (- e))))%Q in
      if s then (- v)%Q else v
  | _ => 0%Q
  end.

(** [Math.round] of a finite Number: the nearest integer, a half going
    up. *)
Definition round (x : spec_float) : Z := Qfloor (value x + (1 # 2))%Q.

End Double.

(** ** [api.js]: the sprint and backlog operations of the dashboard *)

Module SprintApi.

Definition getSprintsBySpace (spaceId : string) : Call :=
  {| endpoint := "/sprints/space/" +:+ spaceId; options := no_options |}.

Definition deleteSprint (id : string) : Call :=
  {| endpoint := "/sprints/" +:+ id;
     options := {| method := Some DELETE; body := None |} |}.

Definition startSprint (id : string) : Call :=
  {| endpoint := "/sprints/" +:+ id +:+ "/start";
     options := {| method := Some POST; body := None |} |}.

Definition finishSprint (id : string) (data : Body) : Call :=
  {| endpoint := "/sprints/" +:+ id +:+ "/finish";
     options := {| method := Some POST; body := Some data |} |}.

Definition getBacklogItemsBySpace (spaceId : string) : Call :=
  {| endpoint := "/backlog/space/" +:+ spaceId; options := no_options |}.

Definition getUnassignedBacklogItems (spaceId : string) : Call :=
  {| endpoint := "/backlog/space/" +:+ spaceId +:+ "/backlog";
     options := no_options |}.

Definition deleteBacklogItem (id : string) : Call :=
  {| endpoint := "/backlog/" +:+ id;
     options := {| method := Some DELETE; body := None |} |}.

Definition updateItemStatus (id status : string) : Call :=
  {| endpoint := "/backlog/" +:+ id +:+ "/status?status=" +:+ status;
     options := {| method := Some PATCH; body := None |} |}.

End SprintApi.

(** ** [Dashboard.jsx]: the lists, their reload and the sprint cards *)

Module SprintBoard.

Import Page.Notations.

(** A backlog item as the sprint cards read it. *)
Module Item.

Record t := {
  id : string;
  sprint_id : option string;
  status : string;
}.

End Item.

Definition getSprintItems (backlogItems : list Item.t) (sprintId : string)
    : list Item.t :=
  filter (λ item, Item.sprint_id item = Some sprintId) backlogItems.

Definition doneItems (sprintItems : list Item.t) : nat :=
  length (filter (λ i, Item.status i = "Done") sprintItems).

(** [Math.round((doneItems / sprintItems.length) * 100)], in doubles. *)
Definition percent (doneItems length : nat) : Z :=
  Double.round
    (Double.mul
       (Double.div (Double.of_int (Z.of_nat doneItems))
                   (Double.of_int (Z.of_nat length)))
       (Double.of_int 100)).

(** [progress] of a sprint card, in percent; [sprintItems] is
    [getSprintItems(sprint.id)]. *)
Definition progress (sprintItems : list Item.t) : Z :=
  if decide (0 < length sprintItems)%nat
  then percent (doneItems sprintItems) (length sprintItems)
  else 0%Z.

(** The check of one percentage: it is between 0 and 100, it is 100
    exactly when all [n] items are done and 0 exactly when none is. *)
Definition percent_ok (d n : nat) : bool :=
  let p := percent d n in
  (0 <=? p)%Z && (p <=? 100)%Z
  && Bool.eqb (p =? 100)%Z (d =? n)%nat
  && Bool.eqb (p =? 0)%Z (d =? 0)%nat.

(** The sprints the dashboard offers to take the incomplete items of a
    sprint that is finished. *)
Definition finish_candidates (sprints : list AnalyzerPage.Sprint)
    (finishingSprint : AnalyzerPage.Sprint) : list AnalyzerPage.Sprint :=
  filter (λ s, AnalyzerPage.status s = "Planned"
               ∧ AnalyzerPage.id s ≠ AnalyzerPage.id finishingSprint) sprints.

(** The lists the dashboard keeps, as they arrive; [None] stands for
    the empty list that [data || []] puts in the place of [null]. *)
Record View := {
  sprints : option Client.Json;
  backlogItems : option Client.Json;
  unassignedItems : option Client.Json;
  loading : bool;
  alerts : list string;
}.

Definition setSprints (x : option Client.Json) (v : View) : View :=
  {| sprints := x; backlogItems := backlogItems v;
     unassignedItems := unassignedItems v; loading := loading v;
     alerts := alerts v |}.

Definition setBacklogItems (x : option Client.Json) (v : View) : View :=
  {| sprints := sprints v; backlogItems := x;
     unassignedItems := unassignedItems v; loading := loading v;
     alerts := alerts v |}.

Definition setUnassignedItems (x : option Client.Json) (v : View) : View :=
  {| sprints := sprints v; backlogItems := backlogItems v;
     unassignedItems := x; loading := loading v; alerts := alerts v |}.

Definition setLoading (b : bool) (v : View) : View :=
  {| sprints := sprints v; backlogItems := backlogItems v;
     unassignedItems := unassignedItems v; loading := b; alerts := alerts v |}.

Definition alert (m : string) (v : View) : View :=
  {| sprints := sprints v; backlogItems := backlogItems v;
     unassignedItems := unassignedItems v; loading := loading v;
     alerts := alerts v ++ [m] |}.

(** The three requests of a reload, in the order they are started. *)
Definition reload (spaceId : string) : list Call :=
  [SprintApi.getSprintsBySpace spaceId;
   SprintApi.getBacklogItemsBySpace spaceId;
   SprintApi.getUnassignedBacklogItems spaceId].

Section WithServer.

Context {W : Type}.
Variable fetch : Call → W → Client.FetchResult * W.

(** [space.id] of the dashboard. *)
Variable spaceId : string.

Definition loadData : Page.M unit :=
  Page.modify (setLoading true) ;;
  Page.try_finally
    (Page.try_catch
       (await data ← Page.all3
          (Page.request fetch (SprintApi.getSprintsBySpace spaceId))
          (Page.request fetch (SprintApi.getBacklogItemsBySpace spaceId))
          (Page.request fetch (SprintApi.getUnassignedBacklogItems spaceId));
        let '(sprintsData, backlogData, unassignedData) := data in
        Page.modify (setSprints sprintsData) ;;
        Page.modify (setBacklogItems backlogData) ;;
        Page.modify (setUnassignedItems unassignedData))
       (λ _, Page.ret ()))
    (Page.modify (setLoading false)).

(** [confirmed] is the answer to the [confirm] box. *)
Definition handleDeleteSprint (confirmed : bool) (id : string) : Page.M unit :=
  if negb confirmed then Page.ret ()
  else
    Page.try_catch
      (Page.request fetch (SprintApi.deleteSprint id) ;; loadData)
      (λ e, Page.modify (alert ("Failed to delete sprint: " +:+ e))).

Definition handleStartSprint (id : string) : Page.M unit :=
  Page.try_catch
    (Page.request fetch (SprintApi.startSprint id) ;; loadData)
    (λ e, Page.modify (alert ("Failed to start sprint: " +:+ e))).

Definition handleDeleteBacklog (confirmed : bool) (id : string) : Page.M unit :=
  if negb confirmed then Page.ret ()
  else
    Page.try_catch
      (Page.request fetch (SprintApi.deleteBacklogItem id) ;; loadData)
      (λ e, Page.modify (alert ("Failed to delete: " +:+ e))).

Definition handleAssignToSprint (itemId sprintId : string) : Page.M unit :=
  if decide (sprintId = "") then Page.ret ()
  else
    Page.try_catch
      (Page.request fetch
         (ApiClient.updateBacklogItem itemId (SprintPatch (Some sprintId))) ;;
       loadData)
      (λ e, Page.modify (alert ("Failed to assign: " +:+ e))).

End WithServer.

End SprintBoard.

(** ** [KanbanBoard.jsx]: dropping a card on a column *)

Module Kanban.

Import Page.Notations.

(** The dragged item, as far as the drop reads it. *)
Record Dragged := {
  id : string;
  status : string;
}.

Record View := {
  items : option Client.Json;
  draggedItem : option Dragged;
  alerts : list string;
}.

Definition setItems (x : option Client.Json) (v : View) : View :=
  {| items := x; draggedItem := draggedItem v; alerts := alerts v |}.

Definition setDraggedItem (d : option Dragged) (v : View) : View :=
  {| items := items v; draggedItem := d; alerts := alerts v |}.

Definition alert (m : string) (v : View) : View :=
  {| items := items v; draggedItem := draggedItem v; alerts := alerts v ++ [m] |}.

Section WithServer.

Context {W : Type}.
Variable fetch : Call → W → Client.FetchResult * W.

(** [sprint.id] and [onUpdate] of the board. *)
Variable sprintId : string.
Variable onUpdate : @Page.Remote W unit.

Definition loadItems : Page.M unit :=
  Page.try_catch
    (await data ← Page.request fetch (ApiClient.getBacklogItemsBySprint sprintId);
     Page.modify (setItems data))
    (λ e, Page.modify (alert ("Failed to load items: " +:+ e))).

Definition handleDrop (newStatus : string) : Page.M unit :=
  await v ← Page.get;
  match draggedItem v with
  | Some dragged =>
      if decide (status dragged = newStatus)
      then Page.modify (setDraggedItem None)
      else
        Page.try_catch
          (Page.request fetch (SprintApi.updateItemStatus (id dragged) newStatus) ;;
           loadItems ;;
           Page.remote onUpdate ;;
           Page.modify (setDraggedItem None))
          (λ e, Page.modify (alert ("Failed to update status: " +:+ e)) ;;
                Page.modify (setDraggedItem None))
  | None => Page.modify (setDraggedItem None)
  end.

End WithServer.

End Kanban.

(** ** [FinishSprintModal.jsx] *)

Module FinishSprint.

Import Page.Notations.

(** The state of the modal; [closed] records that [onClose] was called. *)
Record View := {
  moveOption : string;
  targetSprintId : string;
  loading : bool;
  alerts : list string;
  closed : bool;
}.

(** The object handed to [api.finishSprint]. *)
Record FinishData := {
  sprint_id : string;
  move_incomplete_to : string;
}.

Definition initial : View :=
  {| moveOption := "backlog"; targetSprintId := ""; loading := false;
     alerts := []; closed := false |}.

Definition setMoveOption (o : string) (v : View) : View :=
  {| moveOption := o; targetSprintId := targetSprintId v; loading := loading v;
     alerts := alerts v; closed := closed v |}.

Definition setTargetSprintId (t : string) (v : View) : View :=
  {| moveOption := moveOption v; targetSprintId := t; loading := loading v;
     alerts := alerts v; closed := closed v |}.

Definition setLoading (b : bool) (v : View) : View :=
  {| moveOption := moveOption v; targetSprintId := targetSprintId v; loading := b;
     alerts := alerts v; closed := closed v |}.

Definition alert (m : string) (v : View) : View :=
  {| moveOption := moveOption v; targetSprintId := targetSprintId v;
     loading := loading v; alerts := alerts v ++ [m]; closed := closed v |}.

Definition onClose (v : View) : View :=
  {| moveOption := moveOption v; targetSprintId := targetSprintId v;
     loading := loading v; alerts := alerts v; closed := true |}.

(** What the user can do to the form: the two radio buttons (the
    second is only shown when sprints are offered), and the select with
    its placeholder and one option per sprint of the [sprints] prop. *)
Inductive Input :=
| Radio (value : string)
| Select (value : string).

Definition inputs (sprints : list AnalyzerPage.Sprint) : list Input :=
  [Radio "backlog"; Radio "sprint"; Select ""]
  ++ (Select ∘ AnalyzerPage.id <$> sprints).

Definition change (i : Input) (v : View) : View :=
  match i with
  | Radio value => setMoveOption value v
  | Select value => setTargetSprintId value v
  end.

(** [data] of [handleFinish]. *)
Definition finish_data (sprint : AnalyzerPage.Sprint) (v : View) : FinishData :=
  {| sprint_id := AnalyzerPage.id sprint;
     move_incomplete_to :=
       if decide (moveOption v = "sprint") then targetSprintId v else "backlog" |}.

(** [disabled] of the Finish Sprint button. *)
Definition disabled (v : View) : bool :=
  loading v
  || (bool_decide (moveOption v = "sprint")
      && bool_decide (targetSprintId v = "")).

Section WithServer.

Context {W : Type}.
Variable fetch : Call → W → Client.FetchResult * W.
Variable stringify : FinishData → string.

Variable sprint : AnalyzerPage.Sprint.
Variable onFinish : @Page.Remote W unit.

Definition handleFinish : Page.M unit :=
  Page.modify (setLoading true) ;;
  Page.try_finally
    (Page.try_catch
       (await v ← Page.get;
        Page.request fetch
          (SprintApi.finishSprint (AnalyzerPage.id sprint)
             (Raw (stringify (finish_data sprint v)))) ;;
        Page.remote onFinish ;;
        Page.modify onClose)
       (λ e, Page.modify (alert ("Failed to finish sprint: " +:+ e))))
    (Page.modify (setLoading false)).

End WithServer.

End FinishSprint.

(** ** [BacklogModal.jsx]: the form and what it submits *)

Module BacklogForm.

(** The [item] prop: the stored item that is edited. *)
Module Item.

Record t := {
  id : string;
  title : string;
  description : string;
  type : string;
  priority : string;
  story_points : Z;
  sprint_id : option string;
}.

End Item.

(** [data] of [handleSubmit]. *)
Module Data.

Record t := {
  title : string;
  description : string;
  type : string;
  priority : string;
  story_points : Z;
  sprint_id : option string;
  space_id : string;
}.

End Data.

Record FormData := {
  title : string;
  description : string;
  type : string;
  priority : string;
  story_points : Z;
  sprint_id : string;
}.

Definition initial : FormData :=
  {| title := ""; description := ""; type := "Task"; priority := "Medium";
     story_points := 5; sprint_id := "" |}.

(** The form once the effect on [item] has run. *)
Definition formData_of (item : option Item.t) : FormData :=
  match item with
  | Some i =>
      {| title := Item.title i; description := Item.description i;
         type := Item.type i; priority := Item.priority i;
         story_points := Item.story_points i;
         sprint_id := if Client.truthy (Item.sprint_id i)
                      then default "" (Item.sprint_id i) else "" |}
  | None => initial
  end.

Definition data_of (spaceId : string) (formData : FormData) : Data.t :=
  {| Data.title := title formData; Data.description := description formData;
     Data.type := type formData; Data.priority := priority formData;
     Data.story_points := story_points formData;
     Data.sprint_id := if Client.truthy (Some (sprint_id formData))
                       then Some (sprint_id formData) else None;
     Data.space_id := spaceId |}.

(** The request of [handleSubmit]: an update when an item is edited, a
    create otherwise. *)
Definition submit (stringify : Data.t → string) (spaceId : string)
    (item : option Item.t) (formData : FormData) : Call :=
  let data := Raw (stringify (data_of spaceId formData)) in
  match item with
  | Some i => ApiClient.updateBacklogItem (Item.id i) data
  | None => ApiClient.createBacklogItem data
  end.

End BacklogForm.

(** ** More sample data *)

Module Scenario.

(** A recommendation that names no ticket to swap out. *)
Definition no_target : Client.Props :=
  {| Client.recommendation :=
       Some {| Client.recommendation_type := Some "SWAP";
               Client.target_ticket := None |};
     Client.formData := Sample.form;
     Client.sprintId := Some "s1";
     Client.spaceId := "space-1";
     Client.logId := Some "log-1" |}.

Definition sprint : AnalyzerPage.Sprint :=
  {| AnalyzerPage.id := "s1"; AnalyzerPage.name := "Sprint 1";
     AnalyzerPage.status := "Active"; AnalyzerPage.space_id := Some "space-1" |}.

Definition planned : AnalyzerPage.Sprint :=
  {| AnalyzerPage.id := "s2"; AnalyzerPage.name := "Sprint 2";
     AnalyzerPage.status := "Planned"; AnalyzerPage.space_id := Some "space-1" |}.

(** The analyzer as it mounts, and with a sprint and a title chosen. *)
Definition blank : AnalyzerPage.View :=
  {| AnalyzerPage.selectedSprint := None;
     AnalyzerPage.formData :=
       {| Form.title := ""; Form.description := ""; Form.story_points := 5;
          Form.priority := "Medium"; Form.type := "Task" |};
     AnalyzerPage.analysis := None; AnalyzerPage.loading := false;
     AnalyzerPage.sprintContext := None; AnalyzerPage.actionResult := None;
     AnalyzerPage.alerts := [] |}.

Definition filled : AnalyzerPage.View :=
  {| AnalyzerPage.selectedSprint := Some sprint;
     AnalyzerPage.formData := Sample.form;
     AnalyzerPage.analysis := None; AnalyzerPage.loading := false;
     AnalyzerPage.sprintContext := None; AnalyzerPage.actionResult := None;
     AnalyzerPage.alerts := [] |}.

(** A sprint of three days with 8 points, 3 of them done. *)
Definition chart : Analytics.BurndownData :=
  Analytics.burndown 0 2 [(3%N, true); (5%N, false)].

Definition bars : list Charts.Bar :=
  [{| Charts.sprint_name := "Sprint 1"; Charts.completed_points := 21 |};
   {| Charts.sprint_name := "Sprint 2"; Charts.completed_points := 34 |}].

(** The dashboard before its first load. *)
Definition board : SprintBoard.View :=
  {| SprintBoard.sprints := None; SprintBoard.backlogItems := None;
     SprintBoard.unassignedItems := None; SprintBoard.loading := true;
     SprintBoard.alerts := [] |}.

Definition on {U} (faults : list (option Backend.Fault)) (v : U)
    : @Page.State Backend.Server U :=
  {| Page.server := Sample.service faults; Page.sent := []; Page.view := v |}.

End Scenario.

(** * Properties *)

Local Open Scope list_scope.

(** ** The two API clients *)

Lemma shared_ops_same_method op :
  http_method (current_call op) = http_method (legacy_call op).
Proof. destruct op; reflexivity. Qed.

Lemma shared_ops_paths_differ op :
  endpoint (current_call op) ≠ endpoint (legacy_call op).
Proof. destruct op; cbn; discriminate. Qed.

(** C10, as stated, fails: for the sprint context of sprint [s1] the
    current client asks for [/impact/sprints/s1/context] and the older
    copy for [/impact/sprint/s1/context]. *)
Lemma clients_differ_on_sprint_context :
  ¬ same_request (current_call (OpSprintContext "s1"))
                 (legacy_call (OpSprintContext "s1")).
Proof. intros [_ Hpath]. cbn in Hpath. discriminate Hpath. Qed.

(** C10, amended: on each of the five shared operations the two clients
    use the same HTTP method and, whatever the argument, different
    endpoint paths; they issue the same requests for the backlog
    operations and for [analyzeImpact]. *)
Theorem clients_same_method_other_path :
  (∀ op, http_method (current_call op) = http_method (legacy_call op)
         ∧ endpoint (current_call op) ≠ endpoint (legacy_call op))
  ∧ (∀ data, ApiClient.createBacklogItem data = LegacyApiClient.createBacklogItem data)
  ∧ (∀ id data, ApiClient.updateBacklogItem id data
                = LegacyApiClient.updateBacklogItem id data)
  ∧ (∀ id, ApiClient.getBacklogItemsBySprint id
           = LegacyApiClient.getBacklogItemsBySprint id)
  ∧ (∀ data, ApiClient.analyzeImpact data = LegacyApiClient.analyzeImpact data).
Proof.
  split; [|by repeat split].
  intros op. split.
  - apply shared_ops_same_method.
  - apply shared_ops_paths_differ.
Qed.

(** ** The Days cell *)

Section Days.

Import Dashboard.

Local Open Scope Z_scope.

(** The ceiling of a quotient of integers, in integers. *)
Lemma ceiling_of_quotient (a : Z) (b : positive) :
  let n := Qceiling (inject_Z a / inject_Z (Zpos b))%Q in
  (n - 1) * Zpos b < a ≤ n * Zpos b.
Proof.
  cbn zeta. unfold Qceiling, Qfloor, Qdiv, Qinv, Qmult, Qopp, inject_Z. cbn.
  rewrite Z.mul_1_r, Pos.mul_1_l.
  pose proof (Z.div_mod (- a) (Zpos b) ltac:(lia)) as Hdm.
  pose proof (Z.mod_pos_bound (- a) (Zpos b) ltac:(lia)) as Hb.
  set (q := Z.div _ _) in *. set (r := Z.modulo _ _) in *. lia.
Qed.

Lemma days_cell_dated sprint now s e :
  start_date sprint = Some s → end_date sprint = Some e →
  days_cell sprint now
  = Days (Z.max 0 (Qceiling (inject_Z (e - now) / inject_Z 86400000)%Q)).
Proof. intros Hs He. unfold days_cell. by rewrite Hs, He. Qed.

(** C8: for a sprint with a start and an end date the cell shows
    [max(0, ceil((end_date - now) / 1 day))]: a number that is never
    negative, 0 once the end date is reached, and otherwise the least
    count of whole days that covers the time left. *)
Theorem days_remaining_clamped_ceiling sprint now s e :
  start_date sprint = Some s → end_date sprint = Some e →
  ∃ n, days_cell sprint now = Days n
       ∧ n = Z.max 0 (Qceiling (inject_Z (e - now) / inject_Z 86400000)%Q)
       ∧ 0 ≤ n
       ∧ (e ≤ now → n = 0)
       ∧ (now < e → (n - 1) * 86400000 < e - now ≤ n * 86400000).
Proof.
  intros Hs He. eexists. split; [by apply (days_cell_dated _ _ s e)|].
  split; [done|].
  pose proof (ceiling_of_quotient (e - now) 86400000) as Hc. cbn zeta in Hc.
  set (c := Qceiling _) in *. clearbody c.
  repeat split; lia.
Qed.

Lemma days_remaining_clamped_ceiling_witness :
  ∃ n, days_cell {| start_date := Some 0; end_date := Some 172800001 |} 1
       = Days n ∧ n = 2.
Proof.
  destruct (days_remaining_clamped_ceiling
              {| start_date := Some 0; end_date := Some 172800001 |} 1 0 172800001
              eq_refl eq_refl) as (n & Hcell & Hn & _).
  exists n. split; [exact Hcell|]. rewrite Hn. reflexivity.
Defined.

(** Without one of the dates the cell reads N/A. *)
Lemma days_cell_undated sprint now :
  start_date sprint = None ∨ end_date sprint = None →
  days_cell sprint now = NA.
Proof. unfold days_cell. intros [-> | ->]; [done|by destruct (start_date _)]. Qed.

End Days.

(** ** The metric cards *)

Section MetricCards.

Import Metrics.



(** The analyzer goes through the same four keys, in the same order. *)
Lemma analyzer_keys :
  ImpactAnalyzer.Heading.key <$> ImpactAnalyzer.HEADINGS
  = ImpactDashboard.CARD_KEYS.
Proof. reflexivity. Qed.

(** The dashboard always lays out the four cards, in the order of
    [CARD_KEYS]. *)
Lemma dashboard_one_card_per_key (display : gmap string Metric) :
  ImpactDashboard.metricKey <$> ImpactDashboard.metrics display
  = ImpactDashboard.CARD_KEYS.
Proof.
  unfold ImpactDashboard.metrics. rewrite <- list_fmap_compose.
  rewrite <- (list_fmap_id ImpactDashboard.CARD_KEYS) at 2.
  apply list_fmap_ext. intros _ key _. unfold ImpactDashboard.card. cbn.
  by destruct (display !! key).
Qed.

End MetricCards.

(** ** Requests, actions and feedback *)

Section ClientFacts.

Import Client.

Context {W : Type} (fetch : Call → W → FetchResult * W).

Implicit Types (st : @State W) (c : Call).

Lemma request_sent c st : sent (request fetch c st).2 = sent st ++ [c].
Proof.
  unfold request. destruct (fetch c (server st)) as [[e|r] w]; cbn; [done|].
  repeat case_match; done.
Qed.

Lemma request_ui c st : ui (request fetch c st).2 = ui st.
Proof.
  unfold request. destruct (fetch c (server st)) as [[e|r] w]; cbn; [done|].
  repeat case_match; done.
Qed.

Lemma request_server c st :
  server (request fetch c st).2 = (fetch c (server st)).2.
Proof.
  unfold request. destruct (fetch c (server st)) as [[e|r] w]; cbn; [done|].
  repeat case_match; done.
Qed.

Lemma feedbacks_app l1 l2 :
  Observe.feedbacks (l1 ++ l2) = Observe.feedbacks l1 ++ Observe.feedbacks l2.
Proof. apply omap_app. Qed.

(** [logFeedback] never throws. *)
Lemma logFeedback_returns logId acc taken st :
  (logFeedback fetch logId acc taken st).1 = Ok ().
Proof.
  unfold logFeedback. destruct (truthy logId); cbn; [|done].
  unfold try_catch, bind, ret.
  by destruct (request fetch _ st) as [[?|?] ?].
Qed.

Lemma logFeedback_ui logId acc taken st :
  ui (logFeedback fetch logId acc taken st).2 = ui st.
Proof.
  unfold logFeedback. destruct (truthy logId); cbn; [|done].
  unfold try_catch, bind, ret.
  pose proof (request_ui (ApiClient.recordImpactFeedback (default "" logId)
                            (Feedback acc taken)) st) as Hui.
  by destruct (request fetch _ st) as [[?|?] ?].
Qed.

(** What [logFeedback] sends: the patch for the log, once, when there
    is a log id. *)
Lemma logFeedback_sent logId acc taken st :
  sent (logFeedback fetch logId acc taken st).2
  = sent st ++ (if truthy logId
                then [ApiClient.recordImpactFeedback (default "" logId)
                        (Feedback acc taken)]
                else []).
Proof.
  unfold logFeedback. destruct (truthy logId); cbn; [|by rewrite app_nil_r].
  unfold try_catch, bind, ret.
  pose proof (request_sent (ApiClient.recordImpactFeedback (default "" logId)
                              (Feedback acc taken)) st) as Hsent.
  by destruct (request fetch _ st) as [[?|?] ?].
Qed.

Lemma logFeedback_server logId acc taken st :
  server (logFeedback fetch logId acc taken st).2
  = if truthy logId
    then (fetch (ApiClient.recordImpactFeedback (default "" logId)
                   (Feedback acc taken)) (server st)).2
    else server st.
Proof.
  unfold logFeedback. destruct (truthy logId); cbn; [|done].
  unfold try_catch, bind, ret.
  pose proof (request_server (ApiClient.recordImpactFeedback (default "" logId)
                                (Feedback acc taken)) st) as Hsrv.
  by destruct (request fetch _ st) as [[?|?] ?].
Qed.

(** [loadSprintContext] catches its own errors as well. *)
Lemma loadSprintContext_returns sid st :
  (loadSprintContext fetch sid st).1 = Ok ().
Proof.
  unfold loadSprintContext, try_catch, bind.
  by destruct (request fetch _ st) as [[?|?] ?].
Qed.

Lemma loadSprintContext_sent sid st :
  sent (loadSprintContext fetch sid st).2
  = sent st ++ [ApiClient.getSprintContext sid].
Proof.
  unfold loadSprintContext, try_catch, bind.
  pose proof (request_sent (ApiClient.getSprintContext sid) st) as Hsent.
  by destruct (request fetch _ st) as [[?|?] ?].
Qed.


Ltac step_request :=
  match goal with
  | |- context [request ?f ?c ?st] =>
      let Hs := fresh "Hsent" in
      let Hu := fresh "Hui" in
      let Hv := fresh "Hsrv" in
      pose proof (request_sent c st) as Hs;
      pose proof (request_ui c st) as Hu;
      pose proof (request_server c st) as Hv;
      destruct (request f c st) as [[?|?] ?]; cbn [fst snd] in *
  end.

Ltac open_action :=
  unfold executeAction; repeat case_decide; repeat case_match;
  unfold bind, ret, throw; cbn [fst snd].

(** [executeAction] leaves the React state alone. *)
Lemma executeAction_ui a rec sid sp fd st :
  ui (executeAction fetch a rec sid sp fd st).2 = ui st.
Proof. open_action; repeat step_request; congruence. Qed.

(** [executeAction] sends no feedback. *)
Lemma executeAction_feedbacks a rec sid sp fd st :
  Observe.feedbacks (sent (executeAction fetch a rec sid sp fd st).2)
  = Observe.feedbacks (sent st).
Proof.
  open_action; repeat step_request;
    repeat match goal with
           | H : sent _ = _ |- _ => rewrite H; clear H
           end;
    rewrite ?feedbacks_app; cbn; by rewrite ?app_nil_r.
Qed.

Import Observe.

Lemma handleAction_failed p a st e st1 :
  executeAction fetch a (recommendation p) (sprintId p) (spaceId p) (formData p)
    (started st) = (Throw e, st1) →
  ∃ st', handleAction fetch p a st = (Ok (), st')
         ∧ server st' = server st1
         ∧ sent st' = sent st1
         ∧ alerts (ui st') = alerts (ui st) ++ ["Action failed: " +:+ e]
         ∧ done (ui st') = done (ui st)
         ∧ actionResult (ui st') = actionResult (ui st)
         ∧ executing (ui st') = false.
Proof.
  intros Hrun.
  pose proof (executeAction_ui a (recommendation p) (sprintId p) (spaceId p)
                (formData p) (started st)) as Hui.
  rewrite Hrun in Hui. cbn in Hui.
  unfold handleAction, bind at 1, try_finally, try_catch, bind at 1.
  cbn [setExecuting set_ui]. fold (started st). unfold started in *.
  cbn [setExecuting set_ui snd] in *. rewrite Hrun. cbn.
  eexists. split; [done|]. cbn. rewrite Hui. by cbn.
Qed.


Lemma handleAction_succeeded p a st result st1 :
  executeAction fetch a (recommendation p) (sprintId p) (spaceId p) (formData p)
    (started st) = (Ok result, st1) →
  let taken := classify a (card_type (recommendation p)) in
  let st2 := (logFeedback fetch (logId p) true taken st1).2 in
  ∃ st', handleAction fetch p a st = (Ok (), st')
         ∧ sent st' = sent st2 ++ match sprintId p with
                                  | Some sid => [ApiClient.getSprintContext sid]
                                  | None => []
                                  end
         ∧ server st' = match sprintId p with
                        | Some sid =>
                            (fetch (ApiClient.getSprintContext sid) (server st2)).2
                        | None => server st2
                        end
         ∧ done (ui st') = true
         ∧ doneMsg (ui st') = message result
         ∧ actionResult (ui st') = Some result
         ∧ alerts (ui st') = alerts (ui st)
         ∧ executing (ui st') = false.
Proof.
  intros Hrun taken st2.
  pose proof (executeAction_ui a (recommendation p) (sprintId p) (spaceId p)
                (formData p) (started st)) as Hui.
  rewrite Hrun in Hui. cbn in Hui.
  pose proof (logFeedback_returns (logId p) true taken st1) as Hret.
  pose proof (logFeedback_ui (logId p) true taken st1) as Hui2.
  fold st2 in Hui2.
  unfold handleAction, bind at 1, try_finally, try_catch, bind at 1.
  cbn [setExecuting set_ui]. unfold started in *.
  cbn [setExecuting set_ui snd] in *. rewrite Hrun. fold taken.
  unfold bind at 1.
  destruct (logFeedback fetch (logId p) true taken st1) as [r s2] eqn:Hlog.
  cbn in Hret. subst r. subst st2. cbn [snd] in *.
  unfold bind, setDone, setDoneMsg, onActionDone, bind, setActionResult, set_ui.
  cbn [setExecuting set_ui snd fst server sent ui].
  destruct (sprintId p) as [sid|]; cbn [ret].
  - unfold loadSprintContext, try_catch, bind, setSprintContext, set_ui.
    step_request; cbn in *;
      (eexists; split; [done|]); cbn; rewrite ?Hsent, ?Hsrv;
      repeat match goal with
             | H : ui ?x = _ |- context [ui ?x] => rewrite H; cbn
             end; done.
  - eexists; split; [done|]. cbn. rewrite ?app_nil_r, ?Hui2, ?Hui. by cbn.
Qed.


(** DEFER and SPLIT are the same single create, with a null sprint
    reference; they differ in the message and in [requiresManual]. ADD
    is the create with the sprint of the card. *)
Lemma executeAction_single_create rec sid space form st :
  let create sprint :=
    request fetch (ApiClient.createBacklogItem (NewItem (new_item space form sprint))) in
  (executeAction fetch "DEFER" rec sid space form st).2 = (create None st).2
  ∧ (executeAction fetch "SPLIT" rec sid space form st).2 = (create None st).2
  ∧ (executeAction fetch "ADD" rec sid space form st).2 = (create sid st).2.
Proof.
  cbn zeta. unfold executeAction.
  repeat split.
  all: repeat (rewrite decide_False by (try intros [?|?]; discriminate)).
  all: rewrite ?(decide_True (P := _ = _)) by reflexivity.
  all: try rewrite (decide_True (P := _ ∨ _)) by (by left).
  all: unfold bind, ret; by destruct (request fetch _ st) as [[?|?] ?].
Qed.

(** Each button of the card asks for its own action: the main button for
    [type], the others for an action that differs from it. *)
Lemma alternatives_differ type alt : alt ∈ alternatives type → alt ≠ type.
Proof. unfold alternatives. rewrite list_elem_of_filter. by intros [[? _] _]. Qed.

(** A recommendation that names no type counts as DEFER: deferring
    then reads as following it. *)
Lemma missing_type_counts_as_defer (target : option Ticket) a :
  let rec := Some {| recommendation_type := None; target_ticket := target |} in
  classify a (card_type rec) = "FOLLOWED_RECOMMENDATION" ↔ a = "DEFER".
Proof.
  cbn. unfold classify. case_decide as Ha; split; intros Hx;
    first [done | discriminate Hx | by destruct Ha].
Qed.

(** The feedback requests of one [handleAction]: none when the action
    failed or no log id is known, else the one patch. *)
Lemma handleAction_feedbacks p a st :
  Observe.feedbacks (sent (handleAction fetch p a st).2)
  = Observe.feedbacks (sent st)
    ++ match executeAction fetch a (recommendation p) (sprintId p) (spaceId p)
               (formData p) (started st) with
       | (Ok _, _) =>
           if truthy (logId p)
           then [("/impact/logs/" +:+ default "" (logId p) +:+ "/feedback", true,
                  classify a (card_type (recommendation p)))]
           else []
       | (Throw _, _) => []
       end.
Proof.
  pose proof (executeAction_feedbacks a (recommendation p) (sprintId p)
                (spaceId p) (formData p) (started st)) as Hfb.
  destruct (executeAction fetch a _ _ _ _ (started st)) as [[result|e] st1] eqn:Hrun.
  - destruct (handleAction_succeeded p a st result st1 Hrun)
      as (st' & -> & Hsent & _).
    cbn [snd] in *. rewrite Hsent, feedbacks_app, logFeedback_sent, feedbacks_app, Hfb.
    rewrite <- app_assoc. f_equal.
    destruct (truthy (logId p)), (sprintId p); by cbn.
  - destruct (handleAction_failed p a st e st1 Hrun) as (st' & -> & _ & Hsent & _).
    cbn [snd] in *. by rewrite Hsent, Hfb, app_nil_r.
Qed.

(** C9: every feedback request [handleAction] sends carries
    [accepted = true], whether the action followed the recommendation or
    not; no [accepted = false] leaves through it. *)
Theorem feedback_always_accepted p a st :
  ∃ new, Observe.feedbacks (sent (handleAction fetch p a st).2)
         = Observe.feedbacks (sent st) ++ new
         ∧ Forall (λ f, f.1.2 = true) new.
Proof.
  rewrite handleAction_feedbacks. eexists. split; [reflexivity|].
  destruct (executeAction fetch a _ _ _ _ (started st)) as [[result|e] st1];
    [destruct (truthy (logId p))|]; repeat constructor.
Qed.

(** C2: once the action is executed, the one feedback request sent for
    log [lid] carries FOLLOWED_RECOMMENDATION exactly when the executed
    action equals the recommendation's [recommendation_type] and
    IGNORED_RECOMMENDATION otherwise; the store keeps the value it is
    sent, whatever the log's own recommendation says. *)
Theorem taken_action_classified p a rt lid st result st1 :
  recommendation p ≫= recommendation_type = Some rt →
  logId p = Some lid → lid ≠ "" →
  executeAction fetch a (recommendation p) (sprintId p) (spaceId p) (formData p)
    (started st) = (Ok result, st1) →
  ∃ taken,
    Observe.feedbacks (sent (handleAction fetch p a st).2)
    = Observe.feedbacks (sent st)
      ++ [("/impact/logs/" +:+ lid +:+ "/feedback", true, taken)]
    ∧ (taken = "FOLLOWED_RECOMMENDATION" ↔ a = rt)
    ∧ (taken = "IGNORED_RECOMMENDATION" ↔ a ≠ rt)
    ∧ ∀ logs logs' g,
        Backend.patch lid true taken logs = Some logs' →
        g ∈ logs' → Backend.log_id g = lid →
        Backend.taken_action g = Some taken.
Proof.
  intros Hrt Hlid Hne Hrun. exists (classify a rt).
  rewrite handleAction_feedbacks, Hrun. unfold card_type. rewrite Hrt, Hlid. cbn.
  rewrite bool_decide_eq_true_2 by done.
  split; [done|]. unfold classify.
  split; [|split].
  - case_decide as Ha; split; intros Hx; first [done | discriminate Hx | by destruct Ha].
  - case_decide as Ha; split; intros Hx; first [done | discriminate Hx | by destruct Hx].
  - intros logs logs' g Hpatch Hg Hid. unfold Backend.patch in Hpatch.
    case_decide; [|done]. injection Hpatch as <-.
    apply list_elem_of_fmap in Hg as (g0 & Hg & _). subst g.
    destruct (decide (Backend.log_id g0 = lid)) as [_|Hg0]; [done|].
    by destruct Hg0.
Qed.


(** C5: once the action is executed, whatever the server answers to the
    feedback patch, [logFeedback] returns normally and the handler goes
    on to the success state: done, with the action's message, reported
    to the analyzer, no alert. Nothing it sends after the action is a
    backlog write: only the feedback patch and the reload of the sprint
    context follow. *)
Theorem feedback_failure_does_not_block p a st result st1 :
  executeAction fetch a (recommendation p) (sprintId p) (spaceId p) (formData p)
    (started st) = (Ok result, st1) →
  let taken := classify a (card_type (recommendation p)) in
  (logFeedback fetch (logId p) true taken st1).1 = Ok ()
  ∧ ∃ st' after,
      handleAction fetch p a st = (Ok (), st')
      ∧ done (ui st') = true
      ∧ doneMsg (ui st') = message result
      ∧ actionResult (ui st') = Some result
      ∧ alerts (ui st') = alerts (ui st)
      ∧ executing (ui st') = false
      ∧ sent st' = sent st1 ++ after
      ∧ Forall (λ c, is_Some (Observe.feedback_of c)
                     ∨ ∃ sid, c = ApiClient.getSprintContext sid) after.
Proof.
  intros Hrun taken. split; [apply logFeedback_returns|].
  destruct (handleAction_succeeded p a st result st1 Hrun)
    as (st' & Hh & Hsent & _ & Hdone & Hmsg & Hres & Halerts & Hexec).
  rewrite logFeedback_sent, <- app_assoc in Hsent.
  eexists st', _. repeat split; try done.
  apply Forall_app. split.
  - destruct (truthy (logId p)); [|constructor].
    apply Forall_singleton. left. by eexists.
  - destruct (sprintId p); [|constructor].
    apply Forall_singleton. right. by eexists.
Qed.

End ClientFacts.

(** ** The modelled service *)

Section ServiceFacts.

Import Backend.

Lemma strip_prefix_app pre s : strip_prefix pre (pre +:+ s) = Some s.
Proof.
  induction pre as [|a pre IH]; [done|].
  change (String a pre +:+ s) with (String a (pre +:+ s)).
  cbn [strip_prefix]. by rewrite decide_True.
Qed.

Lemma string_length_app (s1 s2 : string) :
  String.length (s1 +:+ s2) = (String.length s1 + String.length s2)%nat.
Proof.
  induction s1 as [|a s1 IH]; [done|].
  change (String a s1 +:+ s2) with (String a (s1 +:+ s2)).
  cbn [String.length]. by rewrite IH.
Qed.

Lemma strip_suffix_app suf s : strip_suffix suf (s +:+ suf) = Some s.
Proof.
  induction s as [|a s IH].
  - change (EmptyString +:+ suf) with suf.
    destruct suf; cbn [strip_suffix]; by rewrite decide_True.
  - change (String a s +:+ suf) with (String a (s +:+ suf)).
    cbn [strip_suffix]. rewrite decide_False.
    + by rewrite IH.
    + intros Heq. apply (f_equal String.length) in Heq.
      cbn [String.length] in Heq. rewrite string_length_app in Heq. lia.
Qed.

(** What a request does to the backlog, as the caller sees it: an
    answer means the change is stored, an error means nothing is. *)
Lemma request_create p (st : @Client.State Server) :
  match Client.request serve (ApiClient.createBacklogItem (NewItem p)) st with
  | (Client.Ok _, st') =>
      gets_through (Client.server st)
      ∧ items (Client.server st')
        = items (Client.server st) ++ [fresh_item (Client.server st) p]
  | (Client.Throw _, st') =>
      ¬ gets_through (Client.server st)
      ∧ items (Client.server st') = items (Client.server st)
  end.
Proof.
  unfold Client.request, serve, route, create_item, gets_through.
  destruct (faults (Client.server st)) as [|[[e|code d]|] rest]; cbn;
    repeat case_match; simplify_eq; cbn; by auto.
Qed.

Lemma request_update tid sprint (st : @Client.State Server) :
  match Client.request serve
          (ApiClient.updateBacklogItem tid (SprintPatch sprint)) st with
  | (Client.Ok _, st') =>
      tid ∈ item_id <$> items (Client.server st)
      ∧ items (Client.server st') = move_item tid sprint (items (Client.server st))
  | (Client.Throw _, st') =>
      items (Client.server st') = items (Client.server st)
  end.
Proof.
  unfold Client.request, serve, route, ApiClient.updateBacklogItem.
  cbn [http_method options method body endpoint default].
  rewrite strip_prefix_app. unfold update_item.
  destruct (faults (Client.server st)) as [|[[e|code d]|] rest]; cbn;
    repeat case_decide; cbn; repeat case_match; simplify_eq; cbn; by auto.
Qed.

(** Feedback patches and reads leave the backlog alone. *)
Lemma route_keeps_items c s :
  (∀ p, body (options c) ≠ Some (NewItem p)) →
  (∀ sprint, body (options c) ≠ Some (SprintPatch sprint)) →
  items (route c s).2 = items s.
Proof.
  intros Hnew Hpatch. unfold route.
  destruct (http_method c), (body (options c)) as [[]|];
    try (by exfalso; eapply Hnew); try (by exfalso; eapply Hpatch);
    repeat case_match; by simplify_eq.
Qed.

Lemma serve_keeps_items c s :
  (∀ p, body (options c) ≠ Some (NewItem p)) →
  (∀ sprint, body (options c) ≠ Some (SprintPatch sprint)) →
  items (serve c s).2 = items s.
Proof.
  intros Hnew Hpatch. unfold serve.
  destruct (faults s) as [|[[e|code d]|] rest]; try done.
  - pose proof (route_keeps_items c s Hnew Hpatch) as Hr.
    by destruct (route c s).
  - pose proof (route_keeps_items c (with_faults s rest) Hnew Hpatch) as Hr.
    by destruct (route c (with_faults s rest)).
Qed.

(** Only a feedback patch changes the logs. *)
Lemma route_keeps_logs c s :
  Observe.feedback_of c = None → logs (route c s).2 = logs s.
Proof.
  unfold Observe.feedback_of. intros Hfb. unfold route, create_item, update_item.
  destruct (http_method c), (body (options c)) as [[]|]; try done;
    repeat case_match; by simplify_eq.
Qed.

Lemma serve_keeps_logs c s :
  Observe.feedback_of c = None → logs (serve c s).2 = logs s.
Proof.
  intros Hfb. unfold serve.
  destruct (faults s) as [|[[e|code d]|] rest]; try done.
  - pose proof (route_keeps_logs c s Hfb) as Hr. by destruct (route c s).
  - pose proof (route_keeps_logs c (with_faults s rest) Hfb) as Hr.
    by destruct (route c (with_faults s rest)).
Qed.






Import Client.

Ltac step_backlog :=
  match goal with
  | H : context [request serve (ApiClient.createBacklogItem (NewItem ?p)) ?st] |- _ =>
      let Hc := fresh "Hcreate" in
      pose proof (request_create p st) as Hc;
      destruct (request serve (ApiClient.createBacklogItem (NewItem p)) st)
        as [[?|?] ?]
  | H : context [request serve (ApiClient.updateBacklogItem ?i (SprintPatch ?sp)) ?st] |- _ =>
      let Hu := fresh "Hupdate" in
      pose proof (request_update i sp st) as Hu;
      destruct (request serve (ApiClient.updateBacklogItem i (SprintPatch sp)) st)
        as [[?|?] ?]
  end.




(** A SWAP that returns has done both steps: the target is in the
    backlog and the candidate is stored with the sprint of the card. *)
Lemma completed_swap_backlog p (st : @State Server) r st' :
  executeAction serve "SWAP" (recommendation p) (sprintId p) (spaceId p)
    (formData p) st = (Ok r, st') →
  ∃ t tid new,
    recommendation p ≫= target_ticket = Some t
    ∧ id t = Some tid
    ∧ fields new = new_item (spaceId p) (formData p) (sprintId p)
    ∧ items (server st') = move_item tid None (items (server st)) ++ [new].
Proof.
  intros Hrun. unfold executeAction in Hrun.
  rewrite decide_False in Hrun by (intros [?|?]; discriminate).
  rewrite decide_True in Hrun by reflexivity.
  repeat case_match; unfold bind, ret, throw in Hrun;
    repeat step_backlog; simplify_eq; destruct_and?.
  destruct (id _) as [tid|] eqn:Hid; [|done]. cbn in *.
  eexists _, tid, _. repeat split; [done..| |].
  2: { etrans; [eassumption|]. f_equal. eassumption. }
  reflexivity.
Qed.


Ltac run_create Hthrough :=
  match goal with
  | |- context [request serve (ApiClient.createBacklogItem (NewItem ?p)) ?st] =>
      let Hc := fresh "Hcreate" in
      pose proof (request_create p st) as Hc;
      destruct (request serve (ApiClient.createBacklogItem (NewItem p)) st)
        as [[?|?] ?]; [|by destruct Hc]
  end.

(** C4: when the create gets through, DEFER stores the candidate (the
    fields of the form, the space of the card, status To Do) with a
    null sprint reference, SPLIT stores the same item and also flags
    the result as needing a manual split, and ADD stores the candidate
    with the id of the selected sprint. *)
Theorem defer_split_add_stored rec sprint other space form (st : @State Server) :
  gets_through (server st) →
  let candidate sid :=
    {| Http.title := Form.title form;
       Http.description := Form.description form;
       Http.story_points := Form.story_points form;
       Http.priority := Form.priority form;
       Http.type := Form.type form;
       space_id := space;
       status := "To Do";
       sprint_id := sid |} in
  (∃ r st' new,
      executeAction serve "DEFER" rec other space form st = (Ok r, st')
      ∧ items (server st') = items (server st) ++ [new]
      ∧ fields new = candidate None
      ∧ requiresManual r = false)
  ∧ (∃ r st' new,
        executeAction serve "SPLIT" rec other space form st = (Ok r, st')
        ∧ items (server st') = items (server st) ++ [new]
        ∧ fields new = candidate None
        ∧ requiresManual r = true)
  ∧ (∃ r st' new,
        executeAction serve "ADD" rec (Some sprint) space form st = (Ok r, st')
        ∧ items (server st') = items (server st) ++ [new]
        ∧ fields new = candidate (Some sprint)
        ∧ requiresManual r = false).
Proof.
  intros Hthrough candidate. unfold executeAction.
  repeat split.
  all: repeat (rewrite decide_False by (try intros [?|?]; discriminate)).
  all: rewrite ?(decide_True (P := _ = _)) by reflexivity.
  all: try rewrite (decide_True (P := _ ∨ _)) by (by left).
  all: unfold bind, ret; run_create Hthrough.
  all: eexists _, _, _; split; [reflexivity|]; split; [by destruct Hcreate|done].
Qed.

Lemma defer_split_add_stored_witness :
  ∃ r st' new,
    executeAction serve "DEFER" None None "space-1" Sample.form (Sample.page [])
    = (Ok r, st')
    ∧ items (server st') = [Sample.old_item; new]
    ∧ fields new = {| Http.title := "Payment gateway";
                      Http.description := "Card payments";
                      Http.story_points := 5;
                      Http.priority := "High";
                      Http.type := "Story";
                      space_id := "space-1";
                      status := "To Do";
                      sprint_id := None |}
    ∧ requiresManual r = false.
Proof.
  exact (proj1 (defer_split_add_stored None "s1" None "space-1" Sample.form
                  (Sample.page []) I)).
Defined.


(** On the modelled service the backlog stays as the action left it,
    feedback or no feedback. *)
Lemma feedback_keeps_backlog p a (st : @State Server) result st1 :
  executeAction serve a (recommendation p) (sprintId p) (spaceId p) (formData p)
    (Observe.started st) = (Ok result, st1) →
  items (server (handleAction serve p a st).2) = items (server st1).
Proof.
  intros Hrun.
  destruct (handleAction_succeeded serve p a st result st1 Hrun)
    as (st' & -> & _ & Hsrv & _).
  cbn [snd]. rewrite Hsrv.
  assert (items (server (logFeedback serve (logId p) true
                           (classify a (card_type (recommendation p))) st1).2)
          = items (server st1)) as Hlog.
  { rewrite logFeedback_server. destruct (truthy (logId p)); [|done].
    by apply serve_keeps_items. }
  destruct (sprintId p); [|done].
  rewrite serve_keeps_items by done. done.
Qed.

(** The sample page end to end: the recommended swap is executed, the
    target leaves the sprint, the candidate enters it, and the log
    records that the recommendation was followed. *)
Example followed_swap_is_logged :
  let st' := (handleAction serve Sample.props "SWAP" (Sample.page [])).2 in
  (λ i, (item_id i, sprint_id (fields i))) <$> items (server st')
  = [("item-0", None); ("item-1", Some "s1")]
  ∧ (λ g, (Backend.log_id g, Backend.taken_action g, Backend.accepted g))
      <$> logs (server st')
    = [("log-1", Some "FOLLOWED_RECOMMENDATION", Some true)]
  ∧ done (ui st') = true.
Proof. cbn zeta. repeat split; vm_compute; reflexivity. Qed.

Lemma feedback_failure_does_not_block_witness :
  let st := Sample.page [None; Some (Unreachable "Failed to fetch")] in
  ∃ st', handleAction serve Sample.props "DEFER" st = (Ok (), st')
         ∧ done (ui st') = true
         ∧ alerts (ui st') = []
         ∧ Backend.taken_action <$> logs (server st') = [None].
Proof.
  cbn zeta.
  epose proof (feedback_failure_does_not_block serve Sample.props "DEFER"
                 (Sample.page [None; Some (Unreachable "Failed to fetch")]) _ _
                 ltac:(vm_compute; reflexivity))
    as (_ & st' & after & Hh & Hdone & _ & _ & Halerts & _).
  exists st'. split; [exact Hh|]. split; [exact Hdone|]. split; [exact Halerts|].
  apply (f_equal snd) in Hh. cbn [snd] in Hh. rewrite <- Hh. vm_compute. reflexivity.
Defined.

Lemma taken_action_classified_witness :
  let st := Sample.page [] in
  ∃ taken,
    Observe.feedbacks (sent (handleAction serve Sample.props "DEFER" st).2)
    = Observe.feedbacks (sent st) ++ [("/impact/logs/log-1/feedback", true, taken)]
    ∧ taken = "IGNORED_RECOMMENDATION".
Proof.
  cbn zeta.
  epose proof (taken_action_classified serve Sample.props "DEFER" "SWAP" "log-1"
                 (Sample.page []) _ _ eq_refl eq_refl ltac:(discriminate)
                 ltac:(vm_compute; reflexivity))
    as (taken & Hsent & _ & Hignored & _).
  exists taken. split; [exact Hsent|]. apply Hignored. discriminate.
Defined.

End ServiceFacts.

(** ** The analysis history *)

Section History.

Import Backend.

#[local] Instance newer_transitive : Transitive newer.
Proof. unfold newer. intros a b c. lia. Qed.

#[local] Instance newer_total : Total newer.
Proof. unfold newer. intros a b. lia. Qed.

Lemma StronglySorted_take {A} (R : relation A) n (l : list A) :
  StronglySorted R l → StronglySorted R (take n l).
Proof.
  intros Hl. revert n. induction Hl as [|x l Hl IH Hx]; intros [|n]; cbn;
    constructor; [apply IH|by apply Forall_take].
Qed.

(** The history is bounded by the limit. *)
Lemma history_length spaceId limit l :
  (length (history spaceId limit l) ≤ N.to_nat limit)%nat.
Proof. unfold history. rewrite length_take. lia. Qed.

(** The history is ordered newest first. *)
Lemma history_newest_first spaceId limit l :
  StronglySorted newer (history spaceId limit l).
Proof.
  unfold history. apply StronglySorted_take, StronglySorted_merge_sort; apply _.
Qed.

(** The history holds logs of the store, each at most as often as the
    store does. *)
Lemma history_of_store spaceId limit l : history spaceId limit l ⊆+ l.
Proof.
  unfold history. etrans; [apply sublist_submseteq, sublist_take|].
  rewrite merge_sort_Permutation. apply sublist_submseteq, sublist_filter.
Qed.

(** It holds logs of the asked space only. *)
Lemma history_of_space spaceId limit l g :
  g ∈ history spaceId limit l → log_space g = spaceId.
Proof.
  unfold history. intros Hg.
  pose proof (elem_of_sublist _ _ _ Hg (sublist_take _ _)) as Hg'.
  rewrite merge_sort_Permutation in Hg'.
  by apply list_elem_of_filter in Hg' as [? _].
Qed.

(** Instants that differ pairwise turn newest-first into strictly
    newest-first. *)
Lemma newest_first_strict (l : list AnalysisLog) :
  NoDup (timestamp <$> l) → StronglySorted newer l →
  StronglySorted (λ a b, (timestamp b < timestamp a)%Z) l.
Proof.
  intros Hnd Hl. induction Hl as [|x l Hl IH Hx]; [constructor|].
  rewrite fmap_cons, NoDup_cons in Hnd. destruct Hnd as [Hx' Hnd].
  constructor; [by apply IH|].
  rewrite Forall_forall in Hx |- *. intros y Hy.
  specialize (Hx y Hy). unfold newer in Hx.
  assert (timestamp y ≠ timestamp x); [|lia].
  intros Heq. apply Hx'. rewrite <- Heq. by apply list_elem_of_fmap_2.
Qed.

Lemma rows_descending (l : list AnalysisLog) :
  StronglySorted newer l → Observe.descending (row <$> l).
Proof. apply StronglySorted_fmap. by intros a b. Qed.

Lemma rows_strictly_descending (l : list AnalysisLog) :
  StronglySorted (λ a b, (timestamp b < timestamp a)%Z) l →
  Observe.strictly_descending (row <$> l).
Proof. apply StronglySorted_fmap. by intros a b. Qed.

(** Reading the space id and the limit back out of the path. *)
Lemma split_on_unfold sep s :
  split_on sep s
  = match strip_prefix sep s with
    | Some rest => Some (EmptyString, rest)
    | None =>
        match s with
        | EmptyString => None
        | String a s' => prod_map (String a) id <$> split_on sep s'
        end
    end.
Proof. by destruct s. Qed.

Lemma split_on_plain sep sid tail :
  plain sid →
  split_on (String "?" sep) (sid +:+ String "?" sep +:+ tail) = Some (sid, tail).
Proof.
  induction sid as [|a sid IH]; intros Hplain; rewrite split_on_unfold.
  - change (EmptyString +:+ String "?" sep +:+ tail)
      with (String "?" sep +:+ tail).
    by rewrite strip_prefix_app.
  - destruct Hplain as [Ha Hplain].
    change (String a sid +:+ String "?" sep +:+ tail)
      with (String a (sid +:+ String "?" sep +:+ tail)).
    cbn [strip_prefix]. rewrite decide_False by done.
    by rewrite IH.
Qed.

(** What the table gets from the service when the request gets through:
    the history of the space, cut at the default limit of 50. *)
Lemma load_from_service sid h (st : @Client.State Server) :
  plain sid → sid ≠ "" → gets_through (Client.server st) →
  Analytics.logs (Analytics.load serve (Some sid) h st).1
  = row <$> history sid 50 (logs (Client.server st)).
Proof.
  intros Hplain Hne Hthrough. unfold Analytics.load. cbn [Client.truthy].
  rewrite bool_decide_eq_true_2 by done. cbn [negb default from_option id].
  unfold Client.request, serve, route, ApiClient.getAnalysisHistory.
  cbn [http_method options method body endpoint default no_options].
  change (pretty 50%N) with "50".
  rewrite strip_prefix_app. cbn [mbind option_bind].
  rewrite (split_on_plain "limit=" sid "50" Hplain).
  change (parse_N "50") with (Some 50%N).
  unfold gets_through in Hthrough.
  destruct (faults (Client.server st)) as [|[f|] rest]; done.
Qed.

Lemma load_sent sid h (st : @Client.State Server) :
  sid ≠ "" →
  Client.sent (Analytics.load serve (Some sid) h st).2
  = Client.sent st ++ [ApiClient.getAnalysisHistory sid None].
Proof.
  intros Hne. unfold Analytics.load. cbn [Client.truthy].
  rewrite bool_decide_eq_true_2 by done. cbn [negb default from_option id].
  pose proof (request_sent serve (ApiClient.getAnalysisHistory sid None) st) as Hs.
  destruct (Client.request serve _ st) as [[[j|]|e] st']; done.
Qed.


(** Instants that differ in the store differ in the history. *)
Lemma history_distinct spaceId limit l :
  NoDup (timestamp <$> l) → NoDup (timestamp <$> history spaceId limit l).
Proof.
  intros Hnd. unfold history.
  eapply sublist_NoDup; [|apply fmap_sublist, sublist_take].
  rewrite merge_sort_Permutation.
  eapply sublist_NoDup; [exact Hnd|]. apply fmap_sublist, sublist_filter.
Qed.

Lemma StronglySorted_app_cross {A} (R : relation A) (l1 l2 : list A) x y :
  StronglySorted R (l1 ++ l2) → x ∈ l1 → y ∈ l2 → R x y.
Proof.
  induction l1 as [|a l1 IH]; cbn; [by intros _ ?%elem_of_nil|].
  intros [Ha Hs]%StronglySorted_cons [->|Hx]%elem_of_cons Hy.
  - rewrite Forall_forall in Ha. apply Ha, elem_of_app. by right.
  - by apply IH.
Qed.

(** The modelled history is an answer in the sense of the
    specification, with rows of the same instant side by side. *)
Lemma history_answers spaceId limit l :
  Stated.history_answer (λ a b, (b ≤ a)%Z) spaceId limit l (history spaceId limit l).
Proof.
  unfold Stated.history_answer, history. cbn zeta.
  set (of_space := filter (λ g, log_space g = spaceId) l).
  split; [|split; [|split]].
  - etrans; [apply sublist_submseteq, sublist_take|].
    by rewrite merge_sort_Permutation.
  - rewrite length_take. by rewrite (Permutation_length (merge_sort_Permutation _ _)).
  - intros g r Hg Hout Hr.
    assert (g ∈ drop (N.to_nat limit) (merge_sort newer of_space)) as Hdrop.
    { rewrite <- (merge_sort_Permutation newer of_space) in Hg.
      rewrite <- (take_drop (N.to_nat limit) (merge_sort newer of_space)) in Hg.
      apply elem_of_app in Hg as [Hg|Hg]; [by destruct Hout|done]. }
    eapply (StronglySorted_app_cross newer); [|exact Hr|exact Hdrop].
    rewrite take_drop. apply StronglySorted_merge_sort; apply _.
  - apply StronglySorted_take, StronglySorted_merge_sort; apply _.
Qed.

Lemma history_distinct_in_space spaceId limit l :
  NoDup (timestamp <$> filter (λ g, log_space g = spaceId) l) →
  NoDup (timestamp <$> history spaceId limit l).
Proof.
  intros Hnd. unfold history.
  eapply sublist_NoDup; [|apply fmap_sublist, sublist_take].
  by rewrite merge_sort_Permutation.
Qed.

(** C6, as stated, cannot be met on a store with two analyses of one
    space logged at the same instant: an answer holds both, and neither
    is strictly newer than the other. *)
Lemma same_instant_not_strict :
  ¬ ∃ rows, Stated.history_answer (λ a b, (b < a)%Z) "space-1" 50
              (logs Sample.twins) rows.
Proof.
  intros (rows & Hsub & Hlen & _ & Hsorted). cbn zeta in *.
  assert (Hof : filter (λ g, log_space g = "space-1") (logs Sample.twins)
                = [Sample.log "log-1" 1000; Sample.log "log-2" 1000])
    by reflexivity.
  rewrite Hof in Hsub, Hlen. cbn in Hlen.
  destruct rows as [|a [|b [|c rows]]]; try discriminate Hlen.
  assert (Hdates : ∀ g, g ∈ [a; b] → timestamp g = 1000%Z).
  { intros g Hg. eapply elem_of_submseteq in Hg; [|exact Hsub].
    rewrite !elem_of_cons, elem_of_nil in Hg. by destruct Hg as [->|[->|[]]]. }
  apply StronglySorted_cons in Hsorted as [Hlt _].
  apply Forall_cons in Hlt as [Hlt _].
  rewrite (Hdates a), (Hdates b) in Hlt; [lia|set_solver..].
Qed.

(** C6, amended: the table asks with the default limit of 50. What
    the service answers are the newest logs of the space, as many as
    there are up to the limit, ordered newest first with logs of the
    same instant side by side; the order is strictly descending when no
    two logs of the space share an instant. *)
Theorem history_newest_first_bounded sid h (st : @Client.State Server) :
  plain sid → sid ≠ "" → gets_through (Client.server st) →
  let stored := logs (Client.server st) in
  let loaded := Analytics.load serve (Some sid) h st in
  let rows := Analytics.logs loaded.1 in
  (∀ limit,
     Stated.history_answer (λ a b, (b ≤ a)%Z) sid limit stored
       (history sid limit stored))
  ∧ (∀ limit,
       NoDup (timestamp <$> filter (λ g, log_space g = sid) stored) →
       Stated.history_answer (λ a b, (b < a)%Z) sid limit stored
         (history sid limit stored))
  ∧ Client.sent loaded.2
    = Client.sent st
      ++ [{| endpoint := "/impact/history/" +:+ sid +:+ "?limit=50";
             options := no_options |}]
  ∧ http_method (ApiClient.getAnalysisHistory sid None) = GET
  ∧ rows = row <$> history sid 50 stored
  ∧ (length rows ≤ 50)%nat
  ∧ Observe.descending rows
  ∧ (NoDup (timestamp <$> filter (λ g, log_space g = sid) stored) →
     Observe.strictly_descending rows).
Proof.
  intros Hplain Hne Hthrough stored loaded rows.
  assert (rows = row <$> history sid 50 stored) as Hrows
    by by apply load_from_service.
  split; [intros limit; apply history_answers|].
  split.
  { intros limit Hnd.
    destruct (history_answers sid limit stored) as (Hsub & Hlen & Htop & Hsorted).
    repeat split; [done..|].
    apply newest_first_strict; [by apply history_distinct_in_space|done]. }
  split; [by apply load_sent|]. split; [done|]. split; [done|].
  rewrite Hrows. split; [|split].
  - rewrite length_fmap. apply (history_length sid 50).
  - apply rows_descending, history_newest_first.
  - intros Hnd. apply rows_strictly_descending, newest_first_strict.
    + by apply history_distinct_in_space.
    + apply history_newest_first.
Qed.

Lemma history_newest_first_bounded_witness :
  let st := {| Client.server := Sample.archive; Client.sent := [];
               Client.ui := Sample.fresh_ui |} in
  let rows :=
    Analytics.logs (Analytics.load serve (Some "space-1") Sample.no_history st).1 in
  Client.log_id <$> rows = ["log-2"; "log-4"; "log-1"]
  ∧ Observe.strictly_descending rows.
Proof.
  cbn zeta.
  destruct (history_newest_first_bounded "space-1" Sample.no_history
              {| Client.server := Sample.archive; Client.sent := [];
                 Client.ui := Sample.fresh_ui |})
    as (_ & _ & _ & _ & Hrows & _ & _ & Hstrict).
  - vm_compute. intuition discriminate.
  - discriminate.
  - exact I.
  - split.
    + rewrite Hrows. vm_compute. reflexivity.
    + apply Hstrict. vm_compute.
      repeat (constructor; [rewrite ?elem_of_cons, ?elem_of_nil; intuition discriminate|]).
      constructor.
Defined.

End History.

(** ** The burndown series *)

Section Burndown.

Import Analytics.

Local Open Scope Z_scope.

Lemma ideal_on_start total start finish :
  start < finish → (ideal_on total start finish start == inject_Z (Z.of_N total))%Q.
Proof.
  intros Hlt. unfold ideal_on. rewrite <- (Qmult_1_r (inject_Z (Z.of_N total))) at 2.
  apply Qmult_comp; [reflexivity|].
  apply Qmult_inv_r. unfold Qeq, inject_Z. cbn. lia.
Qed.

Lemma ideal_on_finish total start finish :
  (ideal_on total start finish finish == 0)%Q.
Proof.
  unfold ideal_on. rewrite Z.sub_diag. unfold Qeq, Qmult, Qdiv. cbn. lia.
Qed.

(** A later day never has more ideal work left. *)
Lemma ideal_on_decreasing total start finish d d' :
  start < finish → d ≤ d' →
  (ideal_on total start finish d' <= ideal_on total start finish d)%Q.
Proof.
  intros Hlt Hd. unfold ideal_on.
  rewrite !(Qmult_comm (inject_Z (Z.of_N total))).
  apply Qmult_le_compat_r; [|unfold Qle, inject_Z; cbn; lia].
  unfold Qdiv. apply Qmult_le_compat_r.
  - unfold Qle, inject_Z. cbn. lia.
  - apply Qinv_le_0_compat. unfold Qle, inject_Z. cbn. lia.
Qed.

(** From one day to the next the ideal drops by the same amount. *)
Lemma ideal_on_step total start finish d :
  start < finish →
  (ideal_on total start finish d - ideal_on total start finish (d + 1)
   == inject_Z (Z.of_N total) / inject_Z (finish - start))%Q.
Proof.
  intros Hlt. unfold ideal_on.
  assert (inject_Z (finish - d) == inject_Z (finish - (d + 1)) + 1)%Q as ->.
  { rewrite <- (inject_Z_plus _ 1). apply inject_Z_injective. lia. }
  field. unfold Qeq, inject_Z. cbn. lia.
Qed.

Lemma seqZ_increasing m n : StronglySorted Z.le (seqZ m n).
Proof.
  destruct (decide (n ≤ 0)) as [Hn|Hn]; [rewrite seqZ_nil by done; constructor|].
  rewrite <- (Z2Nat.id n) by lia. generalize (Z.to_nat n) as k. clear n Hn.
  intros k. revert m. induction k as [|k IH]; intros m; [constructor|].
  rewrite seqZ_cons by lia. constructor.
  - replace (Z.pred (Z.of_nat (S k))) with (Z.of_nat k) by lia. apply IH.
  - apply Forall_forall. intros x Hx. apply list_elem_of_lookup in Hx as [i Hi].
    apply lookup_seqZ in Hi. lia.
Qed.


Lemma ideal_series_dates total start finish :
  date <$> ideal_series total start finish = seqZ start (finish - start + 1).
Proof.
  unfold ideal_series. rewrite <- list_fmap_compose.
  rewrite <- (list_fmap_id (seqZ start _)) at 2. by apply list_fmap_ext.
Qed.

Lemma ideal_series_last total start finish :
  start ≤ finish →
  last (ideal_series total start finish)
  = Some {| date := finish; ideal := ideal_on total start finish finish |}.
Proof.
  intros Hle. unfold ideal_series. rewrite fmap_last.
  replace (finish - start + 1) with (Z.of_nat (S (Z.to_nat (finish - start)))) by lia.
  rewrite seqZ_S, last_snoc. cbn. do 3 f_equal; lia.
Qed.

(** C7, as stated, cannot hold for a sprint of a single day that has
    points: its series is one point, which would have to be both the
    total and 0. *)
Lemma one_day_sprint_not_interpolated :
  let data := burndown 0 0 [(8%N, false)] in
  ¬ ∃ series, Stated.interpolates (total_points data) 0 0 series.
Proof.
  cbn zeta. intros (series & Hdates & (first & Hfirst & Htotal)
                    & (final & Hfinal & Hzero) & _).
  change (seqZ 0 (0 - 0 + 1)) with [0] in Hdates.
  destruct series as [|p [|q series]]; try discriminate Hdates.
  cbn in Hfirst, Hfinal. simplify_eq.
  rewrite Hzero in Htotal. vm_compute in Htotal. discriminate Htotal.
Qed.

(** C7, amended: for a sprint that ends after it starts, the ideal
    series has one point per calendar day from the first to the last,
    starts at [total_points], ends at 0, drops by the same amount every
    day (the line between the two) and never increases; the chart plots
    one point per entry. *)
Theorem ideal_series_interpolates items start finish :
  start < finish →
  let data := burndown start finish items in
  let series := ideal_burndown data in
  date <$> series = seqZ start (finish - start + 1)
  ∧ (∃ first, head series = Some first ∧ date first = start
              ∧ (ideal first == total_points data)%Q)
  ∧ (∃ final, last series = Some final ∧ date final = finish
              ∧ (ideal final == 0)%Q)
  ∧ (∀ i p q, series !! i = Some p → series !! S i = Some q →
              (ideal p - ideal q
               == total_points data / inject_Z (finish - start))%Q)
  ∧ StronglySorted (λ p q, (ideal q <= ideal p)%Q) series
  ∧ length (idealPts data) = length series
  ∧ Stated.interpolates (total_points data) start finish series.
Proof.
  intros Hlt data series.
  enough (Hall :
    date <$> series = seqZ start (finish - start + 1)
    ∧ (∃ first, head series = Some first ∧ date first = start
                ∧ (ideal first == total_points data)%Q)
    ∧ (∃ final, last series = Some final ∧ date final = finish
                ∧ (ideal final == 0)%Q)
    ∧ (∀ i p q, series !! i = Some p → series !! S i = Some q →
                (ideal p - ideal q
                 == total_points data / inject_Z (finish - start))%Q)
    ∧ StronglySorted (λ p q, (ideal q <= ideal p)%Q) series
    ∧ length (idealPts data) = length series).
  { destruct Hall as (Hdates & (first & Hfirst & Hday & Htotal)
                      & (final & Hfinal & Hend & Hzero) & Hstep & Hsorted & Hlen).
    repeat split; try done; try by eauto. }
  subst series data. cbn [ideal_burndown burndown total_points].
  set (total := foldr N.add 0%N (items.*1)).
  split; [apply ideal_series_dates|].
  split.
  { unfold ideal_series. rewrite seqZ_cons by lia. cbn [fmap list_fmap head].
    eexists. split; [reflexivity|]. split; [reflexivity|].
    by apply ideal_on_start. }
  split.
  { eexists. split; [apply ideal_series_last; lia|]. split; [reflexivity|].
    apply ideal_on_finish. }
  split.
  { intros i p q Hp Hq. unfold ideal_series in Hp, Hq.
    rewrite list_lookup_fmap in Hp, Hq.
    destruct (seqZ start _ !! i) as [d|] eqn:Hd; [|done].
    destruct (seqZ start _ !! S i) as [d'|] eqn:Hd'; [|done].
    apply lookup_seqZ in Hd as [-> _]. apply lookup_seqZ in Hd' as [-> _].
    cbn in Hp, Hq. simplify_eq. cbn [ideal].
    replace (start + Z.of_nat (S i)) with (start + Z.of_nat i + 1) by lia.
    by apply ideal_on_step. }
  split.
  { unfold ideal_series.
    apply (StronglySorted_fmap _ Z.le); [|apply seqZ_increasing].
    intros d d' Hd. cbn [ideal]. by apply ideal_on_decreasing. }
  unfold idealPts. by rewrite length_imap.
Qed.

Lemma ideal_series_interpolates_witness :
  let data := burndown 3 7 [(4%N, true); (6%N, false)] in
  (3 < 7)
  ∧ date <$> ideal_burndown data = [3; 4; 5; 6; 7]
  ∧ StronglySorted (λ p q, (ideal q <= ideal p)%Q) (ideal_burndown data).
Proof.
  cbn zeta. split; [reflexivity|].
  destruct (ideal_series_interpolates [(4%N, true); (6%N, false)] 3 7 eq_refl)
    as (Hdates & _ & _ & _ & Hsorted & _).
  split; [exact Hdates|exact Hsorted].
Defined.

End Burndown.

(** * Further properties *)

(** ** The recommendation card, for any server *)

Section CardFacts.

Import Client Observe.

Context {W : Type} (fetch : Call → W → FetchResult * W).

Implicit Types (st : @State W) (p : Props).

Ltac step_call :=
  match goal with
  | |- context [request ?f ?c ?st] =>
      let Hs := fresh "Hsent" in
      let Hu := fresh "Hui" in
      let Hv := fresh "Hsrv" in
      pose proof (request_sent f c st) as Hs;
      pose proof (request_ui f c st) as Hu;
      pose proof (request_server f c st) as Hv;
      destruct (request f c st) as [[?|?] ?]; cbn [fst snd] in *
  end.

(** X1: [handleAction] never throws and never leaves the card busy.
    It ends in one of two ways: the card is done and no alert was
    raised, or one alert that starts with Action failed was raised and
    [done] is as it was. *)
Theorem handleAction_always_settles p a st :
  ∃ st', handleAction fetch p a st = (Ok (), st')
         ∧ executing (ui st') = false
         ∧ ((done (ui st') = true ∧ alerts (ui st') = alerts (ui st))
            ∨ (done (ui st') = done (ui st)
               ∧ ∃ e, alerts (ui st')
                      = alerts (ui st) ++ ["Action failed: " +:+ e])).
Proof.
  destruct (executeAction fetch a (recommendation p) (sprintId p) (spaceId p)
              (formData p) (started st)) as [[r|e] st1] eqn:Hrun.
  - destruct (handleAction_succeeded fetch p a st r st1 Hrun)
      as (st' & Hst & _ & _ & Hdone & _ & _ & Halerts & Hexec).
    exists st'. repeat split; [done..|]. by left.
  - destruct (handleAction_failed fetch p a st e st1 Hrun)
      as (st' & Hst & _ & _ & Halerts & Hdone & _ & Hexec).
    exists st'. repeat split; [done..|]. right. split; [done|]. by exists e.
Qed.

(** X2: the buttons of a card whose type is [type]. The alternatives
    are the four actions ADD, SWAP, DEFER and SPLIT without [type], each
    once; ACCEPT is never offered. The main button is the only one whose
    action counts as following the recommendation. *)
Theorem card_buttons type :
  (∀ alt, alt ∈ alternatives type
          ↔ alt ∈ ["ADD"; "SWAP"; "DEFER"; "SPLIT"] ∧ alt ≠ type)
  ∧ NoDup (alternatives type)
  ∧ classify type type = "FOLLOWED_RECOMMENDATION"
  ∧ Forall (λ alt, classify alt type = "IGNORED_RECOMMENDATION")
           (alternatives type).
Proof.
  assert (Hin : ∀ alt, alt ∈ alternatives type
                       ↔ alt ∈ ["ADD"; "SWAP"; "DEFER"; "SPLIT"] ∧ alt ≠ type).
  { intros alt. unfold alternatives, ACTION_KEYS.
    rewrite list_elem_of_filter, !elem_of_cons, elem_of_nil.
    split.
    - intros [[Hne Hacc] Hk]. split; [|done]. tauto.
    - intros [Hk Hne]. split; [split; [done|]|tauto].
      intros ->. destruct Hk as [Hk|[Hk|[Hk|[Hk|[]]]]]; discriminate Hk. }
  split; [exact Hin|]. split; [|split].
  - unfold alternatives. apply NoDup_filter. unfold ACTION_KEYS.
    apply (bool_decide_unpack _). by vm_compute.
  - unfold classify. by rewrite decide_True.
  - apply Forall_forall. intros alt [_ Hne]%Hin.
    unfold classify. by rewrite decide_False.
Qed.

(** X3: an action the [switch] does not know is never sent anywhere:
    the handler sends no request, the server is as it was, and the user
    gets the one alert that names the action. *)
Theorem unknown_action_only_alerts p a st :
  a ∉ ACTION_KEYS →
  ∃ st', handleAction fetch p a st = (Ok (), st')
         ∧ sent st' = sent st
         ∧ server st' = server st
         ∧ alerts (ui st')
           = alerts (ui st) ++ ["Action failed: Unknown action: " +:+ a]
         ∧ done (ui st') = done (ui st).
Proof.
  intros Ha. unfold ACTION_KEYS in Ha.
  rewrite !not_elem_of_cons in Ha. destruct Ha as (? & ? & ? & ? & ? & _).
  assert (Hrun : executeAction fetch a (recommendation p) (sprintId p)
                   (spaceId p) (formData p) (started st)
                 = (Throw ("Unknown action: " +:+ a), started st)).
  { unfold executeAction.
    rewrite decide_False by (intros [?|?]; done).
    by rewrite !decide_False by done. }
  destruct (handleAction_failed fetch p a st _ _ Hrun)
    as (st' & Hst & Hsrv & Hsent & Halerts & Hdone & _).
  exists st'. by repeat split.
Qed.

(** X4: a SWAP for a recommendation that names no target with an id
    sends nothing at all: no ticket is moved, nothing is created, and
    the user is told that there is no swap target. *)
Theorem swap_without_target_only_alerts p st :
  truthy ((recommendation p ≫= target_ticket) ≫= id) = false →
  ∃ st', handleAction fetch p "SWAP" st = (Ok (), st')
         ∧ sent st' = sent st
         ∧ server st' = server st
         ∧ alerts (ui st')
           = alerts (ui st) ++ ["Action failed: No swap target in recommendation."]
         ∧ done (ui st') = done (ui st).
Proof.
  intros Hid.
  assert (Hrun : executeAction fetch "SWAP" (recommendation p) (sprintId p)
                   (spaceId p) (formData p) (started st)
                 = (Throw "No swap target in recommendation.", started st)).
  { unfold executeAction.
    rewrite decide_False by (intros [?|?]; done).
    rewrite decide_True by done.
    destruct (recommendation p ≫= target_ticket) as [t|]; [|done].
    cbn in Hid. by rewrite Hid. }
  destruct (handleAction_failed fetch p "SWAP" st _ _ Hrun)
    as (st' & Hst & Hsrv & Hsent & Halerts & Hdone & _).
  exists st'. by repeat split.
Qed.

(** X5: the handler sends feedback exactly when the action went
    through and a log id is known. A failed action is never reported as
    taken, and without a log id nothing is reported at all. *)
Theorem feedback_only_after_success p a st :
  feedbacks (sent (handleAction fetch p a st).2) ≠ feedbacks (sent st)
  ↔ (∃ r st1, executeAction fetch a (recommendation p) (sprintId p) (spaceId p)
                (formData p) (started st) = (Ok r, st1))
    ∧ truthy (logId p) = true.
Proof.
  rewrite handleAction_feedbacks.
  destruct (executeAction fetch a _ _ _ _ (started st)) as [[r|e] st1].
  - destruct (truthy (logId p)).
    + split; [by eauto|]. intros _ Heq.
      apply (f_equal length) in Heq. rewrite length_app in Heq. cbn in Heq. lia.
    + rewrite app_nil_r. split; [done|]. by intros [_ ?].
  - rewrite app_nil_r. split; [done|]. by intros [(? & ? & ?) _].
Qed.

(** X6: a SWAP with a target always asks for the move of the target
    first, and for nothing else before it. The create is sent only once
    the move has returned; when the move fails, the SWAP fails with the
    same error and the create is never sent. *)
Theorem swap_moves_before_create p t tid st :
  recommendation p ≫= target_ticket = Some t →
  id t = Some tid → tid ≠ "" →
  let move := ApiClient.updateBacklogItem tid (SprintPatch None) in
  let create :=
    ApiClient.createBacklogItem
      (NewItem (new_item (spaceId p) (formData p) (sprintId p))) in
  let run := executeAction fetch "SWAP" (recommendation p) (sprintId p)
               (spaceId p) (formData p) st in
  match (request fetch move st).1 with
  | Throw e => run.1 = Throw e ∧ sent run.2 = sent st ++ [move]
  | Ok _ => sent run.2 = sent st ++ [move; create]
  end.
Proof.
  intros Ht Hid Hne. cbn zeta. unfold executeAction.
  rewrite decide_False by (intros [?|?]; done).
  rewrite decide_True by done.
  rewrite Ht, Hid. cbn [truthy]. rewrite bool_decide_eq_true_2 by done.
  change (default "" (Some tid)) with tid. unfold bind, ret.
  step_call; [|done]. step_call; rewrite Hsent0, Hsent, <- app_assoc; done.
Qed.

(** What [executeAction] sends: at most two requests, each the create
    of the candidate (in the sprint of the card or in none) or the move
    of the swap target out of its sprint. *)
Lemma executeAction_requests p a st :
  ∃ new,
    sent (executeAction fetch a (recommendation p) (sprintId p) (spaceId p)
            (formData p) st).2 = sent st ++ new
    ∧ (length new ≤ 2)%nat
    ∧ Forall (λ c,
        (∃ sprint, (sprint = sprintId p ∨ sprint = None)
           ∧ c = ApiClient.createBacklogItem
                   (NewItem (new_item (spaceId p) (formData p) sprint)))
        ∨ (∃ tid, (recommendation p ≫= target_ticket) ≫= id = Some tid
             ∧ c = ApiClient.updateBacklogItem tid (SprintPatch None)))
      new.
Proof.
  set (allowed := λ c : Call, _).
  assert (Hc : ∀ sprint, sprint = sprintId p ∨ sprint = None →
               allowed (ApiClient.createBacklogItem
                          (NewItem (new_item (spaceId p) (formData p) sprint)))).
  { intros sprint Hs. left. by exists sprint. }
  unfold executeAction; repeat case_decide; repeat case_match;
    unfold bind, ret, throw; cbn [fst snd];
    repeat step_call;
    repeat match goal with
           | H : sent _ = _ |- _ => rewrite H; clear H
           end;
    rewrite <- ?app_assoc;
    try (exists []; rewrite app_nil_r; split; [done|]; split;
         [cbn; lia | constructor]; fail);
    (eexists; split; [reflexivity|]; split; [cbn; lia|]);
    repeat (apply Forall_cons; split); try apply Forall_nil_2;
    try (apply Hc; by auto).
  all: right; eexists; split; [|reflexivity].
  all: match goal with
       | H2 : truthy (id ?t) = true |- _ =>
           cbn; destruct (id t); [done | discriminate H2]
       end.
Qed.

(** X7: everything one click on the card can send. Beside the
    requests of the action itself (the create of the candidate, with the
    fields of the form, status To Do and the space of the card, in the
    sprint of the card or in none; the move of the swap target out of
    its sprint) there is only the feedback patch and the reload of the
    sprint context: at most four requests, and never a delete. *)
Theorem handleAction_requests p a st :
  ∃ new,
    sent (handleAction fetch p a st).2 = sent st ++ new
    ∧ (length new ≤ 4)%nat
    ∧ Forall (λ c,
        (∃ sprint, (sprint = sprintId p ∨ sprint = None)
           ∧ c = ApiClient.createBacklogItem
                   (NewItem {| Http.title := Form.title (formData p);
                               Http.description := Form.description (formData p);
                               Http.story_points := Form.story_points (formData p);
                               Http.priority := Form.priority (formData p);
                               Http.type := Form.type (formData p);
                               space_id := spaceId p;
                               status := "To Do";
                               sprint_id := sprint |}))
        ∨ (∃ tid, (recommendation p ≫= target_ticket) ≫= id = Some tid
             ∧ c = ApiClient.updateBacklogItem tid (SprintPatch None))
        ∨ (∃ lid, logId p = Some lid
             ∧ c = ApiClient.recordImpactFeedback lid
                     (Feedback true (classify a (card_type (recommendation p)))))
        ∨ (∃ sid, sprintId p = Some sid ∧ c = ApiClient.getSprintContext sid))
      new.
Proof.
  destruct (executeAction_requests p a (started st)) as (new & Hnew & Hlen & Hall).
  assert (Hall' : Forall (λ c,
        (∃ sprint, (sprint = sprintId p ∨ sprint = None)
           ∧ c = ApiClient.createBacklogItem
                   (NewItem (new_item (spaceId p) (formData p) sprint)))
        ∨ (∃ tid, (recommendation p ≫= target_ticket) ≫= id = Some tid
             ∧ c = ApiClient.updateBacklogItem tid (SprintPatch None))
        ∨ (∃ lid, logId p = Some lid
             ∧ c = ApiClient.recordImpactFeedback lid
                     (Feedback true (classify a (card_type (recommendation p)))))
        ∨ (∃ sid, sprintId p = Some sid ∧ c = ApiClient.getSprintContext sid))
      new).
  { eapply Forall_impl; [exact Hall|]. intros c [?|?]; auto. }
  destruct (executeAction fetch a (recommendation p) (sprintId p) (spaceId p)
              (formData p) (started st)) as [[r|e] st1] eqn:Hrun.
  - destruct (handleAction_succeeded fetch p a st r st1 Hrun)
      as (st' & -> & Hsent & _).
    cbn [snd] in *. rewrite Hsent, logFeedback_sent, Hnew, <- !app_assoc.
    eexists. split; [reflexivity|]. split.
    + rewrite !length_app.
      destruct (truthy (logId p)), (sprintId p); cbn; lia.
    + apply Forall_app. split; [exact Hall'|]. apply Forall_app. split.
      * destruct (logId p) as [lid|] eqn:Hlid; cbn; [|constructor].
        case_bool_decide; [|constructor]. apply Forall_singleton.
        right. right. left. by exists lid.
      * destruct (sprintId p) as [sid|] eqn:Hsid; [|constructor].
        apply Forall_singleton. right. right. right. by exists sid.
  - destruct (handleAction_failed fetch p a st e st1 Hrun)
      as (st' & -> & _ & Hsent & _).
    cbn [snd] in *. exists new. rewrite Hsent. split; [done|].
    split; [lia|exact Hall'].
Qed.

(** X8: a response that is not ok never yields a value: [request]
    throws. When the body parses and carries a text that is not empty
    as [detail], that text is the message; when the body does not
    parse, the message is the status text, or An error occurred when
    the status text is empty. *)
Theorem failed_response_throws c st r w :
  fetch c (server st) = (Responded r, w) →
  ok r = false →
  ∃ m, (request fetch c st).1 = Throw m
       ∧ (∀ j d, json r = inl j → detail j = Some d → d ≠ "" → m = d)
       ∧ (∀ e, json r = inr e →
               m = if decide (statusText r = "") then "An error occurred"
                   else statusText r).
Proof.
  intros Hf Hok. unfold request. rewrite Hf, Hok. cbn.
  eexists. split; [reflexivity|]. split.
  - intros j d -> Hd Hne. rewrite Hd. cbn. by rewrite bool_decide_eq_true_2.
  - intros e ->. cbn [truthy]. case_decide as Hst.
    + by rewrite bool_decide_eq_false_2 by (by intros ?).
    + by rewrite bool_decide_eq_true_2.
Qed.

(** X9: the older client's [request] against the current one. They
    end alike and leave the same state in every case but one: a failed
    response whose body does not parse. There the older client throws
    the parse error, the current one the status text (or An error
    occurred when that is empty); the state they leave is the same. *)
Theorem legacy_request_agrees c st :
  match fetch c (server st) with
  | (Responded r, _) =>
      match ok r, json r with
      | false, inr e =>
          (LegacyRequest.request fetch c st).1 = Throw e
          ∧ (request fetch c st).1
            = Throw (if decide (statusText r = "") then "An error occurred"
                     else statusText r)
          ∧ (LegacyRequest.request fetch c st).2 = (request fetch c st).2
      | _, _ => LegacyRequest.request fetch c st = request fetch c st
      end
  | (Rejected _, _) => LegacyRequest.request fetch c st = request fetch c st
  end.
Proof.
  unfold LegacyRequest.request, request.
  destruct (fetch c (server st)) as [[e|r] w] eqn:Hf; [done|].
  destruct (ok r) eqn:Hok; cbn [negb]; [by destruct (json r)|].
  destruct (json r) as [j|e]; [done|]. cbn.
  split; [done|]. split; [|done].
  case_decide as Hst.
  - by rewrite bool_decide_eq_false_2 by (by intros ?).
  - by rewrite bool_decide_eq_true_2.
Qed.

End CardFacts.

Lemma unknown_action_only_alerts_witness :
  ∃ st', Client.handleAction Backend.serve Sample.props "REJECT" (Sample.page [])
         = (Client.Ok (), st')
         ∧ Client.sent st' = []
         ∧ Client.alerts (Client.ui st') = ["Action failed: Unknown action: REJECT"].
Proof.
  destruct (unknown_action_only_alerts Backend.serve Sample.props "REJECT"
              (Sample.page []))
    as (st' & Hst & Hsent & _ & Halerts & _).
  - unfold Client.ACTION_KEYS. rewrite !not_elem_of_cons.
    repeat split; first [discriminate | apply not_elem_of_nil].
  - exists st'. repeat split; done.
Defined.

Lemma swap_without_target_only_alerts_witness :
  ∃ st', Client.handleAction Backend.serve Scenario.no_target "SWAP" (Sample.page [])
         = (Client.Ok (), st')
         ∧ Client.sent st' = []
         ∧ Client.alerts (Client.ui st')
           = ["Action failed: No swap target in recommendation."].
Proof.
  destruct (swap_without_target_only_alerts Backend.serve Scenario.no_target
              (Sample.page []) eq_refl)
    as (st' & Hst & Hsent & _ & Halerts & _).
  exists st'. repeat split; done.
Defined.

Lemma swap_moves_before_create_witness :
  Client.sent
    (Client.executeAction Backend.serve "SWAP"
       (Client.recommendation Sample.props) (Client.sprintId Sample.props)
       (Client.spaceId Sample.props) (Client.formData Sample.props)
       (Sample.page [])).2
  = [ApiClient.updateBacklogItem "item-0" (SprintPatch None);
     ApiClient.createBacklogItem
       (NewItem (Client.new_item "space-1" Sample.form (Some "s1")))].
Proof.
  exact (swap_moves_before_create Backend.serve Sample.props Sample.target
           "item-0" (Sample.page []) eq_refl eq_refl ltac:(discriminate)).
Defined.

Lemma failed_response_throws_witness :
  (Client.request Backend.serve (ApiClient.getSprintContext "s1")
     (Sample.page [Some (Backend.Refused 500 "Internal Server Error")])).1
  = Client.Throw "Internal Server Error".
Proof.
  edestruct (failed_response_throws Backend.serve
               (ApiClient.getSprintContext "s1")
               (Sample.page [Some (Backend.Refused 500 "Internal Server Error")]))
    as (m & Hm & Hdetail & _).
  - vm_compute. reflexivity.
  - reflexivity.
  - rewrite Hm. f_equal. eapply Hdetail; [reflexivity|reflexivity|discriminate].
Defined.


(** ** The risk banner *)

Section BannerFacts.

Import ImpactDashboard.

(** X10: the dot of the banner follows the critical signals alone,
    the level also the warnings. They agree on CRITICAL RISK (red dot)
    and an amber dot only shows under ELEVATED RISK, but two or more
    warnings without a critical signal give ELEVATED RISK with the
    green dot of LOW RISK; that is the only way the two disagree. *)
Theorem dot_against_level (l : list Card) :
  (RiskBanner.dot l = "bg-red-500" ↔ level l = "CRITICAL RISK")
  ∧ (RiskBanner.dot l = "bg-amber-500" → level l = "ELEVATED RISK")
  ∧ (level l = "LOW RISK" → RiskBanner.dot l = "bg-emerald-500")
  ∧ (RiskBanner.dot l = "bg-emerald-500" ∧ level l = "ELEVATED RISK"
     ↔ count_status "critical" l = 0%nat ∧ (2 ≤ count_status "warning" l)%nat).
Proof.
  unfold RiskBanner.dot, level.
  set (crit := count_status "critical" l). set (warn := count_status "warning" l).
  repeat case_decide; repeat split; intros; destruct_and?;
    first [done | discriminate | lia].
Qed.

(** Every key that is missing from [display] is among the warnings the
    banner counts. *)
Lemma missing_counted_as_warnings (d : gmap string Metrics.Metric)
    (keys : list string) :
  (length (filter (λ k, d !! k = None) keys)
   ≤ count_status "warning" (card d <$> keys))%nat.
Proof.
  unfold count_status. induction keys as [|k keys IH]; [done|].
  rewrite fmap_cons, !filter_cons.
  destruct (decide (d !! k = None)) as [Hk|Hk].
  - assert (status (card d k) = "warning") by (unfold card; by rewrite Hk).
    rewrite decide_True by done. cbn. lia.
  - case_decide; cbn; lia.
Qed.

(** X11: a metric the model did not return counts as a warning in
    the banner. With two or more of the four keys missing the banner
    never reads LOW RISK, whatever the metrics that did arrive say. *)
Theorem missing_metrics_raise_banner (d : gmap string Metrics.Metric) :
  (2 ≤ length (filter (λ k, d !! k = None) CARD_KEYS))%nat →
  level (metrics d) ≠ "LOW RISK".
Proof.
  intros Hmissing.
  assert (Hwarn : (2 ≤ count_status "warning" (metrics d))%nat).
  { etrans; [exact Hmissing|]. apply missing_counted_as_warnings. }
  unfold level. repeat case_decide; first [discriminate | lia].
Qed.

End BannerFacts.

Lemma missing_metrics_raise_banner_witness :
  ImpactDashboard.level (ImpactDashboard.metrics ∅) ≠ "LOW RISK".
Proof.
  apply (missing_metrics_raise_banner ∅). vm_compute. lia.
Defined.

(** ** The history table and the analyzer, for any server *)

Section PageFacts.

Context {W : Type} (fetch : Call → W → Client.FetchResult * W).


Import AnalyzerPage.

Variable trim : string → string.
Variable stringify : AnalyzeRequest → string.

Implicit Types (s : @Page.State W View).

(** What [Page.request] does to the page: the call is recorded, the
    view is left alone, and the outcome does not depend on the view. *)
Lemma page_request_sent {U} c (s : @Page.State W U) :
  Page.sent (Page.request fetch c s).2 = Page.sent s ++ [c].
Proof.
  unfold Page.request.
  pose proof (request_sent fetch c
                {| Client.server := Page.server s; Client.sent := Page.sent s;
                   Client.ui := Page.idle |}) as Hsent.
  by destruct (Client.request fetch c _) as [r cs].
Qed.

Lemma page_request_view {U} c (s : @Page.State W U) :
  Page.view (Page.request fetch c s).2 = Page.view s.
Proof. unfold Page.request. by destruct (Client.request fetch c _) as [r cs]. Qed.

Lemma page_request_server {U} c (s : @Page.State W U) :
  Page.server (Page.request fetch c s).2 = (fetch c (Page.server s)).2.
Proof.
  unfold Page.request.
  pose proof (request_server fetch c
                {| Client.server := Page.server s; Client.sent := Page.sent s;
                   Client.ui := Page.idle |}) as Hsrv.
  by destruct (Client.request fetch c _) as [r cs].
Qed.

Lemma page_request_result {U} c (s : @Page.State W U) :
  (Page.request fetch c s).1
  = (Client.request fetch c
       {| Client.server := Page.server s; Client.sent := Page.sent s;
          Client.ui := Page.idle |}).1.
Proof. unfold Page.request. by destruct (Client.request fetch c _) as [r cs]. Qed.

Lemma page_request_any_view {U} c (w : W) (l : list Call) (v v0 : U) :
  Page.request fetch c {| Page.server := w; Page.sent := l; Page.view := v |}
  = let r := Page.request fetch c
               {| Page.server := w; Page.sent := l; Page.view := v0 |} in
    (r.1, {| Page.server := Page.server r.2; Page.sent := Page.sent r.2;
             Page.view := v |}).
Proof.
  unfold Page.request. cbn. by destruct (Client.request fetch c _) as [r cs].
Qed.

Ltac step_page :=
  match goal with
  | |- context [Page.request ?f ?c ?s] =>
      let Hs := fresh "Hsent" in
      let Hu := fresh "Hview" in
      let Hv := fresh "Hsrv" in
      let Hr := fresh "Hres" in
      pose proof (page_request_sent c s) as Hs;
      pose proof (page_request_view c s) as Hu;
      pose proof (page_request_server c s) as Hv;
      pose proof (page_request_result c s) as Hr;
      destruct (Page.request f c s) as [[?|?] [? ? ?]]; cbn [fst snd] in *
  end.

(** X13: Analyze with no sprint selected, or with a title that is
    blank once trimmed, asks the server nothing: no request leaves, the
    analysis on screen stays, and the user gets the one alert. *)
Theorem analyze_needs_sprint_and_title s :
  selectedSprint (Page.view s) = None
  ∨ trim (Form.title (formData (Page.view s))) = "" →
  ∃ s', handleAnalyze fetch trim stringify s = (Client.Ok (), s')
        ∧ Page.sent s' = Page.sent s
        ∧ Page.server s' = Page.server s
        ∧ Page.view s'
          = alert "Please select a sprint and enter a title" (Page.view s).
Proof.
  intros Hguard. unfold handleAnalyze, Page.bind at 1, Page.get.
  destruct (selectedSprint (Page.view s)) as [sprint|] eqn:Hsel.
  - destruct Hguard as [|Htitle]; [done|].
    rewrite decide_True by done. by eexists.
  - by eexists.
Qed.

(** X14: Analyze with a sprint and a title sends exactly one request,
    the analysis of the form against the selected sprint, and never
    throws. It ends with [loading] off and the action result cleared.
    The analysis on screen is then the answer, or, when the request
    fails, none at all with one alert: the previous analysis is never
    left standing. *)
Theorem analyze_outcome s sprint :
  selectedSprint (Page.view s) = Some sprint →
  trim (Form.title (formData (Page.view s))) ≠ "" →
  let fd := formData (Page.view s) in
  let call :=
    ApiClient.analyzeImpact
      (Raw (stringify {| sprint_id := id sprint;
                         title := Form.title fd;
                         description := Form.description fd;
                         story_points := Form.story_points fd;
                         priority := Form.priority fd;
                         type := Form.type fd |})) in
  ∃ s', handleAnalyze fetch trim stringify s = (Client.Ok (), s')
        ∧ Page.sent s' = Page.sent s ++ [call]
        ∧ loading (Page.view s') = false
        ∧ actionResult (Page.view s') = None
        ∧ selectedSprint (Page.view s') = Some sprint
        ∧ formData (Page.view s') = fd
        ∧ match (Page.request fetch call s).1 with
          | Client.Ok result =>
              analysis (Page.view s') = result
              ∧ alerts (Page.view s') = alerts (Page.view s)
          | Client.Throw e =>
              analysis (Page.view s') = None
              ∧ alerts (Page.view s')
                = alerts (Page.view s) ++ ["Failed to analyze impact: " +:+ e]
          end.
Proof.
  intros Hsel Htitle. cbn zeta.
  unfold handleAnalyze, Page.bind at 1, Page.get. rewrite Hsel.
  rewrite decide_False by done.
  unfold Page.bind, Page.try_finally, Page.try_catch, Page.bind, Page.modify.
  cbn [Page.server Page.sent Page.view].
  rewrite (page_request_result _ s).
  step_page; cbn in Hres; rewrite <- Hres;
    (eexists; split; [reflexivity|]); cbn in *; subst; by rewrite ?Hsel.
Qed.

(** X15: the sprint the analyzer selects by itself when the list
    arrives. A selection that exists is never overridden and nothing
    is sent. Otherwise the first Active sprint of the list is selected,
    or the first sprint when none is Active, and its context is asked
    for once; with an empty list nothing happens. *)
Theorem auto_select_outcome (sprints : list Sprint) s :
  let s' := (autoSelect fetch sprints s).2 in
  (autoSelect fetch sprints s).1 = Client.Ok ()
  ∧ (is_Some (selectedSprint (Page.view s)) ∨ sprints = [] → s' = s)
  ∧ (selectedSprint (Page.view s) = None →
     ∀ first, head sprints = Some first →
     ∃ active,
       selectedSprint (Page.view s') = Some active
       ∧ active ∈ sprints
       ∧ (status active = "Active"
          ∨ (active = first ∧ Forall (λ x, status x ≠ "Active") sprints))
       ∧ Page.sent s' = Page.sent s ++ [ApiClient.getSprintContext (id active)]).
Proof.
  cbn zeta.
  assert (Hpick : ∀ first, head sprints = Some first →
            ∃ active, pick_sprint sprints = Some active
                      ∧ active ∈ sprints
                      ∧ (status active = "Active"
                         ∨ (active = first
                            ∧ Forall (λ x, status x ≠ "Active") sprints))).
  { intros first Hfirst. unfold pick_sprint.
    destruct (list_find _ sprints) as [[i x]|] eqn:Hfind.
    - apply list_find_Some in Hfind as (Hi & Hx & _).
      exists x. split; [done|]. split; [by eapply list_elem_of_lookup_2|by left].
    - exists first. split; [done|]. split.
      + destruct sprints; [done|]. injection Hfirst as ->. by left.
      + right. split; [done|]. by apply list_find_None in Hfind. }
  assert (Hload : ∀ sid (s0 : @Page.State W View),
            (loadSprintContext fetch sid s0).1 = Client.Ok ()
            ∧ Page.sent (loadSprintContext fetch sid s0).2
              = Page.sent s0 ++ [ApiClient.getSprintContext sid]
            ∧ selectedSprint (Page.view (loadSprintContext fetch sid s0).2)
              = selectedSprint (Page.view s0)).
  { intros sid s0. unfold loadSprintContext, Page.try_catch, Page.bind, Page.modify.
    step_page; cbn in *; subst; done. }
  unfold autoSelect, Page.bind, Page.get, Page.modify, Page.ret.
  cbn [Page.server Page.sent Page.view].
  destruct (selectedSprint (Page.view s)) as [cur|] eqn:Hcur.
  - split; [by destruct (pick_sprint sprints)|].
    split; [by destruct (pick_sprint sprints)|]. done.
  - destruct sprints as [|first rest].
    + cbn. split; [done|]. split; [done|]. done.
    + destruct (Hpick first eq_refl) as (active & -> & Hin & Hwhich).
      match goal with
      | |- context [loadSprintContext fetch ?sid ?s0] =>
          destruct (Hload sid s0) as (Hok & Hsent & Hsel)
      end.
      split; [done|]. split; [by intros [[? ?]|?]|].
      intros _ first' [= <-]. exists active. by rewrite Hsel, Hsent.
Qed.

(** X16: choosing a sprint in the selector drops what was computed
    for the previous one: the analysis and the action result are
    cleared, whether or not the id is in the list. A known sprint
    becomes the selection and its context is asked for once; an unknown
    id clears the selection and sends nothing. *)
Theorem sprint_change_outcome (sprints : list Sprint) (sprintId : string) s :
  let s' := (handleSprintChange fetch sprints sprintId s).2 in
  (handleSprintChange fetch sprints sprintId s).1 = Client.Ok ()
  ∧ analysis (Page.view s') = None
  ∧ actionResult (Page.view s') = None
  ∧ formData (Page.view s') = formData (Page.view s)
  ∧ match selectedSprint (Page.view s') with
    | Some sprint =>
        sprint ∈ sprints ∧ id sprint = sprintId
        ∧ Page.sent s' = Page.sent s ++ [ApiClient.getSprintContext sprintId]
    | None =>
        (sprintId ∉ (id <$> sprints)) ∧ Page.sent s' = Page.sent s
    end.
Proof.
  cbn zeta. unfold handleSprintChange, Page.bind, Page.modify.
  cbn [Page.server Page.sent Page.view].
  destruct (list_find _ sprints) as [[i x]|] eqn:Hfind; cbn [fmap option_fmap option_map snd].
  - apply list_find_Some in Hfind as (Hi & Hx & _).
    unfold loadSprintContext, Page.try_catch, Page.bind, Page.modify.
    step_page; cbn in *; subst; repeat split; try done;
      by eapply list_elem_of_lookup_2.
  - cbn. repeat split; try done.
    intros (x & Hid & Hx)%list_elem_of_fmap.
    eapply list_find_None in Hfind. rewrite Forall_forall in Hfind.
    by apply (Hfind x Hx).
Qed.

(** X17: the analyzer and its card together. Whatever the card
    creates goes into the space the analyzer resolved: the [spaceId]
    prop when the page passes one, else the space of the selected
    sprint, else the empty string. The dashboard passes none, so there
    the space is the selected sprint's. The item sits in the selected
    sprint or in none, with status To Do and the title of the form. *)
Theorem analyzer_card_payload (spaceId : option string) (v : View)
    (rec : option Client.Recommendation) (logId : option string) (a : string)
    (st : @Client.State W) :
  ∃ new,
    Client.sent (Client.handleAction fetch (card_props spaceId v rec logId) a st).2
    = Client.sent st ++ new
    ∧ Forall (λ c, ∀ item,
        body (options c) = Some (NewItem item) →
        Http.space_id item
        = (if Client.truthy spaceId then default "" spaceId
           else default "" (selectedSprint v ≫= space_id))
        ∧ (Http.sprint_id item = None
           ∨ Http.sprint_id item = (id <$> selectedSprint v))
        ∧ Http.status item = "To Do"
        ∧ Http.title item = Form.title (formData v)) new.
Proof.
  set (p := card_props spaceId v rec logId).
  assert (Hspace : Client.spaceId p
                   = if Client.truthy spaceId then default "" spaceId
                     else default "" (selectedSprint v ≫= space_id)).
  { unfold p, card_props, resolvedSpaceId. cbn.
    destruct (Client.truthy spaceId); [done|].
    destruct (selectedSprint v ≫= space_id) as [sp|]; [|done].
    cbn. case_bool_decide as Hsp; [done|]. by subst sp. }
  destruct (executeAction_requests fetch p a (Observe.started st))
    as (new & Hnew & _ & Hall).
  assert (Hitems : Forall (λ c, ∀ item,
            body (options c) = Some (NewItem item) →
            Http.space_id item
            = (if Client.truthy spaceId then default "" spaceId
               else default "" (selectedSprint v ≫= space_id))
            ∧ (Http.sprint_id item = None
               ∨ Http.sprint_id item = (id <$> selectedSprint v))
            ∧ Http.status item = "To Do"
            ∧ Http.title item = Form.title (formData v)) new).
  { eapply Forall_impl; [exact Hall|]. intros c [(sprint & Hs & ->)|(tid & _ & ->)] item.
    - cbn. intros [= <-]. cbn. rewrite <- Hspace. split; [done|].
      split; [|done]. destruct Hs as [->| ->]; auto.
    - cbn. discriminate. }
  destruct (Client.executeAction fetch a (Client.recommendation p)
              (Client.sprintId p) (Client.spaceId p) (Client.formData p)
              (Observe.started st)) as [[r|e] st1] eqn:Hrun.
  - destruct (handleAction_succeeded fetch p a st r st1 Hrun)
      as (st' & -> & Hsent & _).
    cbn [snd] in *. rewrite Hsent, logFeedback_sent, Hnew, <- !app_assoc.
    eexists. split; [reflexivity|].
    apply Forall_app. split; [done|]. apply Forall_app. split.
    + destruct (Client.truthy (Client.logId p)); [|constructor].
      apply Forall_singleton. intros item. cbn. discriminate.
    + destruct (Client.sprintId p); [|constructor].
      apply Forall_singleton. intros item. cbn. discriminate.
  - destruct (handleAction_failed fetch p a st e st1 Hrun)
      as (st' & -> & _ & Hsent & _).
    cbn [snd] in *. exists new. by rewrite Hsent.
Qed.

End PageFacts.

Lemma analyze_needs_sprint_and_title_witness :
  ∃ s', AnalyzerPage.handleAnalyze Backend.serve (λ t, t) AnalyzerPage.title
          (Scenario.on [] Scenario.blank) = (Client.Ok (), s')
        ∧ Page.sent s' = []
        ∧ AnalyzerPage.alerts (Page.view s')
          = ["Please select a sprint and enter a title"].
Proof.
  destruct (analyze_needs_sprint_and_title Backend.serve (λ t, t)
              AnalyzerPage.title (Scenario.on [] Scenario.blank))
    as (s' & Hs & Hsent & _ & Hview).
  - left. reflexivity.
  - exists s'. split; [exact Hs|]. split; [exact Hsent|]. by rewrite Hview.
Defined.

Lemma analyze_outcome_witness :
  ∃ s', AnalyzerPage.handleAnalyze Backend.serve (λ t, t) AnalyzerPage.title
          (Scenario.on [Some (Backend.Unreachable "Failed to fetch")]
             Scenario.filled) = (Client.Ok (), s')
        ∧ AnalyzerPage.loading (Page.view s') = false
        ∧ length (Page.sent s') = 1%nat.
Proof.
  destruct (analyze_outcome Backend.serve (λ t, t) AnalyzerPage.title
              (Scenario.on [Some (Backend.Unreachable "Failed to fetch")]
                 Scenario.filled) Scenario.sprint)
    as (s' & Hs & Hsent & Hloading & _).
  - reflexivity.
  - vm_compute. discriminate.
  - exists s'. split; [exact Hs|]. split; [exact Hloading|]. by rewrite Hsent.
Defined.

(** ** The charts *)

Section ChartFacts.

Import Analytics Charts.

(** A value inside the domain of a scale goes to [r0 + t * (r1 - r0)]
    for a [t] between 0 and 1; a domain of width zero gives [t = 0]. *)
Lemma sc_unit d0 d1 r0 r1 v :
  (d0 <= v)%Q → (v <= d1)%Q →
  ∃ t, (0 <= t)%Q ∧ (t <= 1)%Q
       ∧ (sc d0 d1 r0 r1 v == r0 + t * (r1 - r0))%Q.
Proof.
  intros H0 H1. unfold sc.
  destruct (Qeq_bool (d1 - d0) 0) eqn:Hw.
  - apply Qeq_bool_iff in Hw. exists ((v - d0) / 1)%Q.
    assert (Hz : ((v - d0) / 1 == 0)%Q) by (field_simplify; lra).
    split; [lra|]. split; [lra|]. reflexivity.
  - apply Qeq_bool_neq in Hw.
    assert (Hpos : (0 < d1 - d0)%Q).
    { apply Qnot_le_lt. intros Hle. apply Hw. lra. }
    exists ((v - d0) / (d1 - d0))%Q.
    split; [apply Qle_shift_div_l; [done|lra]|].
    split; [apply Qle_shift_div_r; [done|lra]|]. reflexivity.
Qed.

Lemma maxSP_ge_1 data : (1 <= maxSP data)%Q.
Proof. unfold maxSP. apply Q.le_max_r. Qed.

Lemma clamp_between v lo hi :
  (lo <= hi)%Q → (lo <= clamp v lo hi)%Q ∧ (clamp v lo hi <= hi)%Q.
Proof.
  intros Hlh. unfold clamp. split; [apply Q.le_max_l|].
  apply Q.max_lub; [done|apply Q.le_min_l].
Qed.

(** X18: every point of the ideal line lies inside the drawing area
    of the burndown chart, as long as the series stays between 0 and
    the top of the scale; this includes the series of a single day,
    whose x scale has a domain of width zero. *)
Theorem ideal_points_inside data :
  Forall (λ d, (0 <= ideal d)%Q ∧ (ideal d <= maxSP data)%Q) (ideal_burndown data) →
  Forall (λ pt, (0 <= pt.1)%Q ∧ (pt.1 <= cw)%Q ∧ (0 <= pt.2)%Q ∧ (pt.2 <= ch)%Q)
         (idealPts data).
Proof.
  intros Hin. unfold idealPts. apply Forall_lookup. intros i pt Hpt.
  apply list_lookup_imap_Some in Hpt as (d & Hd & ->). cbn [fst snd].
  rewrite Forall_lookup in Hin. destruct (Hin i d Hd) as [Hlo Hhi].
  apply lookup_lt_Some in Hd.
  assert (Hi0 : (0 <= inject_Z (Z.of_nat i))%Q).
  { rewrite <- (Zle_Qle 0). lia. }
  assert (Hi1 : (inject_Z (Z.of_nat i)
                 <= inject_Z (Z.of_nat (length (ideal_burndown data)) - 1))%Q).
  { rewrite <- Zle_Qle. lia. }
  unfold xSc, ySc.
  destruct (sc_unit 0 (inject_Z (Z.of_nat (length (ideal_burndown data)) - 1))
              0 cw _ Hi0 Hi1) as (t & Ht0 & Ht1 & ->).
  destruct (sc_unit 0 (maxSP data) ch 0 _ Hlo Hhi) as (u & Hu0 & Hu1 & ->).
  unfold cw, ch. repeat split; lra.
Qed.

Lemma inject_Z_pred (a : Z) : (inject_Z a - 1)%Q = inject_Z (a - 1).
Proof. by rewrite <- Z.add_opp_r, inject_Z_plus. Qed.

(** [Math.max] and [Math.min] of two integers are integers. *)
Lemma Qmax_inject_Z (a b : Z) : Qmax (inject_Z a) (inject_Z b) = inject_Z (Z.max a b).
Proof.
  unfold Qmax, GenericMinMax.gmax, Z.max, Qcompare. cbn.
  rewrite !Z.mul_1_r. by destruct (a ?= b)%Z.
Qed.

Lemma Qmin_inject_Z (a b : Z) : Qmin (inject_Z a) (inject_Z b) = inject_Z (Z.min a b).
Proof.
  unfold Qmin, GenericMinMax.gmin, Z.min, Qcompare. cbn.
  rewrite !Z.mul_1_r. by destruct (a ?= b)%Z.
Qed.

(** X19: the hover index is always an index of the series: whatever
    the pointer position, inside the chart or far outside it, the point
    looked up for the tooltip of a series that is not empty exists. *)
Theorem hover_index_in_range {A} (series : list A) (x : Q) :
  series ≠ [] →
  is_Some (at_index series (hover_idx (length series) x)).
Proof.
  intros Hne. unfold hover_idx.
  set (n := length series).
  assert (Hn : (1 <= n)%nat) by (destruct series; [done|cbn; lia]).
  set (r := round _).
  unfold clamp. rewrite inject_Z_pred.
  change 0%Q with (inject_Z 0). rewrite Qmin_inject_Z, Qmax_inject_Z.
  set (k := Z.max 0 (Z.min (Z.of_nat n - 1) r)).
  assert (Hk : (0 ≤ k < Z.of_nat n)%Z) by lia.
  unfold at_index. rewrite Qfloor_Z.
  assert (Hint : Qeq_bool (inject_Z k) (inject_Z k) = true).
  { by apply Qeq_bool_iff. }
  assert (Hpos : Qle_bool 0 (inject_Z k) = true).
  { apply Qle_bool_iff. rewrite <- (Zle_Qle 0). lia. }
  rewrite Hint, Hpos. cbn [andb]. apply lookup_lt_is_Some. lia.
Qed.

(** [pastIdxs] without the accumulator. *)
Lemma pastIdxs_filter today ideal :
  pastIdxs today ideal
  = (filter (λ id : nat * IdealPoint, (date id.2 ≤ today)%Z) (imap pair ideal)).*1.
Proof.
  unfold pastIdxs.
  enough (Hacc : ∀ (l : list (nat * IdealPoint)) (acc : list nat),
            foldl (λ (a : list nat) (id : nat * IdealPoint),
                     if decide (date id.2 ≤ today)%Z then a ++ [id.1] else a)
                  acc l
            = acc ++ (filter (λ id : nat * IdealPoint, (date id.2 ≤ today)%Z) l).*1)
    by apply (Hacc _ []).
  induction l as [|x l IH]; intros acc; [by rewrite app_nil_r|].
  cbn [foldl]. rewrite filter_cons, IH. case_decide; [|done].
  by rewrite fmap_cons, <- app_assoc.
Qed.

Lemma filter_nothing {A} (P : A → Prop) `{∀ x, Decision (P x)} (l : list A) :
  Forall (λ x, ¬ P x) l → filter P l = [].
Proof.
  induction 1 as [|x l Hx _ IH]; [done|]. by rewrite filter_cons, decide_False.
Qed.

(** When the days of the series come in order, the days up to today are
    a prefix of it. *)
Lemma past_prefix today (ideal : list IdealPoint) (o : nat) :
  StronglySorted (λ a b, (date a ≤ date b)%Z) ideal →
  (filter (λ id : nat * IdealPoint, (date id.2 ≤ today)%Z)
          (imap (λ i d, (o + i, d)%nat) ideal)).*1
  = seq o (length (filter (λ d, (date d ≤ today)%Z) ideal)).
Proof.
  intros Hsorted. revert o.
  induction Hsorted as [|x l Hl IH Hx]; intros o; [done|].
  cbn [imap]. rewrite !filter_cons. cbn [snd].
  assert (Himap : imap ((λ i d, ((o + i)%nat, d)) ∘ S) l
                  = imap (λ i d, ((S o + i)%nat, d)) l).
  { apply imap_ext. intros i d _. cbn. f_equal. lia. }
  rewrite Himap. case_decide as Hdate.
  - rewrite fmap_cons, (IH (S o)). cbn [fst length seq]. f_equal. lia.
  - rewrite (filter_nothing (λ d, (date d ≤ today)%Z) l).
    + rewrite filter_nothing; [done|].
      apply Forall_lookup. intros i [k d] Hk.
      apply list_lookup_imap_Some in Hk as (d' & Hd' & [= -> ->]). cbn.
      rewrite Forall_lookup in Hx. specialize (Hx i d' Hd'). lia.
    + eapply Forall_impl; [exact Hx|]. cbn. intros d Hd. lia.
Qed.

(** X20: the actual line of the burndown chart. When the days of
    the series come in order, the plotted days are the first ones, with
    no gap. From two plotted days on, the line starts at the total and
    ends at the total less the done points (or at 0 if that is
    negative); it never goes below 0. *)
Theorem actual_line_shape today data :
  StronglySorted (λ a b, (date a ≤ date b)%Z) (ideal_burndown data) →
  let past := pastIdxs today (ideal_burndown data) in
  let k := length past in
  past = seq 0 k
  ∧ length (actualPts today data) = k
  ∧ ((2 ≤ k)%nat →
     (approxRem data k 0 == Qmax 0 (total_points data))%Q
     ∧ (approxRem data k (k - 1)
        == Qmax 0 (total_points data - done_points data))%Q)
  ∧ ∀ idx, (0 <= approxRem data k idx)%Q.
Proof.
  intros Hsorted. cbn zeta.
  assert (Hpast : pastIdxs today (ideal_burndown data)
                  = seq 0 (length (filter (λ d, (date d ≤ today)%Z)
                                          (ideal_burndown data)))).
  { rewrite pastIdxs_filter. by rewrite <- (past_prefix today _ 0 Hsorted). }
  split; [|split; [|split]].
  - rewrite Hpast at 1. by rewrite Hpast, length_seq.
  - unfold actualPts. by rewrite length_fmap.
  - intros Hk. unfold approxRem. split; (case_decide; [|lia]).
    + apply Q.max_compat; [reflexivity|]. cbn [Z.of_nat].
      unfold Qdiv. rewrite Qmult_0_l, Qmult_0_r. ring.
    + apply Q.max_compat; [reflexivity|].
      assert (Hone : (inject_Z (Z.of_nat (length (pastIdxs today (ideal_burndown data)) - 1))
                      / (inject_Z (Z.of_nat (length (pastIdxs today (ideal_burndown data)))) - 1)
                      == 1)%Q).
      { rewrite Nat2Z.inj_sub by lia. rewrite inject_Z_pred.
        apply Qmult_inv_r. change 0%Q with (inject_Z 0).
        rewrite inject_Z_injective. lia. }
      rewrite Hone. ring.
  - intros idx. unfold approxRem. apply Q.le_max_l.
Qed.

Lemma le_maxV bars avg b :
  b ∈ bars → (completed_points b <= maxV bars avg)%Q.
Proof.
  unfold maxV. induction 1 as [b l|b b' l _ IH]; cbn [fmap list_fmap foldr].
  - apply Q.le_max_l.
  - eapply Qle_trans; [exact IH|]. apply Q.le_max_r.
Qed.

Lemma maxV_ge_1 bars avg : (1 <= maxV bars avg)%Q.
Proof.
  unfold maxV. induction bars as [|b l IH]; cbn [fmap list_fmap foldr].
  - apply Q.le_max_r.
  - eapply Qle_trans; [exact IH|]. apply Q.le_max_r.
Qed.

(** X21: a bar of the velocity chart never leaves the drawing area
    upwards: the scale is taken from the data, so a bar of a sprint
    with no negative points starts between the top and the axis. It is
    at least 2 high, and its lower edge is on the axis, or at most 2
    below it when the bar had to be stretched to that height. *)
Theorem velocity_bar_fits bars avg b :
  b ∈ bars → (0 <= completed_points b)%Q →
  (0 <= by_ bars avg b)%Q ∧ (by_ bars avg b <= vch)%Q
  ∧ (2 <= bh bars avg b)%Q ∧ (bh bars avg b <= vch)%Q
  ∧ (vch <= by_ bars avg b + bh bars avg b)%Q
  ∧ (by_ bars avg b + bh bars avg b <= vch + 2)%Q.
Proof.
  intros Hb Hpos. unfold bh, by_, vySc.
  destruct (sc_unit 0 (maxV bars avg) vch 0 _ Hpos (le_maxV bars avg b Hb))
    as (t & Ht0 & Ht1 & Hsc).
  set (y := sc 0 (maxV bars avg) vch 0 (completed_points b)) in *.
  assert (Hy : (0 <= y)%Q ∧ (y <= vch)%Q) by (rewrite Hsc; unfold vch; split; lra).
  destruct Hy as [Hy0 Hy1].
  destruct (Q.max_spec (vch - y) 2) as [[Hlt Hm]|[Hle Hm]]; rewrite Hm;
    unfold vch in *; repeat split; lra.
Qed.

(** X22: the bars of the velocity chart are between 18 and 64 wide
    and one slot apart. With up to 25 sprints each bar ends before the
    next one begins; from 26 sprints on the slot is narrower than the
    least width of a bar, and every bar runs into its neighbour. *)
Theorem velocity_bars_layout (n i : nat) :
  (1 ≤ n)%nat →
  (18 <= barW n)%Q ∧ (barW n <= 64)%Q
  ∧ (bx n (S i) - bx n i == step n)%Q
  ∧ ((bx n i + barW n <= bx n (S i))%Q ↔ (n ≤ 25)%nat).
Proof.
  intros Hn.
  assert (Hw : (18 <= barW n)%Q ∧ (barW n <= 64)%Q).
  { unfold barW. apply clamp_between. lra. }
  assert (Hstep : (bx n (S i) - bx n i == step n)%Q).
  { unfold bx. rewrite Nat2Z.inj_succ, <- Z.add_1_r, inject_Z_plus. ring. }
  assert (Hnpos : (0 < inject_Z (Z.of_nat n))%Q).
  { change 0%Q with (inject_Z 0). rewrite <- Zlt_Qlt. lia. }
  assert (Hslot : (18 <= step n)%Q ↔ (n ≤ 25)%nat).
  { unfold step, vcw. split.
    - intros H18.
      assert (Heq : ((520 - 44 - 24) / inject_Z (Z.of_nat n) * inject_Z (Z.of_nat n)
                     == 452)%Q) by (field; lra).
      assert (H : (18 * inject_Z (Z.of_nat n) <= 452)%Q).
      { rewrite <- Heq. apply Qmult_le_compat_r; [exact H18|lra]. }
      change 18%Q with (inject_Z 18) in H. change 452%Q with (inject_Z 452) in H.
      rewrite <- inject_Z_mult, <- Zle_Qle in H. lia.
    - intros Hle. apply Qle_shift_div_l; [done|].
      change 18%Q with (inject_Z 18). change (520 - 44 - 24)%Q with (inject_Z 452).
      rewrite <- inject_Z_mult, <- Zle_Qle. lia. }
  split; [apply Hw|]. split; [apply Hw|]. split; [exact Hstep|].
  rewrite <- Hslot.
  assert (Hbw : (barW n <= step n)%Q ↔ (18 <= step n)%Q).
  { split.
    - intros Hb. eapply Qle_trans; [apply Hw|exact Hb].
    - intros H18. unfold barW, clamp. apply Q.max_lub; [done|].
      eapply Qle_trans; [apply Q.le_min_r|]. fold (step n). lra. }
  rewrite <- Hbw. split; intros H; lra.
Qed.

End ChartFacts.

Lemma ideal_points_inside_witness :
  Forall (λ pt, (0 <= pt.1)%Q ∧ (pt.1 <= Analytics.cw)%Q
                ∧ (0 <= pt.2)%Q ∧ (pt.2 <= Analytics.ch)%Q)
         (Analytics.idealPts Scenario.chart).
Proof.
  apply ideal_points_inside.
  repeat (apply Forall_cons; split); [..|apply Forall_nil_2];
    split; vm_compute; discriminate.
Defined.

Lemma hover_index_in_range_witness :
  is_Some (Charts.at_index ["a"; "b"; "c"]
             (Charts.hover_idx (length ["a"; "b"; "c"]) 1000)).
Proof. apply hover_index_in_range. discriminate. Defined.

Lemma actual_line_shape_witness :
  Charts.pastIdxs 1 (Analytics.ideal_burndown Scenario.chart)
  = seq 0 (length (Charts.pastIdxs 1 (Analytics.ideal_burndown Scenario.chart))).
Proof.
  apply (actual_line_shape 1 Scenario.chart).
  vm_compute. repeat constructor; discriminate.
Defined.

Lemma velocity_bar_fits_witness :
  let b := {| Charts.sprint_name := "Sprint 1"; Charts.completed_points := 21 |} in
  (0 <= Charts.by_ Scenario.bars (55 # 2) b)%Q
  ∧ (Charts.by_ Scenario.bars (55 # 2) b <= Charts.vch)%Q.
Proof.
  cbn zeta.
  destruct (velocity_bar_fits Scenario.bars (55 # 2)
              {| Charts.sprint_name := "Sprint 1"; Charts.completed_points := 21 |})
    as (Hlo & Hhi & _).
  - apply list_elem_of_here.
  - vm_compute. discriminate.
  - split; [exact Hlo | exact Hhi].
Defined.

Lemma velocity_bars_layout_witness :
  ¬ (Charts.bx 26 0 + Charts.barW 26 <= Charts.bx 26 1)%Q.
Proof.
  intros Hfit. apply (velocity_bars_layout 26 0) in Hfit; lia.
Defined.

(** ** The dashboard *)

Section BoardFacts.

Import SprintBoard.

Lemma doneItems_le (l : list Item.t) : (doneItems l ≤ length l)%nat.
Proof. apply length_filter. Qed.

Lemma doneItems_all (l : list Item.t) :
  doneItems l = length l ↔ Forall (λ i, Item.status i = "Done") l.
Proof.
  unfold doneItems. induction l as [|i l IH]; [by split|].
  rewrite filter_cons, Forall_cons. case_decide; cbn [length].
  - rewrite <- IH. split; [intros [= ?]; by split|intros [_ ?]; by f_equal].
  - pose proof (length_filter (λ i, Item.status i = "Done") l).
    split; [lia|by intros [? _]].
Qed.

Lemma doneItems_none (l : list Item.t) :
  doneItems l = 0%nat ↔ Forall (λ i, Item.status i ≠ "Done") l.
Proof.
  unfold doneItems. induction l as [|i l IH]; [by split|].
  rewrite filter_cons, Forall_cons. case_decide; cbn [length].
  - split; [lia|by intros [? _]].
  - rewrite IH. split; [by split|by intros [_ ?]].
Qed.

(** The percentages of every sprint of fewer than 200 items, checked
    one by one. *)
Lemma percent_table :
  forallb (λ n, forallb (λ d, percent_ok d n) (seq 0 (S n))) (seq 1 199) = true.
Proof. vm_compute. reflexivity. Qed.

Lemma percent_small (d n : nat) :
  (0 < n < 200)%nat → (d ≤ n)%nat →
  (0 ≤ percent d n ≤ 100)%Z
  ∧ (percent d n = 100%Z ↔ d = n)
  ∧ (percent d n = 0%Z ↔ d = 0%nat).
Proof.
  intros Hn Hd. pose proof percent_table as Htable.
  rewrite forallb_forall in Htable.
  specialize (Htable n ltac:(apply in_seq; lia)). cbn beta in Htable.
  rewrite forallb_forall in Htable.
  specialize (Htable d ltac:(apply in_seq; lia)).
  unfold percent_ok in Htable.
  apply andb_prop in Htable as [Htable H0].
  apply andb_prop in Htable as [Htable H100].
  apply andb_prop in Htable as [Hlo Hhi].
  apply Z.leb_le in Hlo, Hhi. apply Bool.eqb_prop in H0, H100.
  split; [lia|]. split.
  - rewrite <- Z.eqb_eq, H100. apply Nat.eqb_eq.
  - rewrite <- Z.eqb_eq, H0. apply Nat.eqb_eq.
Qed.

(** X23: the progress of a sprint card, as the doubles of JavaScript
    give it, for a sprint of fewer than 200 items: a percentage between
    0 and 100, 0 for a sprint with no items, 100 exactly when there are
    items and every one is done, 0 exactly when none is done. *)
Theorem progress_percent (l : list Item.t) :
  (length l < 200)%nat →
  (0 ≤ progress l ≤ 100)%Z
  ∧ (l = [] → progress l = 0%Z)
  ∧ (progress l = 100%Z ↔ l ≠ [] ∧ Forall (λ i, Item.status i = "Done") l)
  ∧ (progress l = 0%Z ↔ Forall (λ i, Item.status i ≠ "Done") l).
Proof.
  intros Hsmall. unfold progress.
  destruct (decide (l = [])) as [->|Hne].
  { cbn. repeat split; try done; try lia. by intros [? _]. }
  assert (Hn : (0 < length l)%nat) by (destruct l; [done|cbn; lia]).
  rewrite decide_True by done.
  destruct (percent_small (doneItems l) (length l) ltac:(lia) (doneItems_le l))
    as (Hbounds & H100 & H0).
  split; [done|]. split; [done|]. split.
  - rewrite H100, doneItems_all. split; [by split|by intros [_ ?]].
  - by rewrite H0, doneItems_none.
Qed.

Lemma progress_percent_witness :
  let item status := {| Item.id := "i"; Item.sprint_id := Some "s1";
                        Item.status := status |} in
  (0 ≤ progress [item "Done"; item "To Do"; item "Done"] ≤ 100)%Z.
Proof.
  cbn zeta. eapply progress_percent. cbn. lia.
Defined.

Context {W : Type} (fetch : Call → W → Client.FetchResult * W).

Implicit Types (s : @Page.State W View).

Ltac step_page :=
  match goal with
  | |- context [Page.request ?f ?c ?s] =>
      let Hs := fresh "Hsent" in
      let Hu := fresh "Hview" in
      let Hv := fresh "Hsrv" in
      pose proof (page_request_sent f c s) as Hs;
      pose proof (page_request_view f c s) as Hu;
      pose proof (page_request_server f c s) as Hv;
      destruct (Page.request f c s) as [[?|?] [? ? ?]]; cbn [fst snd] in *
  end.

(** The reload never throws: it sends its three requests, in order, and
    ends with [loading] off and no alert. *)
Lemma loadData_returns spaceId s :
  ∃ s', loadData fetch spaceId s = (Client.Ok (), s')
        ∧ Page.sent s' = Page.sent s ++ reload spaceId
        ∧ loading (Page.view s') = false
        ∧ alerts (Page.view s') = alerts (Page.view s).
Proof.
  unfold loadData, Page.bind, Page.try_finally, Page.try_catch, Page.all3,
    Page.bind, Page.modify, Page.ret, reload.
  cbn [Page.server Page.sent Page.view].
  repeat step_page; cbn in *; subst;
    (eexists; split; [reflexivity|]); cbn;
    rewrite <- ?app_assoc; repeat split; done.
Qed.

(** X24: the reload of the dashboard never throws and raises no
    alert. It always sends its three requests, in the same order, and
    ends with [loading] off. The three lists are replaced together when
    all three requests are answered; when one of them fails, all three
    lists stay as they were. *)
Theorem loadData_all_or_nothing spaceId s :
  let a := Page.request fetch (SprintApi.getSprintsBySpace spaceId) s in
  let b := Page.request fetch (SprintApi.getBacklogItemsBySpace spaceId) a.2 in
  let c := Page.request fetch (SprintApi.getUnassignedBacklogItems spaceId) b.2 in
  ∃ s', loadData fetch spaceId s = (Client.Ok (), s')
        ∧ Page.sent s' = Page.sent s ++ reload spaceId
        ∧ loading (Page.view s') = false
        ∧ alerts (Page.view s') = alerts (Page.view s)
        ∧ match a.1, b.1, c.1 with
          | Client.Ok x, Client.Ok y, Client.Ok z =>
              sprints (Page.view s') = x
              ∧ backlogItems (Page.view s') = y
              ∧ unassignedItems (Page.view s') = z
          | _, _, _ =>
              sprints (Page.view s') = sprints (Page.view s)
              ∧ backlogItems (Page.view s') = backlogItems (Page.view s)
              ∧ unassignedItems (Page.view s') = unassignedItems (Page.view s)
          end.
Proof.
  cbn zeta. destruct s as [w l v].
  unfold loadData, Page.bind, Page.try_finally, Page.try_catch, Page.all3,
    Page.bind, Page.modify, Page.ret, reload.
  cbn [Page.server Page.sent Page.view].
  rewrite (page_request_any_view fetch _ w l (setLoading true v) v).
  destruct (Page.request fetch (SprintApi.getSprintsBySpace spaceId) _)
    as [ra [wa la va]] eqn:Ha.
  pose proof (page_request_sent fetch (SprintApi.getSprintsBySpace spaceId)
                {| Page.server := w; Page.sent := l; Page.view := v |}) as Hsa.
  pose proof (page_request_view fetch (SprintApi.getSprintsBySpace spaceId)
                {| Page.server := w; Page.sent := l; Page.view := v |}) as Hva.
  rewrite Ha in Hsa, Hva. cbn [fst snd Page.server Page.sent Page.view] in *. subst.
  rewrite (page_request_any_view fetch _ wa _ (setLoading true v) v).
  destruct (Page.request fetch (SprintApi.getBacklogItemsBySpace spaceId) _)
    as [rb [wb lb vb]] eqn:Hb.
  pose proof (page_request_sent fetch (SprintApi.getBacklogItemsBySpace spaceId)
                {| Page.server := wa; Page.sent := l ++ [SprintApi.getSprintsBySpace spaceId];
                   Page.view := v |}) as Hsb.
  pose proof (page_request_view fetch (SprintApi.getBacklogItemsBySpace spaceId)
                {| Page.server := wa; Page.sent := l ++ [SprintApi.getSprintsBySpace spaceId];
                   Page.view := v |}) as Hvb.
  rewrite Hb in Hsb, Hvb. cbn [fst snd Page.server Page.sent Page.view] in *. subst.
  rewrite (page_request_any_view fetch _ wb _ (setLoading true v) v).
  destruct (Page.request fetch (SprintApi.getUnassignedBacklogItems spaceId) _)
    as [rc [wc lc vc]] eqn:Hc.
  match type of Hc with
  | Page.request _ ?c ?s0 = _ =>
      pose proof (page_request_sent fetch c s0) as Hsc;
      pose proof (page_request_view fetch c s0) as Hvc
  end.
  rewrite Hc in Hsc, Hvc. cbn [fst snd Page.server Page.sent Page.view] in *. subst.
  destruct ra, rb, rc; (eexists; split; [reflexivity|]); cbn;
    rewrite <- ?app_assoc; repeat split; done.
Qed.

(** X25: the four handlers of the dashboard that change something
    on the server (delete a sprint, start a sprint, delete an item,
    assign an item to a sprint). A declined confirmation, or the
    placeholder of the sprint select, sends nothing. Otherwise the
    change is requested first; the lists are reloaded only when it went
    through, and then no alert is raised, even if the reload fails;
    when the change fails there is no reload, and the one alert names
    the failed change. *)
Theorem change_then_reload spaceId (id itemId sprintId : string)
    (handler : Page.M unit) (call : Call) (failure : string) s :
  sprintId ≠ "" →
  (handler, call, failure) ∈
    [(handleDeleteSprint fetch spaceId true id,
      SprintApi.deleteSprint id, "Failed to delete sprint: ");
     (handleStartSprint fetch spaceId id,
      SprintApi.startSprint id, "Failed to start sprint: ");
     (handleDeleteBacklog fetch spaceId true id,
      SprintApi.deleteBacklogItem id, "Failed to delete: ");
     (handleAssignToSprint fetch spaceId itemId sprintId,
      ApiClient.updateBacklogItem itemId (SprintPatch (Some sprintId)),
      "Failed to assign: ")] →
  handleDeleteSprint fetch spaceId false id s = (Client.Ok (), s)
  ∧ handleDeleteBacklog fetch spaceId false id s = (Client.Ok (), s)
  ∧ handleAssignToSprint fetch spaceId itemId "" s = (Client.Ok (), s)
  ∧ ∃ s', handler s = (Client.Ok (), s')
          ∧ match (Page.request fetch call s).1 with
            | Client.Ok _ =>
                Page.sent s' = Page.sent s ++ call :: reload spaceId
                ∧ alerts (Page.view s') = alerts (Page.view s)
                ∧ loading (Page.view s') = false
            | Client.Throw e =>
                Page.sent s' = Page.sent s ++ [call]
                ∧ Page.view s' = alert (failure +:+ e) (Page.view s)
            end.
Proof.
  intros Hsprint Hin.
  split; [done|]. split; [done|]. split; [done|].
  assert (Hrun : ∀ prefix,
    ∃ s', Page.try_catch
            (Page.bind (Page.request fetch call) (λ _, loadData fetch spaceId))
            (λ e, Page.modify (alert (prefix +:+ e))) s = (Client.Ok (), s')
          ∧ match (Page.request fetch call s).1 with
            | Client.Ok _ =>
                Page.sent s' = Page.sent s ++ call :: reload spaceId
                ∧ alerts (Page.view s') = alerts (Page.view s)
                ∧ loading (Page.view s') = false
            | Client.Throw e =>
                Page.sent s' = Page.sent s ++ [call]
                ∧ Page.view s' = alert (prefix +:+ e) (Page.view s)
            end).
  { intros prefix. unfold Page.try_catch, Page.bind at 1.
    step_page.
    - match goal with
      | |- context [loadData fetch spaceId ?s0] =>
          destruct (loadData_returns spaceId s0) as (s' & -> & Hs' & Hl & Ha)
      end.
      exists s'. split; [done|]. cbn in *. subst.
      rewrite Hs', <- app_assoc. done.
    - eexists. split; [reflexivity|]. cbn in *. by subst. }
  rewrite !elem_of_cons, elem_of_nil in Hin.
  destruct Hin as [Hin|[Hin|[Hin|[Hin|[]]]]]; injection Hin as -> -> ->.
  - apply Hrun.
  - apply Hrun.
  - apply Hrun.
  - unfold handleAssignToSprint. rewrite decide_False by done. apply Hrun.
Qed.

End BoardFacts.

(** ** The Kanban board and the two modals *)

Section ModalFacts.

Context {W : Type} (fetch : Call → W → Client.FetchResult * W).

Ltac step_page :=
  match goal with
  | |- context [Page.request ?f ?c ?s] =>
      let Hs := fresh "Hsent" in
      let Hu := fresh "Hview" in
      let Hv := fresh "Hsrv" in
      pose proof (page_request_sent f c s) as Hs;
      pose proof (page_request_view f c s) as Hu;
      pose proof (page_request_server f c s) as Hv;
      destruct (Page.request f c s) as [[?|?] [? ? ?]]; cbn [fst snd] in *
  end.

(** X26: a drop on the Kanban board never throws and always lets go
    of the dragged card. A drop with no card in hand, or on the column
    the card is in, sends nothing. Any other drop asks for the status
    change first, then for nothing else when that fails: the items are
    reloaded and the parent is told only after the change went
    through. *)
Theorem drop_outcome (sprintId : string) (onUpdate : @Page.Remote W unit)
    (newStatus : string) (s : @Page.State W Kanban.View) :
  ∃ s', Kanban.handleDrop fetch sprintId onUpdate newStatus s = (Client.Ok (), s')
        ∧ Kanban.draggedItem (Page.view s') = None
        ∧ match Kanban.draggedItem (Page.view s) with
          | Some dragged =>
              if decide (Kanban.status dragged = newStatus)
              then Page.sent s' = Page.sent s ∧ Page.server s' = Page.server s
              else
                let change :=
                  SprintApi.updateItemStatus (Kanban.id dragged) newStatus in
                match (Page.request fetch change s).1 with
                | Client.Ok _ =>
                    ∃ told,
                      Page.sent s'
                      = Page.sent s
                        ++ [change; ApiClient.getBacklogItemsBySprint sprintId]
                        ++ told
                | Client.Throw e =>
                    Page.sent s' = Page.sent s ++ [change]
                    ∧ Kanban.alerts (Page.view s')
                      = Kanban.alerts (Page.view s)
                        ++ ["Failed to update status: " +:+ e]
                end
          | None => Page.sent s' = Page.sent s ∧ Page.server s' = Page.server s
          end.
Proof.
  unfold Kanban.handleDrop, Page.bind at 1, Page.get.
  destruct (Kanban.draggedItem (Page.view s)) as [dragged|] eqn:Hd;
    [|by eexists].
  case_decide; [by eexists|]. cbn zeta.
  unfold Page.try_catch, Page.bind, Kanban.loadItems, Page.try_catch, Page.bind,
    Page.remote, Page.modify.
  cbn [Page.server Page.sent Page.view].
  step_page.
  - step_page; cbn [Page.server Page.sent Page.view] in *;
      match goal with
      | |- context [onUpdate ?w] => destruct (onUpdate w) as [[[[]|e] w'] told]
      end; cbn; subst;
      (eexists; split; [reflexivity|]); cbn; (split; [done|]);
      exists told; by rewrite <- !app_assoc.
  - eexists. split; [reflexivity|]. cbn in *. subst. done.
Qed.

Import FinishSprint.

(** The form of the modal after any sequence of inputs: the option is
    one of the two radio values (it starts as backlog), and the target
    is the placeholder or the id of an offered sprint. *)
Lemma form_reachable (offered : list AnalyzerPage.Sprint) (ins : list Input) :
  ins ⊆ inputs offered →
  let v := foldl (λ v i, change i v) initial ins in
  (moveOption v = "backlog" ∨ moveOption v = "sprint")
  ∧ (targetSprintId v = "" ∨ targetSprintId v ∈ (AnalyzerPage.id <$> offered))
  ∧ loading v = false.
Proof.
  cbn zeta. induction ins as [|i ins IH] using rev_ind; intros Hins.
  - cbn. auto.
  - rewrite foldl_app. cbn [foldl].
    destruct IH as (Hopt & Htarget & Hload).
    { intros x Hx. apply Hins. apply elem_of_app. by left. }
    assert (Hi : i ∈ inputs offered).
    { apply Hins. apply elem_of_app. right. by apply list_elem_of_singleton. }
    unfold inputs in Hi. rewrite elem_of_app, !elem_of_cons, elem_of_nil in Hi.
    destruct Hi as [[->|[->|[->|[]]]]|Hi]; cbn; auto.
    apply list_elem_of_fmap in Hi as (sp & -> & Hsp). cbn.
    split; [done|]. split; [|done]. right. apply list_elem_of_fmap. by exists sp.
Qed.

(** X27: where the incomplete items of a finished sprint can go.
    Whatever the user did to the form of the modal the dashboard opens,
    once the Finish button is enabled the destination it submits is the
    backlog or a sprint of the dashboard that is Planned and is not the
    sprint being finished. *)
Theorem finish_destination (sprints : list AnalyzerPage.Sprint)
    (finishingSprint : AnalyzerPage.Sprint) (ins : list Input) :
  let offered := SprintBoard.finish_candidates sprints finishingSprint in
  let v := foldl (λ v i, change i v) initial ins in
  ins ⊆ inputs offered →
  disabled v = false →
  sprint_id (finish_data finishingSprint v) = AnalyzerPage.id finishingSprint
  ∧ (move_incomplete_to (finish_data finishingSprint v) = "backlog"
     ∨ ∃ target, target ∈ sprints
         ∧ AnalyzerPage.id target = move_incomplete_to (finish_data finishingSprint v)
         ∧ AnalyzerPage.status target = "Planned"
         ∧ AnalyzerPage.id target ≠ AnalyzerPage.id finishingSprint).
Proof.
  cbn zeta. intros Hins Hen.
  destruct (form_reachable _ ins Hins) as (Hopt & Htarget & _).
  set (v := foldl _ initial ins) in *.
  split; [done|]. unfold finish_data. cbn.
  case_decide as Hmove; [|by left]. right.
  unfold disabled in Hen. rewrite Hmove in Hen.
  apply orb_false_iff in Hen as [_ Hen]. cbn in Hen.
  apply bool_decide_eq_false in Hen.
  destruct Htarget as [?|Htarget]; [done|].
  apply list_elem_of_fmap in Htarget as (target & Hid & Htarget).
  unfold SprintBoard.finish_candidates in Htarget.
  apply list_elem_of_filter in Htarget as [[Hplanned Hother] Hin].
  exists target. by rewrite Hid.
Qed.

(** X28: Finish Sprint never throws and always ends with [loading]
    off. The finish request goes out first. The modal closes exactly
    when that request and the parent's reload both went through;
    otherwise it stays open with one alert, and when the request itself
    fails the parent is not called. *)
Theorem finish_outcome (stringify : FinishData → string)
    (sprint : AnalyzerPage.Sprint) (onFinish : @Page.Remote W unit)
    (s : @Page.State W View) :
  let call :=
    SprintApi.finishSprint (AnalyzerPage.id sprint)
      (Raw (stringify (finish_data sprint (Page.view s)))) in
  ∃ s' told,
    handleFinish fetch stringify sprint onFinish s = (Client.Ok (), s')
    ∧ Page.sent s' = Page.sent s ++ call :: told
    ∧ loading (Page.view s') = false
    ∧ match (Page.request fetch call s).1 with
      | Client.Ok _ =>
          told = (onFinish (fetch call (Page.server s)).2).2
          ∧ match (onFinish (fetch call (Page.server s)).2).1.1 with
            | Client.Ok _ =>
                closed (Page.view s') = true
                ∧ alerts (Page.view s') = alerts (Page.view s)
            | Client.Throw e =>
                closed (Page.view s') = closed (Page.view s)
                ∧ alerts (Page.view s')
                  = alerts (Page.view s) ++ ["Failed to finish sprint: " +:+ e]
            end
      | Client.Throw e =>
          told = []
          ∧ closed (Page.view s') = closed (Page.view s)
          ∧ alerts (Page.view s')
            = alerts (Page.view s) ++ ["Failed to finish sprint: " +:+ e]
      end.
Proof.
  cbn zeta.
  unfold handleFinish, Page.bind, Page.try_finally, Page.try_catch, Page.bind,
    Page.get, Page.remote, Page.modify.
  cbn [Page.server Page.sent Page.view].
  rewrite (page_request_result fetch _ s).
  assert (Hdata : finish_data sprint (setLoading true (Page.view s))
                  = finish_data sprint (Page.view s)) by done.
  rewrite Hdata.
  match goal with
  | |- context [Page.request fetch ?c ?s0] =>
      pose proof (page_request_result fetch c s0) as Hres
  end.
  cbn [Page.server Page.sent Page.view] in Hres. rewrite <- Hres.
  step_page.
  - cbn [Page.server Page.sent Page.view] in *. subst.
    destruct (onFinish _) as [[[[]|e] w'] told]; cbn;
      (eexists _, told; split; [reflexivity|]); cbn;
      rewrite <- ?app_assoc; repeat split; done.
  - eexists _, []. split; [reflexivity|]. cbn in *. subst. done.
Qed.

End ModalFacts.

(** ** The backlog form *)

Section FormFacts.

Import BacklogForm.

(** X29: an item that is opened in the form and saved untouched
    goes back as it came. The request is an update of that very item
    and carries its title, description, type, priority and points; its
    sprint is sent as it was stored, and an item without a sprint (or
    with an empty one) is sent with a null sprint, never with an empty
    string. The space is that of the page. *)
Theorem edit_round_trip (stringify : Data.t → string) (spaceId : string)
    (item : Item.t) :
  let data := data_of spaceId (formData_of (Some item)) in
  submit stringify spaceId (Some item) (formData_of (Some item))
  = ApiClient.updateBacklogItem (Item.id item) (Raw (stringify data))
  ∧ Data.title data = Item.title item
  ∧ Data.description data = Item.description item
  ∧ Data.type data = Item.type item
  ∧ Data.priority data = Item.priority item
  ∧ Data.story_points data = Item.story_points item
  ∧ Data.space_id data = spaceId
  ∧ Data.sprint_id data ≠ Some ""
  ∧ (Data.sprint_id data = Item.sprint_id item
     ∨ (Data.sprint_id data = None ∧ Item.sprint_id item = Some "")).
Proof.
  cbn zeta. unfold submit, data_of, formData_of. cbn.
  repeat (split; [done|]).
  destruct (Item.sprint_id item) as [sp|]; cbn.
  - destruct (decide (sp = "")) as [->|Hsp]; cbn.
    + split; [done|]. by right.
    + rewrite !(bool_decide_eq_true_2 (sp ≠ "")) by done.
      split; [congruence|]. by left.
  - split; [done|]. by left.
Qed.

End FormFacts.

Lemma change_then_reload_witness :
  ∃ s', SprintBoard.handleStartSprint Backend.serve "space-1" "s2"
          (Scenario.on [] Scenario.board) = (Client.Ok (), s').
Proof.
  destruct (change_then_reload Backend.serve "space-1" "s2" "item-0" "s2"
              (SprintBoard.handleStartSprint Backend.serve "space-1" "s2")
              (SprintApi.startSprint "s2") "Failed to start sprint: "
              (Scenario.on [] Scenario.board))
    as (_ & _ & _ & s' & Hs' & _).
  - discriminate.
  - right. left.
  - by exists s'.
Defined.

Lemma finish_destination_witness :
  let ins := [FinishSprint.Radio "sprint"; FinishSprint.Select "s2"] in
  let v := foldl (λ v i, FinishSprint.change i v) FinishSprint.initial ins in
  FinishSprint.move_incomplete_to (FinishSprint.finish_data Scenario.sprint v)
  = "backlog"
  ∨ ∃ target, target ∈ [Scenario.sprint; Scenario.planned]
      ∧ AnalyzerPage.id target
        = FinishSprint.move_incomplete_to
            (FinishSprint.finish_data Scenario.sprint v)
      ∧ AnalyzerPage.status target = "Planned"
      ∧ AnalyzerPage.id target ≠ AnalyzerPage.id Scenario.sprint.
Proof.
  cbn zeta.
  apply (finish_destination [Scenario.sprint; Scenario.planned] Scenario.sprint
           [FinishSprint.Radio "sprint"; FinishSprint.Select "s2"]).
  - intros i Hi. rewrite !elem_of_cons, elem_of_nil in Hi.
    unfold FinishSprint.inputs. apply elem_of_app.
    destruct Hi as [->|[->|[]]].
    + left. rewrite !elem_of_cons. auto.
    + right. apply list_elem_of_fmap. exists Scenario.planned.
      split; [reflexivity|]. apply list_elem_of_filter.
      split; [split; [reflexivity|discriminate]|].
      rewrite !elem_of_cons. auto.
  - reflexivity.
Defined.
